(** * gl-tutorial: four OpenGL tutorial programs, embedded and verified

    The repository holds four standalone Go programs:

    - context creation        ([ContextCreation], context-creation.go, first unit),
    - the reflective cube     ([Cube], context-creation.go, second unit),
    - the flat-colour triangle ([Triangle], context-creation.go, third unit),
    - the textured quad       ([Quad], the unit with the element buffer).

    Each program is a straight sequence of calls into GLFW, OpenGL and the
    Go standard library.  The embedding is a state-and-error monad: the state
    records the window's should-close flag, the registered key and error
    callbacks, the deferred calls, everything printed and, in order, every
    library call issued.  What the libraries answer (did initialisation
    succeed, which events arrived, which errors GLFW reported, which error
    code is pending, what the PNG decoder produced) is read from a
    [World]. *)

From Stdlib Require Import ZArith List String Bool Lia QArith Arith DecimalString.
From Stdlib Require Import Reals Qreals.
Import ListNotations.

Open Scope Z_scope.

(* ================================================================= *)
(** ** Go machine integers *)

(** Go's [int] on the 64-bit targets: arithmetic wraps around. *)
Definition int_wrap (z : Z) : Z := (z + 2 ^ 63) mod 2 ^ 64 - 2 ^ 63.
Definition int_add (a b : Z) : Z := int_wrap (a + b).
Definition int_sub (a b : Z) : Z := int_wrap (a - b).
Definition int_mul (a b : Z) : Z := int_wrap (a * b).

(** Go's [(value, error)] pairs. *)
Inductive Result (A : Type) : Type :=
| Ok (a : A)
| Err (e : string).
Arguments Ok {A} a.
Arguments Err {A} e.

Definition nl : string := String (Ascii.ascii_of_nat 10) EmptyString.

(* ================================================================= *)
(** ** Library constants

    The numeric values are those of the OpenGL and GLFW 3 headers; the
    programs only pass them on, except for the four comparisons
    [glError != gl.NO_ERROR], [status != gl.TRUE], [action != glfw.Press]
    and [k == glfw.KeyEscape]. *)

Definition gl_NO_ERROR : Z := 0.
Definition gl_TRUE : Z := 1.
Definition gl_FALSE : Z := 0.
Definition gl_TRIANGLES : Z := 0x0004.
Definition gl_DEPTH_TEST : Z := 0x0B71.
Definition gl_STENCIL_TEST : Z := 0x0B90.
Definition gl_ARRAY_BUFFER : Z := 0x8892.
Definition gl_ELEMENT_ARRAY_BUFFER : Z := 0x8893.
Definition gl_STATIC_DRAW : Z := 0x88E4.
Definition gl_TEXTURE_2D : Z := 0x0DE1.
Definition gl_TEXTURE_MAG_FILTER : Z := 0x2800.
Definition gl_TEXTURE_MIN_FILTER : Z := 0x2801.
Definition gl_LINEAR : Z := 0x2601.
Definition gl_RGBA : Z := 0x1908.
Definition gl_UNSIGNED_BYTE : Z := 0x1401.
Definition gl_UNSIGNED_INT : Z := 0x1405.
Definition gl_FLOAT : Z := 0x1406.
Definition gl_TEXTURE0 : Z := 0x84C0.
Definition gl_TEXTURE1 : Z := 0x84C1.
Definition gl_VERTEX_SHADER : Z := 0x8B31.
Definition gl_FRAGMENT_SHADER : Z := 0x8B30.
Definition gl_COMPILE_STATUS : Z := 0x8B81.
Definition gl_LINK_STATUS : Z := 0x8B82.
Definition gl_VALIDATE_STATUS : Z := 0x8B83.
Definition gl_COLOR_BUFFER_BIT : Z := 0x4000.
Definition gl_DEPTH_BUFFER_BIT : Z := 0x0100.
Definition gl_STENCIL_BUFFER_BIT : Z := 0x0400.
Definition gl_ALWAYS : Z := 0x0207.
Definition gl_EQUAL : Z := 0x0202.
Definition gl_KEEP : Z := 0x1E00.
Definition gl_REPLACE : Z := 0x1E01.

Definition glfw_True : Z := 1.
Definition glfw_False : Z := 0.
Definition glfw_Resizable : Z := 0x00020003.
Definition glfw_ContextVersionMajor : Z := 0x00022002.
Definition glfw_ContextVersionMinor : Z := 0x00022003.
Definition glfw_OpenglForwardCompatible : Z := 0x00022006.
Definition glfw_OpenglProfile : Z := 0x00022008.
Definition glfw_OpenglCoreProfile : Z := 0x00032001.
Definition glfw_Release : Z := 0.
Definition glfw_Press : Z := 1.
Definition glfw_Repeat : Z := 2.
Definition glfw_KeyEscape : Z := 256.

(** [glh.Sizeof]: the size in bytes of a GL scalar type. *)
Definition glh_Sizeof (gtype : Z) : Z :=
  if gtype =? gl_FLOAT then 4
  else if gtype =? gl_UNSIGNED_INT then 4
  else if gtype =? gl_UNSIGNED_BYTE then 1
  else 0.

(* ================================================================= *)
(** ** Values handed to the libraries *)

(** A [float32] as the source computes it, kept symbolic: a literal, the
    constant [math.Pi], the conversion [float32(d.Seconds())] of a duration
    of [ns] nanoseconds, or a product. *)
Inductive F32 : Type :=
| FLit (q : Q)
| FPi
| FSeconds (ns : Z)
| FMul (a b : F32).

Record Vec3 : Type := mkVec3 { vx : F32; vy : F32; vz : F32 }.

(** A [glm.Mat4], by the mathgl expression that builds it. *)
Inductive Mat4 : Type :=
| HomogRotate3DZ (angle : F32)
| Translate3D (x y z : F32)
| Scale3D (x y z : F32)
| LookAtV (eye center up : Vec3)
| Perspective (fovy aspect near far : F32)
| Mul4 (a b : Mat4).

Inductive Window : Type := TheWindow.

Record Shader : Type := mkShader { shader_type : Z; shader_name : Z }.

Inductive BufferContents : Type :=
| Floats (l : list Q)
| Uints (l : list Z).

Record Rectangle : Type := mkRect { MinX : Z; MinY : Z; MaxX : Z; MaxY : Z }.

Definition Dx (r : Rectangle) : Z := int_sub (MaxX r) (MinX r).
Definition Dy (r : Rectangle) : Z := int_sub (MaxY r) (MinY r).

(** [image.NRGBA]: the pixel bytes, the distance in bytes between two
    rows, and the bounds. *)
Record NRGBA : Type := mkNRGBA {
  Pix : list Byte.byte;
  Stride : Z;
  Rect : Rectangle
}.

(** What [png.Decode] can hand back: an [*image.NRGBA], or an image of
    another concrete type. *)
Inductive Image : Type :=
| ImageNRGBA (p : NRGBA)
| ImageOther (bounds : Rectangle).

Definition Bounds (img : Image) : Rectangle :=
  match img with
  | ImageNRGBA p => Rect p
  | ImageOther b => b
  end.

(** Window-system events delivered by one [glfw.PollEvents]. *)
Inductive Event : Type :=
| KeyEvent (k scancode action mods : Z)
| CloseRequest
| OtherEvent.

(* ================================================================= *)
(** ** Library calls, as recorded in the trace *)

Inductive Call : Type :=
(* GLFW *)
| GlfwSetErrorCallback
| GlfwInit
| GlfwTerminate
| GlfwWindowHint (target hint : Z)
| GlfwGetPrimaryMonitor
| GlfwCreateWindow (width height : Z) (title : string) (fullscreen : bool)
| GlfwPollEvents
| WindowMakeContextCurrent
| WindowSetKeyCallback
| WindowShouldClose
| WindowSetShouldClose (value : bool)
| WindowSwapBuffers
| WindowGetFramebufferSize
| WindowDestroy
(* OpenGL *)
| GlInit
| GlGetError
| GlEnable (cap : Z)
| GlDisable (cap : Z)
| GlGenBuffers (n : Z)
| GlGenBuffer
| GlGenVertexArray
| GlGenTexture
| VertexArrayBind (vao : Z)
| VertexArrayDelete (vao : Z)
| BufferBind (buffer target : Z)
| BufferDelete (buffer : Z)
| GlBufferData (target size : Z) (data : BufferContents) (usage : Z)
| GlActiveTexture (unit : Z)
| TextureBind (texture target : Z)
| TextureDelete (texture : Z)
| GlTexParameterf (target pname : Z) (param : Z)
| GlTexImage2D (target level internalformat width height border format typ : Z)
    (data : list Byte.byte)
| GlCreateShader (typ : Z)
| ShaderSource (shader : Shader) (source : string)
| ShaderCompile (shader : Shader)
| ShaderGet (shader : Shader) (pname : Z)
| ShaderGetInfoLog (shader : Shader)
| GlCreateProgram
| ProgramAttachShader (program : Z) (shader : Shader)
| ProgramBindFragDataLocation (program colorNumber : Z) (name : string)
| ProgramLink (program : Z)
| ProgramUse (program : Z)
| ProgramValidate (program : Z)
| ProgramGet (program pname : Z)
| ProgramGetInfoLog (program : Z)
| ProgramGetAttribLocation (program : Z) (name : string)
| ProgramGetUniformLocation (program : Z) (name : string)
| AttribEnableArray (location : Z)
| AttribPointer (location size typ : Z) (normalized : bool) (stride : Z)
    (offset : option Z)
| Uniform3f (location : Z) (x y z : Q)
| Uniform1i (location : Z) (v : Z)
| UniformMatrix4fv (location : Z) (transpose : bool) (m : Mat4)
| GlViewport (x y width height : Z)
| GlClearColor (r g b a : Q)
| GlClear (mask : Z)
| GlDrawArrays (mode first count : Z)
| GlDrawElements (mode count typ : Z)
| GlStencilFunc (func ref mask : Z)
| GlStencilOp (fail zfail zpass : Z)
| GlStencilMask (mask : Z)
| GlDepthMask (flag : bool)
(* Go standard library *)
| OsOpen (name : string)
| FileClose (name : string)
| PngDecode
| TimeNow.

(* ================================================================= *)
(** ** The world: what the libraries answer *)

Record World : Type := mkWorld {
  (** [glfw.Init()] *)
  w_glfw_Init : bool;
  (** the error of [glfw.GetPrimaryMonitor()], if any *)
  w_GetPrimaryMonitor : option string;
  (** the error of [glfw.CreateWindow(...)], if any *)
  w_CreateWindow : option string;
  (** the events the [n]-th [glfw.PollEvents()] delivers *)
  w_events : nat -> list Event;
  (** the [n]-th answer of [window.GetFramebufferSize()] *)
  w_framebuffer : nat -> Z * Z;
  (** the [n]-th answer of [gl.GetError()] *)
  w_gl_GetError : nat -> Z;
  (** [glu.ErrorString] *)
  w_glu_ErrorString : Z -> Result string;
  (** [os.Open]: the file's bytes, or an error *)
  w_os_Open : string -> Result (list Byte.byte);
  (** [png.Decode] on the bytes of a reader *)
  w_png_Decode : list Byte.byte -> Result Image;
  (** [shader.Get(gl.COMPILE_STATUS)], by shader type *)
  w_compile_status : Z -> Z;
  (** [shader.GetInfoLog()], by shader type *)
  w_shader_log : Z -> string;
  (** the link status [program.Link()] leaves *)
  w_link_status : Z;
  (** what [program.Validate()] finds of a program that has linked *)
  w_validate_status : Z;
  (** [program.GetInfoLog()] *)
  w_program_log : string;
  (** [program.GetAttribLocation(name)] *)
  w_attrib_location : string -> Z;
  (** [program.GetUniformLocation(name)] *)
  w_uniform_location : string -> Z;
  (** the [n]-th reading of the monotonic clock, in nanoseconds *)
  w_clock : nat -> Z;
  (** the errors, each a code and a description, that GLFW reports while
      it serves the call at position [n] of the run *)
  w_glfw_errors : nat -> list (Z * string)
}.

(* ================================================================= *)
(** ** Program state *)

Record State : Type := mkState {
  should_close : bool;        (** the window's should-close flag *)
  key_callback : bool;        (** [handleKey] is registered *)
  error_callback : bool;      (** [errorCallback] is registered *)
  polled : nat;               (** [glfw.PollEvents] calls so far *)
  errors_read : nat;          (** [gl.GetError] calls so far *)
  sizes_read : nat;           (** [GetFramebufferSize] calls so far *)
  clock_read : nat;           (** [time.Now] calls so far *)
  objects : nat;              (** GL objects generated so far *)
  defers : list Call;         (** deferred calls, the latest first *)
  trace : list Call;          (** library calls issued, in order *)
  stdout : list string        (** what was printed, in order *)
}.

Definition init_state : State :=
  mkState false false false 0 0 0 0 0 [] [] [].

Definition set_should_close (b : bool) (s : State) : State :=
  mkState b (key_callback s) (error_callback s) (polled s) (errors_read s)
    (sizes_read s) (clock_read s) (objects s) (defers s) (trace s) (stdout s).
Definition set_key_callback (b : bool) (s : State) : State :=
  mkState (should_close s) b (error_callback s) (polled s) (errors_read s)
    (sizes_read s) (clock_read s) (objects s) (defers s) (trace s) (stdout s).
Definition set_error_callback (b : bool) (s : State) : State :=
  mkState (should_close s) (key_callback s) b (polled s) (errors_read s)
    (sizes_read s) (clock_read s) (objects s) (defers s) (trace s) (stdout s).
Definition set_polled (n : nat) (s : State) : State :=
  mkState (should_close s) (key_callback s) (error_callback s) n
    (errors_read s) (sizes_read s) (clock_read s) (objects s) (defers s)
    (trace s) (stdout s).
Definition set_errors_read (n : nat) (s : State) : State :=
  mkState (should_close s) (key_callback s) (error_callback s) (polled s) n
    (sizes_read s) (clock_read s) (objects s) (defers s) (trace s) (stdout s).
Definition set_sizes_read (n : nat) (s : State) : State :=
  mkState (should_close s) (key_callback s) (error_callback s) (polled s)
    (errors_read s) n (clock_read s) (objects s) (defers s) (trace s)
    (stdout s).
Definition set_clock_read (n : nat) (s : State) : State :=
  mkState (should_close s) (key_callback s) (error_callback s) (polled s)
    (errors_read s) (sizes_read s) n (objects s) (defers s) (trace s)
    (stdout s).
Definition set_objects (n : nat) (s : State) : State :=
  mkState (should_close s) (key_callback s) (error_callback s) (polled s)
    (errors_read s) (sizes_read s) (clock_read s) n (defers s) (trace s)
    (stdout s).
Definition set_defers (d : list Call) (s : State) : State :=
  mkState (should_close s) (key_callback s) (error_callback s) (polled s)
    (errors_read s) (sizes_read s) (clock_read s) (objects s) d (trace s)
    (stdout s).
Definition set_trace (t : list Call) (s : State) : State :=
  mkState (should_close s) (key_callback s) (error_callback s) (polled s)
    (errors_read s) (sizes_read s) (clock_read s) (objects s) (defers s) t
    (stdout s).
Definition set_stdout (o : list string) (s : State) : State :=
  mkState (should_close s) (key_callback s) (error_callback s) (polled s)
    (errors_read s) (sizes_read s) (clock_read s) (objects s) (defers s)
    (trace s) o.

(* ================================================================= *)
(** ** The monad: state, panics and fuel *)

Inductive Outcome (A : Type) : Type :=
| Ret (a : A)            (** the computation returned [a] *)
| Panic (v : string)     (** a Go panic with value [v] *)
| Timeout.               (** the fuel of a loop ran out *)
Arguments Ret {A} a.
Arguments Panic {A} v.
Arguments Timeout {A}.

Definition M (A : Type) : Type := State -> Outcome A * State.

Definition ret {A} (a : A) : M A := fun s => (Ret a, s).

Definition bind {A B} (m : M A) (k : A -> M B) : M B :=
  fun s =>
    match m s with
    | (Ret a, s') => k a s'
    | (Panic v, s') => (Panic v, s')
    | (Timeout, s') => (Timeout, s')
    end.

Notation "x <- m ;; k" := (bind m (fun x => k))
  (at level 61, m at next level, right associativity).
Notation "m ;; k" := (bind m (fun _ => k))
  (at level 61, right associativity).
Notation "' pat <- m ;; k" := (bind m (fun x => match x with pat => k end))
  (at level 61, pat pattern, m at next level, right associativity).

Definition panic {A} (v : string) : M A := fun s => (Panic v, s).
Definition timeout {A} : M A := fun s => (Timeout, s).
Definition lift {A} (o : Outcome A) : M A := fun s => (o, s).

(** Record a library call. *)
Definition call (c : Call) : M unit :=
  fun s => (Ret tt, set_trace (trace s ++ [c]) s).

(** [defer c]: push the call on the deferred stack. *)
Definition defer (c : Call) : M unit :=
  fun s => (Ret tt, set_defers (c :: defers s) s).

Definition print (line : string) : M unit :=
  fun s => (Ret tt, set_stdout (stdout s ++ [line]) s).

(** A new GL object name: the objects are numbered as they are made. *)
Definition gen_object : M Z :=
  fun s => (Ret (Z.of_nat (S (objects s))), set_objects (S (objects s)) s).

(** [for cond { body }], with fuel: one unit per evaluation of [cond]. *)
Fixpoint for_loop (fuel : nat) (cond : M bool) (body : M unit) : M unit :=
  match fuel with
  | O => timeout
  | S fuel' =>
      c <- cond ;;
      if c then body ;; for_loop fuel' cond body else ret tt
  end.

Fixpoint for_each {A} (l : list A) (f : A -> M unit) : M unit :=
  match l with
  | [] => ret tt
  | x :: l' => f x ;; for_each l' f
  end.

(** How a Go process ends. *)
Inductive Exit : Type :=
| ExitNormal                 (** [main] returned *)
| ExitPanic (message : string)  (** the runtime printed [panic: message] and aborted *)
| StillRunning.                 (** the fuel ran out *)

(** Run [main] as the Go runtime does, from the initial state.  When
    [main] returns, the process exits; when it panics, the runtime prints
    the panic value and aborts.  By then [main] has run its deferred calls
    (see [deferring]). *)
Definition go_run (main : M unit) : Exit * State :=
  match main init_state with
  | (Ret _, s) => (ExitNormal, s)
  | (Panic v, s) => (ExitPanic v, s)
  | (Timeout, s) => (StillRunning, s)
  end.

(* ================================================================= *)
(** ** Go slices and time *)

Definition len {A} (l : list A) : Z := Z.of_nat (List.length l).

(** The bounds check of [l[lo:hi]]; the capacity of a slice is taken to be
    its length, as [make] and [image.NewNRGBA] allocate it. *)
Definition in_bounds {A} (l : list A) (lo hi : Z) : bool :=
  (0 <=? lo) && (lo <=? hi) && (hi <=? len l).

(** [l[lo:hi]] *)
Definition slice {A} (l : list A) (lo hi : Z) : list A :=
  firstn (Z.to_nat (hi - lo)) (skipn (Z.to_nat lo) l).

(** [copy(data[lo:hi], src)]: the data after the copy, which moves
    [min(hi - lo, len(src))] elements. *)
Definition copy_to {A} (data : list A) (lo hi : Z) (src : list A) : list A :=
  let n := Nat.min (Z.to_nat (hi - lo)) (List.length src) in
  firstn (Z.to_nat lo) data ++ firstn n src ++ skipn (Z.to_nat lo + n) data.

(** [make([]byte, n)] *)
Definition make_bytes (n : Z) : Outcome (list Byte.byte) :=
  if n <? 0 then Panic "runtime error: makeslice: len out of range"
  else Ret (repeat Byte.x00 (Z.to_nat n)).

(** [time.Duration] is an [int64] of nanoseconds; [Time.Sub] saturates. *)
Definition minDuration : Z := - 2 ^ 63.
Definition maxDuration : Z := 2 ^ 63 - 1.
Definition time_Sub (t u : Z) : Z :=
  Z.max minDuration (Z.min maxDuration (t - u)).

(** The literal [x] of the source as a [float32]. *)
Definition lit (x : Q) : F32 := FLit x.

(** How [fmt] prints an integer and a [[]gl.Buffer]. *)
Definition show_Z (z : Z) : string := NilZero.string_of_int (Z.to_int z).
Definition show_buffers (buffers : list Z) : string :=
  ("[" ++ String.concat " " (map show_Z buffers) ++ "]" ++ nl)%string.

(** The panic value of [l[lo:hi]] out of bounds, as the Go runtime words it
    (since Go 1.13; before, the text ended with [range]).  The upper bound
    is checked first, against the capacity, then the lower bound against
    the upper; a negative bound is reported alone. *)
Definition slice_error {A} (l : list A) (lo hi : Z) : string :=
  ("runtime error: slice bounds out of range " ++
   (if (hi <? 0)%Z then "[:" ++ show_Z hi ++ "]"
    else if (len l <? hi)%Z then
      "[:" ++ show_Z hi ++ "] with capacity " ++ show_Z (len l)
    else if (lo <? 0)%Z then "[" ++ show_Z lo ++ ":]"
    else "[" ++ show_Z lo ++ ":" ++ show_Z hi ++ "]"))%string.

(* ================================================================= *)
(** ** The library calls and the functions every program repeats *)

Section Programs.

Variable w : World.

(** *** [errorCallback]

    Every program registers it first.  GLFW calls it with each error it
    reports.  [glfw.ErrorCode] is an integer type: [%v] prints the code in
    decimal. *)

Definition errorCallback (err : Z) (desc : string) : M unit :=
  print (show_Z err ++ ": " ++ desc ++ nl)%string.

(** *** GLFW *)

(** [glfw.SetErrorCallback(errorCallback)] *)
Definition glfw_SetErrorCallback : M unit :=
  call GlfwSetErrorCallback ;;
  fun s => (Ret tt, set_error_callback true s).

(** GLFW reports an error by calling the registered error callback on the
    spot, before the call that ran into it returns; without a callback the
    report is dropped. *)
Definition report_errors (errors : list (Z * string)) : M unit :=
  fun s =>
    if error_callback s
    then for_each errors (fun e => errorCallback (fst e) (snd e)) s
    else (Ret tt, s).

(** The calls during which GLFW can report an error.  The other calls of
    GLFW that the programs make ([SetErrorCallback], [GetPrimaryMonitor],
    [SetKeyCallback], [ShouldClose] and [SetShouldClose]) can only fail
    when GLFW is not initialised, and are made when it is. *)
Definition reports (c : Call) : bool :=
  match c with
  | GlfwInit | GlfwTerminate | GlfwWindowHint _ _
  | GlfwCreateWindow _ _ _ _ | GlfwPollEvents
  | WindowMakeContextCurrent | WindowSwapBuffers
  | WindowGetFramebufferSize | WindowDestroy => true
  | _ => false
  end.

(** Such a call: it is recorded, and GLFW reports what the world has it
    report at this position of the run. *)
Definition glfw (c : Call) : M unit :=
  fun s =>
    (call c ;; report_errors (w_glfw_errors w (List.length (trace s)))) s.

Definition glfw_Init : M bool :=
  glfw GlfwInit ;; ret (w_glfw_Init w).

Definition glfw_Terminate : Call := GlfwTerminate.

Definition glfw_WindowHint (target hint : Z) : M unit :=
  glfw (GlfwWindowHint target hint).

Definition glfw_GetPrimaryMonitor : M (option string) :=
  call GlfwGetPrimaryMonitor ;; ret (w_GetPrimaryMonitor w).

Definition glfw_CreateWindow (width height : Z) (title : string)
    (fullscreen : bool) : M (Window * option string) :=
  glfw (GlfwCreateWindow width height title fullscreen) ;;
  ret (TheWindow, w_CreateWindow w).

Definition Window_MakeContextCurrent (window : Window) : M unit :=
  glfw WindowMakeContextCurrent.

Definition Window_ShouldClose (window : Window) : M bool :=
  call WindowShouldClose ;;
  fun s => (Ret (should_close s), s).

Definition Window_SetShouldClose (window : Window) (value : bool) : M unit :=
  call (WindowSetShouldClose value) ;;
  fun s => (Ret tt, set_should_close value s).

Definition Window_SwapBuffers (window : Window) : M unit :=
  glfw WindowSwapBuffers.

Definition Window_GetFramebufferSize (window : Window) : M (Z * Z) :=
  glfw WindowGetFramebufferSize ;;
  fun s => (Ret (w_framebuffer w (sizes_read s)),
            set_sizes_read (S (sizes_read s)) s).

(** *** [handleKey] *)

Definition handleKey (window : Window) (k s action mods : Z) : M unit :=
  if negb (action =? glfw_Press) then
    ret tt
  else if k =? glfw_KeyEscape then
    Window_SetShouldClose window true
  else
    ret tt.

(** [window.SetKeyCallback(handleKey)] *)
Definition Window_SetKeyCallback (window : Window) : M unit :=
  call WindowSetKeyCallback ;;
  fun s => (Ret tt, set_key_callback true s).

(** What GLFW does with one event: a key event goes to the registered key
    callback, a close request sets the should-close flag. *)
Definition deliver (e : Event) : M unit :=
  match e with
  | KeyEvent k scancode action mods =>
      fun s => if key_callback s
               then handleKey TheWindow k scancode action mods s
               else (Ret tt, s)
  | CloseRequest => fun s => (Ret tt, set_should_close true s)
  | OtherEvent => ret tt
  end.

Definition glfw_PollEvents : M unit :=
  glfw GlfwPollEvents ;;
  events <- (fun s => (Ret (w_events w (polled s)),
                       set_polled (S (polled s)) s)) ;;
  for_each events deliver.

(** *** Deferred calls *)

(** A deferred call, when it runs. *)
Definition run_deferred (c : Call) : M unit :=
  if reports c then glfw c else call c.

Definition run_defers : M unit :=
  fun s =>
    (for_each (defers s) run_deferred ;;
     fun s' => (Ret tt, set_defers [] s')) s.

(** A function body with its [defer] statements: Go runs the deferred calls
    when the function returns or panics, the latest first, and a panic goes
    on after them.  While the body is still running none of them has run. *)
Definition deferring {A} (body : M A) : M A :=
  fun s =>
    match body s with
    | (Timeout, s') => (Timeout, s')
    | (o, s') => (o, snd (run_defers s'))
    end.

(** *** OpenGL calls that answer *)

Definition gl_GetError : M Z :=
  call GlGetError ;;
  fun s => (Ret (w_gl_GetError w (errors_read s)),
            set_errors_read (S (errors_read s)) s).

Definition gl_GenBuffers (n : Z) : M (list Z) :=
  call (GlGenBuffers n) ;;
  (fix gen (k : nat) : M (list Z) :=
     match k with
     | O => ret []
     | S k' => b <- gen_object ;; l <- gen k' ;; ret (b :: l)
     end) (Z.to_nat n).

Definition gl_GenBuffer : M Z := call GlGenBuffer ;; gen_object.
Definition gl_GenVertexArray : M Z := call GlGenVertexArray ;; gen_object.
Definition gl_GenTexture : M Z := call GlGenTexture ;; gen_object.

Definition gl_CreateShader (typ : Z) : M Shader :=
  call (GlCreateShader typ) ;;
  name <- gen_object ;;
  ret (mkShader typ name).

Definition gl_CreateProgram : M Z := call GlCreateProgram ;; gen_object.

Definition Shader_Get (sh : Shader) (pname : Z) : M Z :=
  call (ShaderGet sh pname) ;;
  ret (if pname =? gl_COMPILE_STATUS then w_compile_status w (shader_type sh)
       else 0).

Definition Shader_GetInfoLog (sh : Shader) : M string :=
  call (ShaderGetInfoLog sh) ;; ret (w_shader_log w (shader_type sh)).

(** [program.Validate()] checks whether the executable of the program can
    run in the current state of the GL.  A program that did not link has
    no executable: its validation fails. *)
Definition validate_status : Z :=
  if w_link_status w =? gl_TRUE then w_validate_status w else gl_FALSE.

Definition Program_Get (program pname : Z) : M Z :=
  call (ProgramGet program pname) ;;
  ret (if pname =? gl_VALIDATE_STATUS then validate_status
       else if pname =? gl_LINK_STATUS then w_link_status w
       else 0).

Definition Program_GetInfoLog (program : Z) : M string :=
  call (ProgramGetInfoLog program) ;; ret (w_program_log w).

Definition Program_GetAttribLocation (program : Z) (name : string) : M Z :=
  call (ProgramGetAttribLocation program name) ;;
  ret (w_attrib_location w name).

Definition Program_GetUniformLocation (program : Z) (name : string) : M Z :=
  call (ProgramGetUniformLocation program name) ;;
  ret (w_uniform_location w name).

(** *** The Go standard library *)

Definition os_Open (name : string) : M (Result (list Byte.byte)) :=
  call (OsOpen name) ;; ret (w_os_Open w name).

Definition png_Decode (r : list Byte.byte) : M (Result Image) :=
  call PngDecode ;; ret (w_png_Decode w r).

Definition time_Now : M Z :=
  call TimeNow ;;
  fun s => (Ret (w_clock w (clock_read s)),
            set_clock_read (S (clock_read s)) s).

Definition time_Since (t : Z) : M Z :=
  now <- time_Now ;; ret (time_Sub now t).

(** *** [checkError] *)

Definition checkError (prefix : string) : M unit :=
  glError <- gl_GetError ;;
  if negb (glError =? gl_NO_ERROR) then
    match w_glu_ErrorString w glError with
    | Err _ => print (prefix ++ ": unspecified error!" ++ nl)%string
    | Ok errorString => print (prefix ++ " error: " ++ errorString ++ nl)%string
    end
  else
    ret tt.

(** *** [createTexture] *)

(** The row loop
    [for src := 0; src < len(rgbaImg.Pix); src += rgbaImg.Stride]. *)
Fixpoint flip_rows (fuel : nat) (rgbaImg : NRGBA) (lineLen src dest : Z)
    (data : list Byte.byte) : Outcome (list Byte.byte) :=
  match fuel with
  | O => Timeout
  | S fuel' =>
      if src <? len (Pix rgbaImg) then
        if in_bounds data dest (int_add dest lineLen)
           && in_bounds (Pix rgbaImg) src (int_add src (Stride rgbaImg))
        then
          flip_rows fuel' rgbaImg lineLen
            (int_add src (Stride rgbaImg)) (int_sub dest lineLen)
            (copy_to data dest (int_add dest lineLen)
               (slice (Pix rgbaImg) src (int_add src (Stride rgbaImg))))
        else if in_bounds data dest (int_add dest lineLen) then
          Panic (slice_error (Pix rgbaImg) src (int_add src (Stride rgbaImg)))
        else
          Panic (slice_error data dest (int_add dest lineLen))
      else Ret data
  end.

(** The bytes handed to [gl.TexImage2D]: the image, bottom row first. *)
Definition flip_image (fuel : nat) (img : Image) (rgbaImg : NRGBA)
    : Outcome (list Byte.byte) :=
  let imgWidth := Dx (Bounds img) in
  let imgHeight := Dy (Bounds img) in
  match make_bytes (int_mul (int_mul imgWidth imgHeight) 4) with
  | Ret data =>
      let lineLen := int_mul imgWidth 4 in
      let dest := int_sub (len data) lineLen in
      flip_rows fuel rgbaImg lineLen 0 dest data
  | Panic v => Panic v
  | Timeout => Timeout
  end.

Definition createTexture (fuel : nat) (r : list Byte.byte)
    : M (Z * option string) :=
  d <- png_Decode r ;;
  match d with
  | Err err => ret (0, Some err)
  | Ok img =>
      match img with
      | ImageOther _ => ret (0, Some "texture must be an NRGBA image"%string)
      | ImageNRGBA rgbaImg =>
          textureId <- gl_GenTexture ;;
          call (TextureBind textureId gl_TEXTURE_2D) ;;
          call (GlTexParameterf gl_TEXTURE_2D gl_TEXTURE_MAG_FILTER gl_LINEAR) ;;
          call (GlTexParameterf gl_TEXTURE_2D gl_TEXTURE_MIN_FILTER gl_LINEAR) ;;
          (* flip image: first pixel is lower left corner *)
          data <- lift (flip_image fuel img rgbaImg) ;;
          call (GlTexImage2D gl_TEXTURE_2D 0 gl_RGBA (Dx (Bounds img))
                  (Dy (Bounds img)) 0 gl_RGBA gl_UNSIGNED_BYTE data) ;;
          ret (textureId, None)
      end
  end.

End Programs.

(* ================================================================= *)
(** ** Program 1: context creation *)

Module ContextCreation.
Section Main.

Variable w : World.

(** [main], up to the render loop. *)
Definition setup : M Window :=
  glfw_SetErrorCallback ;;
  ok <- glfw_Init w ;;
  if negb ok then panic "Can't init glfw!" else
  defer glfw_Terminate ;;
  (* set opengl version *)
  glfw_WindowHint w glfw_ContextVersionMajor 3 ;;
  glfw_WindowHint w glfw_ContextVersionMinor 2 ;;
  glfw_WindowHint w glfw_OpenglProfile glfw_OpenglCoreProfile ;;
  glfw_WindowHint w glfw_OpenglForwardCompatible glfw_True ;;
  (* turn off resizing *)
  glfw_WindowHint w glfw_Resizable glfw_False ;;
  err <- glfw_GetPrimaryMonitor w ;;
  match err with
  | Some e => panic e
  | None =>
  ' (window, err) <- glfw_CreateWindow w 2560 1600 "Testing" true ;;
  match err with
  | Some e => panic e
  | None =>
  Window_MakeContextCurrent w window ;;
  Window_SetKeyCallback window ;;
  call GlInit ;;
  buffers <- gl_GenBuffers 1 ;;
  print (show_buffers buffers) ;;
  ret window
  end end.

(** The body of the render loop. *)
Definition frame (window : Window) : M unit :=
  (* Do OpenGL stuff *)
  Window_SwapBuffers w window ;;
  glfw_PollEvents w.

Definition main (fuel : nat) : M unit :=
  deferring w
    (window <- setup ;;
     for_loop fuel (c <- Window_ShouldClose window ;; ret (negb c))
       (frame window)).

End Main.
End ContextCreation.

(* ================================================================= *)
(** ** Program 2: the reflective cube *)

Module Cube.

Definition vertexSource : string := "
#version 150

in vec3 position;
in vec3 color;
in vec2 texcoord;

out vec3 Color;
out vec2 Texcoord;

uniform mat4 model;
uniform mat4 view;
uniform mat4 proj;
uniform vec3 overrideColor;

void main()
{
	Texcoord = texcoord;
	Color = overrideColor * color;
	gl_Position = proj * view * model * vec4(position, 1.0);
}
".

Definition fragmentSource : string := "
#version 150

in vec3 Color;
in vec2 Texcoord;

out vec4 outColor;

uniform sampler2D texKitten;
uniform sampler2D texPuppy;

void main()
{
	vec4 colKitten = texture(texKitten, Texcoord);
	vec4 colPuppy = texture(texPuppy, Texcoord);
	outColor = vec4(Color, 1.0) * mix(colKitten, colPuppy, 0.5);
}
".

Definition vertices : list Q := [
    -0.5; -0.5; -0.5; 1.0; 1.0; 1.0; 0.0; 0.0;
    0.5; -0.5; -0.5; 1.0; 1.0; 1.0; 1.0; 0.0;
    0.5; 0.5; -0.5; 1.0; 1.0; 1.0; 1.0; 1.0;
    0.5; 0.5; -0.5; 1.0; 1.0; 1.0; 1.0; 1.0;
    -0.5; 0.5; -0.5; 1.0; 1.0; 1.0; 0.0; 1.0;
    -0.5; -0.5; -0.5; 1.0; 1.0; 1.0; 0.0; 0.0;

    -0.5; -0.5; 0.5; 1.0; 1.0; 1.0; 0.0; 0.0;
    0.5; -0.5; 0.5; 1.0; 1.0; 1.0; 1.0; 0.0;
    0.5; 0.5; 0.5; 1.0; 1.0; 1.0; 1.0; 1.0;
    0.5; 0.5; 0.5; 1.0; 1.0; 1.0; 1.0; 1.0;
    -0.5; 0.5; 0.5; 1.0; 1.0; 1.0; 0.0; 1.0;
    -0.5; -0.5; 0.5; 1.0; 1.0; 1.0; 0.0; 0.0;

    -0.5; 0.5; 0.5; 1.0; 1.0; 1.0; 1.0; 0.0;
    -0.5; 0.5; -0.5; 1.0; 1.0; 1.0; 1.0; 1.0;
    -0.5; -0.5; -0.5; 1.0; 1.0; 1.0; 0.0; 1.0;
    -0.5; -0.5; -0.5; 1.0; 1.0; 1.0; 0.0; 1.0;
    -0.5; -0.5; 0.5; 1.0; 1.0; 1.0; 0.0; 0.0;
    -0.5; 0.5; 0.5; 1.0; 1.0; 1.0; 1.0; 0.0;

    0.5; 0.5; 0.5; 1.0; 1.0; 1.0; 1.0; 0.0;
    0.5; 0.5; -0.5; 1.0; 1.0; 1.0; 1.0; 1.0;
    0.5; -0.5; -0.5; 1.0; 1.0; 1.0; 0.0; 1.0;
    0.5; -0.5; -0.5; 1.0; 1.0; 1.0; 0.0; 1.0;
    0.5; -0.5; 0.5; 1.0; 1.0; 1.0; 0.0; 0.0;
    0.5; 0.5; 0.5; 1.0; 1.0; 1.0; 1.0; 0.0;

    -0.5; -0.5; -0.5; 1.0; 1.0; 1.0; 0.0; 1.0;
    0.5; -0.5; -0.5; 1.0; 1.0; 1.0; 1.0; 1.0;
    0.5; -0.5; 0.5; 1.0; 1.0; 1.0; 1.0; 0.0;
    0.5; -0.5; 0.5; 1.0; 1.0; 1.0; 1.0; 0.0;
    -0.5; -0.5; 0.5; 1.0; 1.0; 1.0; 0.0; 0.0;
    -0.5; -0.5; -0.5; 1.0; 1.0; 1.0; 0.0; 1.0;

    -0.5; 0.5; -0.5; 1.0; 1.0; 1.0; 0.0; 1.0;
    0.5; 0.5; -0.5; 1.0; 1.0; 1.0; 1.0; 1.0;
    0.5; 0.5; 0.5; 1.0; 1.0; 1.0; 1.0; 0.0;
    0.5; 0.5; 0.5; 1.0; 1.0; 1.0; 1.0; 0.0;
    -0.5; 0.5; 0.5; 1.0; 1.0; 1.0; 0.0; 0.0;
    -0.5; 0.5; -0.5; 1.0; 1.0; 1.0; 0.0; 1.0;

    -1.0; -1.0; -0.5; 0.0; 0.0; 0.0; 0.0; 0.0;
    1.0; -1.0; -0.5; 0.0; 0.0; 0.0; 1.0; 0.0;
    1.0; 1.0; -0.5; 0.0; 0.0; 0.0; 1.0; 1.0;
    1.0; 1.0; -0.5; 0.0; 0.0; 0.0; 1.0; 1.0;
    -1.0; 1.0; -0.5; 0.0; 0.0; 0.0; 0.0; 1.0;
    -1.0; -1.0; -0.5; 0.0; 0.0; 0.0; 0.0; 0.0
  ]%Q.

Record Locals : Type := mkLocals {
  window : Window;
  modelLocation : Z;
  overrideColorLocation : Z;
  startTime : Z
}.

Section Main.

Variable w : World.

(** [main], up to the render loop. *)
Definition setup (fuel : nat) : M Locals :=
  glfw_SetErrorCallback ;;
  ok <- glfw_Init w ;;
  if negb ok then panic "Can't init glfw!" else
  defer glfw_Terminate ;;
  (* set opengl version *)
  glfw_WindowHint w glfw_ContextVersionMajor 3 ;;
  glfw_WindowHint w glfw_ContextVersionMinor 2 ;;
  glfw_WindowHint w glfw_OpenglProfile glfw_OpenglCoreProfile ;;
  glfw_WindowHint w glfw_OpenglForwardCompatible glfw_True ;;
  (* turn off resizing *)
  glfw_WindowHint w glfw_Resizable glfw_False ;;
  ' (window, err) <- glfw_CreateWindow w 800 600 "Testing" false ;;
  match err with
  | Some e => panic e
  | None =>
  defer WindowDestroy ;;
  Window_MakeContextCurrent w window ;;
  Window_SetKeyCallback window ;;
  call GlInit ;;
  _ <- gl_GetError w ;; (* ignore INVALID_ENUM that GLEW raises when using OpenGL 3.2+ *)
  call (GlEnable gl_DEPTH_TEST) ;;
  (* create Vertex Array Object to save shader attributes *)
  vao <- gl_GenVertexArray ;;
  defer (VertexArrayDelete vao) ;;
  call (VertexArrayBind vao) ;;
  checkError w "vertex array object" ;;
  (* setup vertex data *)
  vbo <- gl_GenBuffer ;;
  defer (BufferDelete vbo) ;;
  call (BufferBind vbo gl_ARRAY_BUFFER) ;;
  call (GlBufferData gl_ARRAY_BUFFER
          (int_mul (glh_Sizeof gl_FLOAT) (len vertices))
          (Floats vertices) gl_STATIC_DRAW) ;;
  checkError w "vertex data" ;;
  (* setup texture data *)
  sample <- os_Open w "sample.png" ;;
  match sample with
  | Err e => panic e
  | Ok sample =>
  call (GlActiveTexture gl_TEXTURE0) ;;
  ' (texture0, err) <- createTexture w fuel sample ;;
  match err with
  | Some e => panic e
  | None =>
  defer (TextureDelete texture0) ;;
  call (FileClose "sample.png") ;;
  sample2 <- os_Open w "sample2.png" ;;
  match sample2 with
  | Err e => panic e
  | Ok sample2 =>
  call (GlActiveTexture gl_TEXTURE1) ;;
  ' (texture1, err) <- createTexture w fuel sample2 ;;
  match err with
  | Some e => panic e
  | None =>
  defer (TextureDelete texture1) ;;
  call (FileClose "sample2.png") ;;
  (* compile vertex shader *)
  vertexShader <- gl_CreateShader gl_VERTEX_SHADER ;;
  call (ShaderSource vertexShader vertexSource) ;;
  call (ShaderCompile vertexShader) ;;
  status <- Shader_Get w vertexShader gl_COMPILE_STATUS ;;
  (if negb (status =? gl_TRUE) then
     log <- Shader_GetInfoLog w vertexShader ;;
     panic ("vertex shader compilation error: " ++ log)%string
   else ret tt) ;;
  checkError w "vertex shader" ;;
  (* compile fragment shader *)
  fragmentShader <- gl_CreateShader gl_FRAGMENT_SHADER ;;
  call (ShaderSource fragmentShader fragmentSource) ;;
  call (ShaderCompile fragmentShader) ;;
  status <- Shader_Get w fragmentShader gl_COMPILE_STATUS ;;
  (if negb (status =? gl_TRUE) then
     log <- Shader_GetInfoLog w fragmentShader ;;
     panic ("fragment shader compilation error: " ++ log)%string
   else ret tt) ;;
  checkError w "fragment shader" ;;
  (* create shader program *)
  program <- gl_CreateProgram ;;
  call (ProgramAttachShader program vertexShader) ;;
  call (ProgramAttachShader program fragmentShader) ;;
  call (ProgramBindFragDataLocation program 0 "outColor") ;;
  call (ProgramLink program) ;;
  call (ProgramUse program) ;;
  call (ProgramValidate program) ;;
  status <- Program_Get w program gl_VALIDATE_STATUS ;;
  (if negb (status =? gl_TRUE) then
     log <- Program_GetInfoLog w program ;;
     panic ("program error: " ++ log)%string
   else ret tt) ;;
  checkError w "program" ;;
  (* tell vertex shader how to process vertex data *)
  posAttrib <- Program_GetAttribLocation w program "position" ;;
  call (AttribEnableArray posAttrib) ;;
  call (AttribPointer posAttrib 3 gl_FLOAT false
          (int_mul 8 (glh_Sizeof gl_FLOAT)) None) ;;
  checkError w "position attrib pointer" ;;
  (* color attribute *)
  colAttrib <- Program_GetAttribLocation w program "color" ;;
  call (AttribEnableArray colAttrib) ;;
  call (AttribPointer colAttrib 3 gl_FLOAT false
          (int_mul 8 (glh_Sizeof gl_FLOAT))
          (Some (int_mul 3 (glh_Sizeof gl_FLOAT)))) ;;
  checkError w "color attrib pointer" ;;
  (* texcoord attribute *)
  texAttrib <- Program_GetAttribLocation w program "texcoord" ;;
  call (AttribEnableArray texAttrib) ;;
  call (AttribPointer texAttrib 2 gl_FLOAT false
          (int_mul 8 (glh_Sizeof gl_FLOAT))
          (Some (int_mul 6 (glh_Sizeof gl_FLOAT)))) ;;
  checkError w "texcoord attrib pointer" ;;
  (* overrideColor uniform *)
  overrideColorLocation <- Program_GetUniformLocation w program "overrideColor" ;;
  call (Uniform3f overrideColorLocation 1.0 1.0 1.0) ;;
  checkError w "overrideColor uniform pointer" ;;
  (* setup texture uniforms *)
  texKittenLocation <- Program_GetUniformLocation w program "texKitten" ;;
  call (Uniform1i texKittenLocation 0) ;;
  texPuppyLocation <- Program_GetUniformLocation w program "texPuppy" ;;
  call (Uniform1i texPuppyLocation 1) ;;
  (* setup matrices *)
  modelLocation <- Program_GetUniformLocation w program "model" ;;
  viewLocation <- Program_GetUniformLocation w program "view" ;;
  let view := LookAtV
    (mkVec3 (lit 2.2) (lit 3.2) (lit 2.2))
    (mkVec3 (lit 0.0) (lit 0.0) (lit 0.0))
    (mkVec3 (lit 0.0) (lit 0.0) (lit 0.5)) in
  call (UniformMatrix4fv viewLocation false view) ;;
  projLocation <- Program_GetUniformLocation w program "proj" ;;
  let proj := Perspective (lit 45.0) (lit (800.0 / 600.0)) (lit 1.0) (lit 10.0) in
  call (UniformMatrix4fv projLocation false proj) ;;
  startTime <- time_Now w ;;
  ret (mkLocals window modelLocation overrideColorLocation startTime)
  end end end end end.

(** The body of the render loop. *)
Definition frame (l : Locals) : M unit :=
  glfw_PollEvents w ;;
  (* clear the screen to black *)
  ' (width, height) <- Window_GetFramebufferSize w (window l) ;;
  call (GlViewport 0 0 width height) ;;
  call (GlClearColor 1.0 1.0 1.0 1.0) ;;
  call (GlClear (Z.lor gl_COLOR_BUFFER_BIT gl_DEPTH_BUFFER_BIT)) ;;
  (* rotate *)
  diffTime <- time_Since w (startTime l) ;;
  let model := HomogRotate3DZ (FMul FPi (FSeconds diffTime)) in
  call (UniformMatrix4fv (modelLocation l) false model) ;;
  (* draw top box *)
  call (GlDrawArrays gl_TRIANGLES 0 36) ;;
  (* enable stencils *)
  call (GlEnable gl_STENCIL_TEST) ;;
  (* draw floor *)
  call (GlStencilFunc gl_ALWAYS 1 0xFF) ;;
  call (GlStencilOp gl_KEEP gl_KEEP gl_REPLACE) ;;
  call (GlStencilMask 0xFF) ;;
  call (GlDepthMask false) ;;
  call (GlClear gl_STENCIL_BUFFER_BIT) ;;
  call (GlDrawArrays gl_TRIANGLES 36 6) ;;
  (* draw reflection *)
  call (GlStencilFunc gl_EQUAL 1 0xFF) ;;
  call (GlStencilMask 0x00) ;;
  call (GlDepthMask true) ;;
  let model := Mul4 (Mul4 model (Translate3D (lit 0.0) (lit 0.0) (lit (-1.0))))
                 (Scale3D (lit 1.0) (lit 1.0) (lit (-1.0))) in
  call (UniformMatrix4fv (modelLocation l) false model) ;;
  call (Uniform3f (overrideColorLocation l) 0.3 0.3 0.3) ;;
  call (GlDrawArrays gl_TRIANGLES 0 36) ;;
  call (Uniform3f (overrideColorLocation l) 1.0 1.0 1.0) ;;
  (* disable stencils *)
  call (GlDisable gl_STENCIL_TEST) ;;
  checkError w "main loop" ;;
  Window_SwapBuffers w (window l).

Definition main (fuel : nat) : M unit :=
  deferring w
    (l <- setup fuel ;;
     for_loop fuel (c <- Window_ShouldClose (window l) ;; ret (negb c))
       (frame l)).

End Main.
End Cube.

(* ================================================================= *)
(** ** Program 3: the flat-colour triangle *)

Module Triangle.

Definition vertexSource : string := "
#version 150

in vec2 position;
in vec3 color;

out vec3 Color;

void main()
{
	Color = color;
	gl_Position = vec4(position, 0.0, 1.0);
}
".

Definition fragmentSource : string := "
#version 150

in vec3 Color;
out vec4 outColor;

void main()
{
	outColor = vec4(Color, 1.0);
}
".

Definition vertices : list Q := [
    -0.5; 0.5; 1.0; 0.0; 0.0;
    0.5; 0.5; 0.0; 1.0; 0.0;
    0.5; -0.5; 0.0; 0.0; 1.0;

    0.5; -0.5; 0.0; 0.0; 1.0;
    -0.5; -0.5; 1.0; 1.0; 1.0;
    -0.5; 0.5; 1.0; 0.0; 0.0
  ]%Q.

Section Main.

Variable w : World.

(** [main], up to the render loop. *)
Definition setup : M Window :=
  glfw_SetErrorCallback ;;
  ok <- glfw_Init w ;;
  if negb ok then panic "Can't init glfw!" else
  defer glfw_Terminate ;;
  (* set opengl version *)
  glfw_WindowHint w glfw_ContextVersionMajor 3 ;;
  glfw_WindowHint w glfw_ContextVersionMinor 2 ;;
  glfw_WindowHint w glfw_OpenglProfile glfw_OpenglCoreProfile ;;
  glfw_WindowHint w glfw_OpenglForwardCompatible glfw_True ;;
  (* turn off resizing *)
  glfw_WindowHint w glfw_Resizable glfw_False ;;
  ' (window, err) <- glfw_CreateWindow w 800 600 "Testing" false ;;
  match err with
  | Some e => panic e
  | None =>
  defer WindowDestroy ;;
  Window_MakeContextCurrent w window ;;
  Window_SetKeyCallback window ;;
  call GlInit ;;
  _ <- gl_GetError w ;; (* ignore INVALID_ENUM that GLEW raises when using OpenGL 3.2+ *)
  (* create Vertex Array Object to save shader attributes *)
  vao <- gl_GenVertexArray ;;
  call (VertexArrayBind vao) ;;
  checkError w "vertex array object" ;;
  (* setup vertex data *)
  vbo <- gl_GenBuffer ;;
  call (BufferBind vbo gl_ARRAY_BUFFER) ;;
  call (GlBufferData gl_ARRAY_BUFFER
          (int_mul (glh_Sizeof gl_FLOAT) (len vertices))
          (Floats vertices) gl_STATIC_DRAW) ;;
  checkError w "vertex data" ;;
  (* compile vertex shader *)
  vertexShader <- gl_CreateShader gl_VERTEX_SHADER ;;
  call (ShaderSource vertexShader vertexSource) ;;
  call (ShaderCompile vertexShader) ;;
  status <- Shader_Get w vertexShader gl_COMPILE_STATUS ;;
  (if negb (status =? gl_TRUE) then
     log <- Shader_GetInfoLog w vertexShader ;;
     panic ("vertex shader compilation error: " ++ log)%string
   else ret tt) ;;
  checkError w "vertex shader" ;;
  (* compile fragment shader *)
  fragmentShader <- gl_CreateShader gl_FRAGMENT_SHADER ;;
  call (ShaderSource fragmentShader fragmentSource) ;;
  call (ShaderCompile fragmentShader) ;;
  status <- Shader_Get w fragmentShader gl_COMPILE_STATUS ;;
  (if negb (status =? gl_TRUE) then
     log <- Shader_GetInfoLog w fragmentShader ;;
     panic ("fragment shader compilation error: " ++ log)%string
   else ret tt) ;;
  checkError w "fragment shader" ;;
  (* create shader program *)
  program <- gl_CreateProgram ;;
  call (ProgramAttachShader program vertexShader) ;;
  call (ProgramAttachShader program fragmentShader) ;;
  call (ProgramBindFragDataLocation program 0 "outColor") ;;
  call (ProgramLink program) ;;
  call (ProgramUse program) ;;
  call (ProgramValidate program) ;;
  status <- Program_Get w program gl_VALIDATE_STATUS ;;
  (if negb (status =? gl_TRUE) then
     log <- Program_GetInfoLog w program ;;
     panic ("program error: " ++ log)%string
   else ret tt) ;;
  checkError w "program" ;;
  (* tell vertex shader how to process vertex data *)
  posAttrib <- Program_GetAttribLocation w program "position" ;;
  call (AttribEnableArray posAttrib) ;;
  call (AttribPointer posAttrib 2 gl_FLOAT false
          (int_mul 5 (glh_Sizeof gl_FLOAT)) None) ;;
  checkError w "position attrib pointer" ;;
  colAttrib <- Program_GetAttribLocation w program "color" ;;
  call (AttribEnableArray colAttrib) ;;
  call (AttribPointer colAttrib 3 gl_FLOAT false
          (int_mul 5 (glh_Sizeof gl_FLOAT))
          (Some (int_mul 2 (glh_Sizeof gl_FLOAT)))) ;;
  checkError w "color attrib pointer" ;;
  ret window
  end.

(** The body of the render loop. *)
Definition frame (window : Window) : M unit :=
  glfw_PollEvents w ;;
  (* clear the screen to black *)
  ' (width, height) <- Window_GetFramebufferSize w window ;;
  call (GlViewport 0 0 width height) ;;
  call (GlClearColor 0.0 0.0 0.0 1.0) ;;
  call (GlClear gl_COLOR_BUFFER_BIT) ;;
  (* draw triangles *)
  call (GlDrawArrays gl_TRIANGLES 0 6) ;;
  checkError w "main loop" ;;
  Window_SwapBuffers w window.

Definition main (fuel : nat) : M unit :=
  deferring w
    (window <- setup ;;
     for_loop fuel (c <- Window_ShouldClose window ;; ret (negb c))
       (frame window)).

End Main.
End Triangle.

(* ================================================================= *)
(** ** Program 4: the textured quad *)

Module Quad.

Definition vertexSource : string := "
#version 150

in vec2 position;
in vec3 color;
in vec2 texcoord;

out vec3 Color;
out vec2 Texcoord;

uniform mat4 model;
uniform mat4 view;
uniform mat4 proj;

void main()
{
	Texcoord = texcoord;
	Color = color;
	gl_Position = proj * view * model * vec4(position, 0.0, 1.0);
}
".

Definition fragmentSource : string := "
#version 150

in vec3 Color;
in vec2 Texcoord;

out vec4 outColor;

uniform sampler2D texKitten;
uniform sampler2D texPuppy;

void main()
{
	vec4 colKitten = texture(texKitten, Texcoord);
	vec4 colPuppy = texture(texPuppy, Texcoord);
	outColor = mix(colKitten, colPuppy, 0.5);
}
".

Definition vertices : list Q := [
    -0.5; 0.5; 1.0; 0.0; 0.0; 0.0; 1.0;
    0.5; 0.5; 0.0; 1.0; 0.0; 1.0; 1.0;
    0.5; -0.5; 0.0; 0.0; 1.0; 1.0; 0.0;
    -0.5; -0.5; 1.0; 1.0; 1.0; 0.0; 0.0
  ]%Q.

Definition elements : list Z := [
    0; 1; 2;
    2; 3; 0
  ].

Record Locals : Type := mkLocals {
  window : Window;
  modelLocation : Z;
  startTime : Z
}.

Section Main.

Variable w : World.

(** [main], up to the render loop. *)
Definition setup (fuel : nat) : M Locals :=
  glfw_SetErrorCallback ;;
  ok <- glfw_Init w ;;
  if negb ok then panic "Can't init glfw!" else
  defer glfw_Terminate ;;
  (* set opengl version *)
  glfw_WindowHint w glfw_ContextVersionMajor 3 ;;
  glfw_WindowHint w glfw_ContextVersionMinor 2 ;;
  glfw_WindowHint w glfw_OpenglProfile glfw_OpenglCoreProfile ;;
  glfw_WindowHint w glfw_OpenglForwardCompatible glfw_True ;;
  (* turn off resizing *)
  glfw_WindowHint w glfw_Resizable glfw_False ;;
  ' (window, err) <- glfw_CreateWindow w 800 600 "Testing" false ;;
  match err with
  | Some e => panic e
  | None =>
  defer WindowDestroy ;;
  Window_MakeContextCurrent w window ;;
  Window_SetKeyCallback window ;;
  call GlInit ;;
  _ <- gl_GetError w ;; (* ignore INVALID_ENUM that GLEW raises when using OpenGL 3.2+ *)
  (* create Vertex Array Object to save shader attributes *)
  vao <- gl_GenVertexArray ;;
  defer (VertexArrayDelete vao) ;;
  call (VertexArrayBind vao) ;;
  checkError w "vertex array object" ;;
  (* setup vertex data *)
  vbo <- gl_GenBuffer ;;
  defer (BufferDelete vbo) ;;
  call (BufferBind vbo gl_ARRAY_BUFFER) ;;
  call (GlBufferData gl_ARRAY_BUFFER
          (int_mul (glh_Sizeof gl_FLOAT) (len vertices))
          (Floats vertices) gl_STATIC_DRAW) ;;
  checkError w "vertex data" ;;
  (* setup element data *)
  ebo <- gl_GenBuffer ;;
  defer (BufferDelete ebo) ;;
  call (BufferBind ebo gl_ELEMENT_ARRAY_BUFFER) ;;
  call (GlBufferData gl_ELEMENT_ARRAY_BUFFER
          (int_mul (glh_Sizeof gl_UNSIGNED_INT) (len elements))
          (Uints elements) gl_STATIC_DRAW) ;;
  checkError w "element data" ;;
  (* setup texture data *)
  sample <- os_Open w "sample.png" ;;
  match sample with
  | Err e => panic e
  | Ok sample =>
  call (GlActiveTexture gl_TEXTURE0) ;;
  ' (texture0, err) <- createTexture w fuel sample ;;
  match err with
  | Some e => panic e
  | None =>
  defer (TextureDelete texture0) ;;
  call (FileClose "sample.png") ;;
  sample2 <- os_Open w "sample2.png" ;;
  match sample2 with
  | Err e => panic e
  | Ok sample2 =>
  call (GlActiveTexture gl_TEXTURE1) ;;
  ' (texture1, err) <- createTexture w fuel sample2 ;;
  match err with
  | Some e => panic e
  | None =>
  defer (TextureDelete texture1) ;;
  call (FileClose "sample2.png") ;;
  (* compile vertex shader *)
  vertexShader <- gl_CreateShader gl_VERTEX_SHADER ;;
  call (ShaderSource vertexShader vertexSource) ;;
  call (ShaderCompile vertexShader) ;;
  status <- Shader_Get w vertexShader gl_COMPILE_STATUS ;;
  (if negb (status =? gl_TRUE) then
     log <- Shader_GetInfoLog w vertexShader ;;
     panic ("vertex shader compilation error: " ++ log)%string
   else ret tt) ;;
  checkError w "vertex shader" ;;
  (* compile fragment shader *)
  fragmentShader <- gl_CreateShader gl_FRAGMENT_SHADER ;;
  call (ShaderSource fragmentShader fragmentSource) ;;
  call (ShaderCompile fragmentShader) ;;
  status <- Shader_Get w fragmentShader gl_COMPILE_STATUS ;;
  (if negb (status =? gl_TRUE) then
     log <- Shader_GetInfoLog w fragmentShader ;;
     panic ("fragment shader compilation error: " ++ log)%string
   else ret tt) ;;
  checkError w "fragment shader" ;;
  (* create shader program *)
  program <- gl_CreateProgram ;;
  call (ProgramAttachShader program vertexShader) ;;
  call (ProgramAttachShader program fragmentShader) ;;
  call (ProgramBindFragDataLocation program 0 "outColor") ;;
  call (ProgramLink program) ;;
  call (ProgramUse program) ;;
  call (ProgramValidate program) ;;
  status <- Program_Get w program gl_VALIDATE_STATUS ;;
  (if negb (status =? gl_TRUE) then
     log <- Program_GetInfoLog w program ;;
     panic ("program error: " ++ log)%string
   else ret tt) ;;
  checkError w "program" ;;
  (* tell vertex shader how to process vertex data *)
  posAttrib <- Program_GetAttribLocation w program "position" ;;
  call (AttribEnableArray posAttrib) ;;
  call (AttribPointer posAttrib 2 gl_FLOAT false
          (int_mul 7 (glh_Sizeof gl_FLOAT)) None) ;;
  checkError w "position attrib pointer" ;;
  (* color attribute *)
  colAttrib <- Program_GetAttribLocation w program "color" ;;
  call (AttribEnableArray colAttrib) ;;
  call (AttribPointer colAttrib 3 gl_FLOAT false
          (int_mul 7 (glh_Sizeof gl_FLOAT))
          (Some (int_mul 2 (glh_Sizeof gl_FLOAT)))) ;;
  checkError w "color attrib pointer" ;;
  (* texcoord attribute *)
  texAttrib <- Program_GetAttribLocation w program "texcoord" ;;
  call (AttribEnableArray texAttrib) ;;
  call (AttribPointer texAttrib 2 gl_FLOAT false
          (int_mul 7 (glh_Sizeof gl_FLOAT))
          (Some (int_mul 5 (glh_Sizeof gl_FLOAT)))) ;;
  checkError w "texcoord attrib pointer" ;;
  (* setup texture uniforms *)
  texKittenLocation <- Program_GetUniformLocation w program "texKitten" ;;
  call (Uniform1i texKittenLocation 0) ;;
  texPuppyLocation <- Program_GetUniformLocation w program "texPuppy" ;;
  call (Uniform1i texPuppyLocation 1) ;;
  (* setup matrices *)
  modelLocation <- Program_GetUniformLocation w program "model" ;;
  viewLocation <- Program_GetUniformLocation w program "view" ;;
  let view := LookAtV
    (mkVec3 (lit 1.2) (lit 1.2) (lit 1.2))
    (mkVec3 (lit 0.0) (lit 0.0) (lit 0.0))
    (mkVec3 (lit 0.0) (lit 0.0) (lit 1.0)) in
  call (UniformMatrix4fv viewLocation false view) ;;
  projLocation <- Program_GetUniformLocation w program "proj" ;;
  let proj := Perspective (lit 45.0) (lit (800.0 / 600.0)) (lit 1.0) (lit 10.0) in
  call (UniformMatrix4fv projLocation false proj) ;;
  startTime <- time_Now w ;;
  ret (mkLocals window modelLocation startTime)
  end end end end end.

(** The body of the render loop. *)
Definition frame (l : Locals) : M unit :=
  glfw_PollEvents w ;;
  (* rotate *)
  diffTime <- time_Since w (startTime l) ;;
  let model := HomogRotate3DZ (FMul FPi (FSeconds diffTime)) in
  call (UniformMatrix4fv (modelLocation l) false model) ;;
  (* clear the screen to black *)
  ' (width, height) <- Window_GetFramebufferSize w (window l) ;;
  call (GlViewport 0 0 width height) ;;
  call (GlClearColor 0.0 0.0 0.0 1.0) ;;
  call (GlClear gl_COLOR_BUFFER_BIT) ;;
  (* draw triangles *)
  call (GlDrawElements gl_TRIANGLES 6 gl_UNSIGNED_INT) ;;
  checkError w "main loop" ;;
  Window_SwapBuffers w (window l).

Definition main (fuel : nat) : M unit :=
  deferring w
    (l <- setup fuel ;;
     for_loop fuel (c <- Window_ShouldClose (window l) ;; ret (negb c))
       (frame l)).

End Main.
End Quad.

(* ================================================================= *)
(** ** Observations on runs *)

(** The events that set the should-close flag when the key callback is
    registered ([registered]) or not. *)
Definition closes (registered : bool) (e : Event) : bool :=
  match e with
  | KeyEvent k _ action _ =>
      registered && (action =? glfw_Press) && (k =? glfw_KeyEscape)
  | CloseRequest => true
  | OtherEvent => false
  end.

(** The library calls [handleKey] makes for one event. *)
Definition callback_calls (registered : bool) (e : Event) : list Call :=
  match e with
  | KeyEvent k _ action _ =>
      if registered && (action =? glfw_Press) && (k =? glfw_KeyEscape)
      then [WindowSetShouldClose true] else []
  | _ => []
  end.

(** What the [n]-th [checkError(prefix)] prints. *)
Definition error_lines (w : World) (prefix : string) (n : nat) : list string :=
  let glError := w_gl_GetError w n in
  if negb (glError =? gl_NO_ERROR) then
    match w_glu_ErrorString w glError with
    | Err _ => [(prefix ++ ": unspecified error!" ++ nl)%string]
    | Ok errorString => [(prefix ++ " error: " ++ errorString ++ nl)%string]
    end
  else [].

(** What [errorCallback] prints for one error. *)
Definition error_report (e : Z * string) : string :=
  (show_Z (fst e) ++ ": " ++ snd e ++ nl)%string.

(** What is printed while GLFW serves the call at position [n] of the
    run. *)
Definition glfw_lines (w : World) (registered : bool) (n : nat)
    : list string :=
  if registered then map error_report (w_glfw_errors w n) else [].

(** What is printed while the calls [calls] are made from position [n]
    on. *)
Fixpoint calls_lines (w : World) (registered : bool) (n : nat)
    (calls : list Call) : list string :=
  match calls with
  | [] => []
  | c :: calls' =>
      (if reports c then glfw_lines w registered n else [])
      ++ calls_lines w registered (S n) calls'
  end.

(** The state when the deferred calls have run: they were made, the latest
    deferred first, and GLFW has reported what it had to. *)
Definition after_defers (w : World) (s : State) : State :=
  set_stdout
    (stdout s ++
     calls_lines w (error_callback s) (List.length (trace s)) (defers s))
    (set_defers [] (set_trace (trace s ++ defers s) s)).

(** Weakest precondition: [Q] holds of the outcome and final state. *)
Definition wp {A} (m : M A) (Q : Outcome A -> State -> Prop) (s : State) : Prop :=
  Q (fst (m s)) (snd (m s)).

(** [m] keeps the invariant [I], however it ends. *)
Definition preserves {A} (I : State -> Prop) (m : M A) : Prop :=
  forall s, I s -> I (snd (m s)).

(** The angle of the rotation set in the frame that makes the [n]-th
    reading of the clock: [math.Pi * float32(diffTime.Seconds())]. *)
Definition rotation_angle (w : World) (start : Z) (n : nat) : F32 :=
  FMul FPi (FSeconds (time_Sub (w_clock w n) start)).

(** The library calls of one pass through each render loop after
    [glfw.PollEvents]: [sizes] framebuffer sizes and [clock] clock readings
    were taken before. *)
Definition cube_frame_calls (w : World) (l : Cube.Locals) (sizes clock : nat)
    : list Call :=
  let model := HomogRotate3DZ (rotation_angle w (Cube.startTime l) clock) in
  [ WindowGetFramebufferSize;
    GlViewport 0 0 (fst (w_framebuffer w sizes)) (snd (w_framebuffer w sizes));
    GlClearColor 1.0 1.0 1.0 1.0;
    GlClear (Z.lor gl_COLOR_BUFFER_BIT gl_DEPTH_BUFFER_BIT);
    TimeNow;
    UniformMatrix4fv (Cube.modelLocation l) false model;
    GlDrawArrays gl_TRIANGLES 0 36;
    GlEnable gl_STENCIL_TEST;
    GlStencilFunc gl_ALWAYS 1 0xFF;
    GlStencilOp gl_KEEP gl_KEEP gl_REPLACE;
    GlStencilMask 0xFF;
    GlDepthMask false;
    GlClear gl_STENCIL_BUFFER_BIT;
    GlDrawArrays gl_TRIANGLES 36 6;
    GlStencilFunc gl_EQUAL 1 0xFF;
    GlStencilMask 0x00;
    GlDepthMask true;
    UniformMatrix4fv (Cube.modelLocation l) false
      (Mul4 (Mul4 model (Translate3D (lit 0.0) (lit 0.0) (lit (-1.0))))
         (Scale3D (lit 1.0) (lit 1.0) (lit (-1.0))));
    Uniform3f (Cube.overrideColorLocation l) 0.3 0.3 0.3;
    GlDrawArrays gl_TRIANGLES 0 36;
    Uniform3f (Cube.overrideColorLocation l) 1.0 1.0 1.0;
    GlDisable gl_STENCIL_TEST;
    GlGetError;
    WindowSwapBuffers ].

Definition triangle_frame_calls (w : World) (sizes : nat) : list Call :=
  [ WindowGetFramebufferSize;
    GlViewport 0 0 (fst (w_framebuffer w sizes)) (snd (w_framebuffer w sizes));
    GlClearColor 0.0 0.0 0.0 1.0;
    GlClear gl_COLOR_BUFFER_BIT;
    GlDrawArrays gl_TRIANGLES 0 6;
    GlGetError;
    WindowSwapBuffers ].

Definition quad_frame_calls (w : World) (l : Quad.Locals) (sizes clock : nat)
    : list Call :=
  [ TimeNow;
    UniformMatrix4fv (Quad.modelLocation l) false
      (HomogRotate3DZ (rotation_angle w (Quad.startTime l) clock));
    WindowGetFramebufferSize;
    GlViewport 0 0 (fst (w_framebuffer w sizes)) (snd (w_framebuffer w sizes));
    GlClearColor 0.0 0.0 0.0 1.0;
    GlClear gl_COLOR_BUFFER_BIT;
    GlDrawElements gl_TRIANGLES 6 gl_UNSIGNED_INT;
    GlGetError;
    WindowSwapBuffers ].

(** The calls of one [glfw.PollEvents()] delivering [events]. *)
Definition poll_calls (registered : bool) (events : list Event) : list Call :=
  GlfwPollEvents :: flat_map (callback_calls registered) events.

(** *** Observations on traces *)

Definition is_swap (c : Call) : bool :=
  match c with WindowSwapBuffers => true | _ => false end.

(** The frames shown: the [window.SwapBuffers()] calls of a trace. *)
Definition frames_of (t : list Call) : nat := List.length (filter is_swap t).

(** The buffer objects a call creates. *)
Definition buffers_made (c : Call) : Z :=
  match c with
  | GlGenBuffer => 1
  | GlGenBuffers n => n
  | _ => 0
  end.

Definition buffers_created (t : list Call) : Z :=
  fold_right Z.add 0 (map buffers_made t).

(** The Z-rotations set as a matrix uniform, with their locations. *)
Definition rotation_of (c : Call) : list (Z * F32) :=
  match c with
  | UniformMatrix4fv location _ (HomogRotate3DZ angle) => [(location, angle)]
  | _ => []
  end.

Definition rotations (t : list Call) : list (Z * F32) := flat_map rotation_of t.

(** The draw calls and the changes of stencil and depth-write state. *)
Definition is_draw_or_stencil (c : Call) : bool :=
  match c with
  | GlDrawArrays _ _ _ | GlDrawElements _ _ _ => true
  | GlEnable cap | GlDisable cap => cap =? gl_STENCIL_TEST
  | GlStencilFunc _ _ _ | GlStencilOp _ _ _ | GlStencilMask _ => true
  | GlDepthMask _ => true
  | GlClear mask => negb (Z.land mask gl_STENCIL_BUFFER_BIT =? 0)
  | _ => false
  end.

(** Whether the stencil test is enabled after a trace, starting from
    [enabled]; OpenGL starts with the test disabled. *)
Definition stencil_test_after (t : list Call) (enabled : bool) : bool :=
  fold_left
    (fun b c =>
       match c with
       | GlEnable cap => if cap =? gl_STENCIL_TEST then true else b
       | GlDisable cap => if cap =? gl_STENCIL_TEST then false else b
       | _ => b
       end) t enabled.

(** The value last given to the [vec3] uniform at [location]. *)
Definition uniform3f_after (location : Z) (t : list Call)
    (v : option (Q * Q * Q)) : option (Q * Q * Q) :=
  fold_left
    (fun v c =>
       match c with
       | Uniform3f l x y z => if l =? location then Some (x, y, z) else v
       | _ => v
       end) t v.

(** *** The outcome of each program's setup, as a function of the world *)

Definition forget {A} (o : Outcome A) : Outcome unit :=
  match o with
  | Ret _ => Ret tt
  | Panic v => Panic v
  | Timeout => Timeout
  end.

(** Compiling the two shaders and validating the program. *)
Definition shaders_outcome (w : World) : Outcome unit :=
  if negb (w_compile_status w gl_VERTEX_SHADER =? gl_TRUE) then
    Panic ("vertex shader compilation error: " ++ w_shader_log w gl_VERTEX_SHADER)%string
  else if negb (w_compile_status w gl_FRAGMENT_SHADER =? gl_TRUE) then
    Panic ("fragment shader compilation error: " ++ w_shader_log w gl_FRAGMENT_SHADER)%string
  else if negb (validate_status w =? gl_TRUE) then
    Panic ("program error: " ++ w_program_log w)%string
  else Ret tt.

(** Opening one sample file and making a texture of it. *)
Definition texture_outcome (w : World) (fuel : nat) (name : string)
    : Outcome (list Byte.byte) :=
  match w_os_Open w name with
  | Err e => Panic e
  | Ok r =>
      match w_png_Decode w r with
      | Err e => Panic e
      | Ok (ImageOther _) => Panic "texture must be an NRGBA image"
      | Ok (ImageNRGBA p) => flip_image fuel (ImageNRGBA p) p
      end
  end.

Definition context_setup_outcome (w : World) : Outcome unit :=
  if negb (w_glfw_Init w) then Panic "Can't init glfw!"
  else match w_GetPrimaryMonitor w with
       | Some e => Panic e
       | None =>
           match w_CreateWindow w with
           | Some e => Panic e
           | None => Ret tt
           end
       end.

Definition triangle_setup_outcome (w : World) : Outcome unit :=
  if negb (w_glfw_Init w) then Panic "Can't init glfw!"
  else match w_CreateWindow w with
       | Some e => Panic e
       | None => shaders_outcome w
       end.

(** The cube and the quad load the two textures before the shaders. *)
Definition textured_setup_outcome (w : World) (fuel : nat) : Outcome unit :=
  if negb (w_glfw_Init w) then Panic "Can't init glfw!"
  else match w_CreateWindow w with
       | Some e => Panic e
       | None =>
           match texture_outcome w fuel "sample.png" with
           | Ret _ =>
               match texture_outcome w fuel "sample2.png" with
               | Ret _ => shaders_outcome w
               | Panic v => Panic v
               | Timeout => Timeout
               end
           | Panic v => Panic v
           | Timeout => Timeout
           end
       end.

(** The calls the programs defer: they release what was created. *)
Definition is_cleanup (c : Call) : bool :=
  match c with
  | GlfwTerminate | WindowDestroy => true
  | VertexArrayDelete _ | BufferDelete _ | TextureDelete _ => true
  | _ => false
  end.

(** The files opened, in order. *)
Definition opened (t : list Call) : list string :=
  flat_map (fun c => match c with OsOpen name => [name] | _ => [] end) t.

Fixpoint prefixb (l1 l2 : list string) : bool :=
  match l1, l2 with
  | [], _ => true
  | x :: l1', y :: l2' => String.eqb x y && prefixb l1' l2'
  | _ :: _, [] => false
  end.

Definition sample_files : list string := ["sample.png"; "sample2.png"]%string.

(** What holds when a setup ends, however it ends: no event was polled,
    the flag is down, only releases are deferred, no file but the samples
    was opened, and nothing of the render loop has happened. *)
Definition before_loop (s : State) : Prop :=
  should_close s = false /\ polled s = 0%nat /\
  forallb is_cleanup (defers s) = true /\
  prefixb (opened (trace s)) sample_files = true /\
  frames_of (trace s) = 0%nat /\
  rotations (trace s) = [] /\
  filter is_draw_or_stencil (trace s) = [].

Definition triangle_setup_post (w : World) (o : Outcome Window) (s : State)
    : Prop :=
  forget o = triangle_setup_outcome w /\
  before_loop s /\
  (w_glfw_Init w = true -> w_CreateWindow w = None ->
   buffers_created (trace s) = 1) /\
  (forall window, o = Ret window -> key_callback s = true).

Definition context_setup_post (w : World) (o : Outcome Window) (s : State)
    : Prop :=
  forget o = context_setup_outcome w /\
  before_loop s /\
  (w_glfw_Init w = true -> w_GetPrimaryMonitor w = None ->
   w_CreateWindow w = None -> buffers_created (trace s) = 1) /\
  (forall window, o = Ret window -> key_callback s = true).

Definition white : Q * Q * Q := (1.0, 1.0, 1.0)%Q.

Definition cube_setup_post (w : World) (fuel : nat) (o : Outcome Cube.Locals)
    (s : State) : Prop :=
  forget o = textured_setup_outcome w fuel /\
  before_loop s /\
  (w_glfw_Init w = true -> w_CreateWindow w = None ->
   buffers_created (trace s) = 1) /\
  (forall l, o = Ret l ->
     key_callback s = true /\
     clock_read s = 1%nat /\
     Cube.startTime l = w_clock w 0 /\
     Cube.modelLocation l = w_uniform_location w "model" /\
     Cube.overrideColorLocation l = w_uniform_location w "overrideColor" /\
     opened (trace s) = sample_files /\
     stencil_test_after (trace s) false = false /\
     uniform3f_after (Cube.overrideColorLocation l) (trace s) None = Some white).

Definition quad_setup_post (w : World) (fuel : nat) (o : Outcome Quad.Locals)
    (s : State) : Prop :=
  forget o = textured_setup_outcome w fuel /\
  before_loop s /\
  (w_glfw_Init w = true -> w_CreateWindow w = None ->
   buffers_created (trace s) = 2) /\
  (forall l, o = Ret l ->
     key_callback s = true /\
     clock_read s = 1%nat /\
     Quad.startTime l = w_clock w 0 /\
     Quad.modelLocation l = w_uniform_location w "model" /\
     opened (trace s) = sample_files).

(** *** The four programs, side by side *)

Inductive Program : Type := ContextP | CubeP | TriangleP | QuadP.

Definition main_of (p : Program) (w : World) (fuel : nat) : M unit :=
  match p with
  | ContextP => ContextCreation.main w fuel
  | CubeP => Cube.main w fuel
  | TriangleP => Triangle.main w fuel
  | QuadP => Quad.main w fuel
  end.

(** The setup of [p] returns: [main] reaches its render loop. *)
Definition enters_loop (p : Program) (w : World) (fuel : nat) : Prop :=
  match p with
  | ContextP => exists a s, ContextCreation.setup w init_state = (Ret a, s)
  | CubeP => exists a s, Cube.setup w fuel init_state = (Ret a, s)
  | TriangleP => exists a s, Triangle.setup w init_state = (Ret a, s)
  | QuadP => exists a s, Quad.setup w fuel init_state = (Ret a, s)
  end.

(** The condition of every render loop: [!window.ShouldClose()]. *)
Definition loop_cond (window : Window) : M bool :=
  c <- Window_ShouldClose window ;; ret (negb c).

(** The [n]-th poll is the first to deliver an Escape press or a close
    request. *)
Definition first_close (w : World) (n : nat) : Prop :=
  existsb (closes true) (w_events w n) = true /\
  forallb (fun i => negb (existsb (closes true) (w_events w i))) (seq 0 n) = true.

Definition never_closes (w : World) : Prop :=
  forall i, existsb (closes true) (w_events w i) = false.

(** A loop body that polls the events once, shows one frame and returns. *)
Definition shows_a_frame (w : World) (frame : M unit) : Prop :=
  forall s, exists s',
    frame s = (Ret tt, s') /\
    should_close s' =
      (should_close s || existsb (closes (key_callback s)) (w_events w (polled s))) /\
    key_callback s' = key_callback s /\
    polled s' = S (polled s) /\
    frames_of (trace s') = S (frames_of (trace s)) /\
    defers s' = defers s.

(** *** Sample worlds *)

(** A 2x2 NRGBA image as [image.NewNRGBA] lays it out. *)
Definition sample_image : NRGBA :=
  mkNRGBA
    [Byte.x01; Byte.x02; Byte.x03; Byte.x04;  Byte.x05; Byte.x06; Byte.x07; Byte.x08;
     Byte.x11; Byte.x12; Byte.x13; Byte.x14;  Byte.x15; Byte.x16; Byte.x17; Byte.x18]
    8 (mkRect 0 0 2 2).

(** Everything succeeds, no event ever arrives, no GL error is pending, the
    clock advances by 16 ms per reading, and GLFW reports no error. *)
Definition quiet_world : World :=
  mkWorld true None None
    (fun _ => [])
    (fun _ => (800, 600))
    (fun _ => gl_NO_ERROR)
    (fun _ => Err "unknown error")
    (fun _ => Ok [Byte.x89; Byte.x50; Byte.x4e; Byte.x47])
    (fun _ => Ok (ImageNRGBA sample_image))
    (fun _ => gl_TRUE) (fun _ => ""%string)
    gl_TRUE gl_TRUE ""%string
    (fun name => Z.of_nat (String.length name))
    (fun name => Z.of_nat (String.length name))
    (fun n => 16000000 * Z.of_nat n)
    (fun _ => []).

Definition with_events (events : nat -> list Event) (w : World) : World :=
  mkWorld (w_glfw_Init w) (w_GetPrimaryMonitor w) (w_CreateWindow w) events
    (w_framebuffer w) (w_gl_GetError w) (w_glu_ErrorString w) (w_os_Open w)
    (w_png_Decode w) (w_compile_status w) (w_shader_log w) (w_link_status w)
    (w_validate_status w) (w_program_log w) (w_attrib_location w)
    (w_uniform_location w) (w_clock w) (w_glfw_errors w).

(** The GL error answers replaced. *)
Definition with_gl_errors (errors : nat -> Z) (strings : Z -> Result string)
    (w : World) : World :=
  mkWorld (w_glfw_Init w) (w_GetPrimaryMonitor w) (w_CreateWindow w)
    (w_events w) (w_framebuffer w) errors strings (w_os_Open w)
    (w_png_Decode w) (w_compile_status w) (w_shader_log w) (w_link_status w)
    (w_validate_status w) (w_program_log w) (w_attrib_location w)
    (w_uniform_location w) (w_clock w) (w_glfw_errors w).

(** The link status and the program's info log replaced. *)
Definition with_link_status (status : Z) (log : string) (w : World) : World :=
  mkWorld (w_glfw_Init w) (w_GetPrimaryMonitor w) (w_CreateWindow w)
    (w_events w) (w_framebuffer w) (w_gl_GetError w) (w_glu_ErrorString w)
    (w_os_Open w) (w_png_Decode w) (w_compile_status w) (w_shader_log w)
    status (w_validate_status w) log (w_attrib_location w)
    (w_uniform_location w) (w_clock w) (w_glfw_errors w).

Definition with_png_Decode (decode : list Byte.byte -> Result Image)
    (w : World) : World :=
  mkWorld (w_glfw_Init w) (w_GetPrimaryMonitor w) (w_CreateWindow w)
    (w_events w) (w_framebuffer w) (w_gl_GetError w) (w_glu_ErrorString w)
    (w_os_Open w) decode (w_compile_status w) (w_shader_log w)
    (w_link_status w) (w_validate_status w) (w_program_log w)
    (w_attrib_location w) (w_uniform_location w) (w_clock w) (w_glfw_errors w).

(** The key A is pressed, then released, and with the third poll Escape is
    pressed. *)
Definition escape_world : World :=
  with_events
    (fun n => match n with
              | 0%nat => [KeyEvent 65 38 glfw_Press 0]
              | 1%nat => [KeyEvent 65 38 glfw_Release 0; OtherEvent]
              | 2%nat => [KeyEvent glfw_KeyEscape 9 glfw_Press 0]
              | _ => []
              end)
    quiet_world.

(** *** Rows of pixels *)

(** Row [j] of a byte array whose rows have [n] bytes. *)
Definition row (n j : nat) (data : list Byte.byte) : list Byte.byte :=
  firstn n (skipn (j * n) data).

(** Pixel row [i] of an image: [Stride] bytes from offset [i * Stride]. *)
Definition pixel_row (p : NRGBA) (i : nat) : list Byte.byte :=
  row (Z.to_nat (Stride p)) i (Pix p).

(** The layout [createTexture] counts on: [Pix] holds exactly [Dy] rows of
    [Stride] bytes, each wide enough for the [Dx] pixels of four bytes.
    [image.NewNRGBA], which [png.Decode] uses, allocates [Stride = 4 * Dx].
    A Go slice is shorter than [2 ^ 63]. *)
Definition laid_out (p : NRGBA) : Prop :=
  0 <= Dx (Rect p) /\ 0 <= Dy (Rect p) /\
  4 * Dx (Rect p) <= Stride p /\
  len (Pix p) = Stride p * Dy (Rect p) /\
  len (Pix p) < 2 ^ 63.

(** *** What the claims are stated with *)

(** The calls of one pass through the cube's loop that draw or that change
    the stencil or depth-write state, in order. *)
Definition stencil_recipe : list Call :=
  [ GlDrawArrays gl_TRIANGLES 0 36;
    GlEnable gl_STENCIL_TEST;
    GlStencilFunc gl_ALWAYS 1 0xFF;
    GlStencilOp gl_KEEP gl_KEEP gl_REPLACE;
    GlStencilMask 0xFF;
    GlDepthMask false;
    GlClear gl_STENCIL_BUFFER_BIT;
    GlDrawArrays gl_TRIANGLES 36 6;
    GlStencilFunc gl_EQUAL 1 0xFF;
    GlStencilMask 0x00;
    GlDepthMask true;
    GlDrawArrays gl_TRIANGLES 0 36;
    GlDisable gl_STENCIL_TEST ].


(** *** Elapsed time and angles, in plain arithmetic *)






(** GLFW is up and the window exists. *)
Definition window_created (p : Program) (w : World) : Prop :=
  w_glfw_Init w = true /\ w_CreateWindow w = None /\
  (p = ContextP -> w_GetPrimaryMonitor w = None).

Definition buffers_of (p : Program) : Z :=
  match p with
  | QuadP => 2
  | _ => 1
  end.

(** The states in which the cube's loop evaluates its condition: the state
    the setup leaves, and the state each pass leaves. *)
Inductive loop_head (w : World) (fuel : nat) (l : Cube.Locals) : State -> Prop :=
| head_first s :
    Cube.setup w fuel init_state = (Ret l, s) ->
    loop_head w fuel l s
| head_next s s' :
    loop_head w fuel l s ->
    should_close s = false ->
    Cube.frame w l (set_trace (trace s ++ [WindowShouldClose]) s) = (Ret tt, s') ->
    loop_head w fuel l s'.

(** What each program's setup comes to. *)
Definition setup_outcome (p : Program) (w : World) (fuel : nat) : Outcome unit :=
  match p with
  | ContextP => context_setup_outcome w
  | TriangleP => triangle_setup_outcome w
  | CubeP | QuadP => textured_setup_outcome w fuel
  end.

(** The process ends in a panic that prints [message], before any event
    was polled and before any frame was shown. *)
Definition aborts (p : Program) (w : World) (fuel : nat) (message : string)
    : Prop :=
  exists s,
    go_run (main_of p w fuel) = (ExitPanic message, s) /\
    frames_of (trace s) = 0%nat /\ polled s = 0%nat.

Definition uses_textures (p : Program) : bool :=
  match p with
  | CubeP | QuadP => true
  | _ => false
  end.

Definition uses_shaders (p : Program) : bool :=
  match p with
  | ContextP => false
  | _ => true
  end.

(** Both sample files were opened, decoded as NRGBA and flipped. *)
Definition textures_loaded (p : Program) (w : World) (fuel : nat) : Prop :=
  uses_textures p = true ->
  exists data1 data2,
    texture_outcome w fuel "sample.png" = Ret data1 /\
    texture_outcome w fuel "sample2.png" = Ret data2.

(** Making a texture of the file [name] fails with the error [e]: the file
    cannot be opened, or it does not decode as a PNG, or the decoded image
    is not an [*image.NRGBA]. *)
Definition texture_fails (w : World) (name : string) (e : string) : Prop :=
  w_os_Open w name = Err e \/
  (exists r, w_os_Open w name = Ok r /\ w_png_Decode w r = Err e) \/
  (exists r bounds,
     w_os_Open w name = Ok r /\ w_png_Decode w r = Ok (ImageOther bounds) /\
     e = "texture must be an NRGBA image"%string).

Definition with_compile_status (status : Z -> Z) (log : Z -> string)
    (w : World) : World :=
  mkWorld (w_glfw_Init w) (w_GetPrimaryMonitor w) (w_CreateWindow w)
    (w_events w) (w_framebuffer w) (w_gl_GetError w) (w_glu_ErrorString w)
    (w_os_Open w) (w_png_Decode w) status log
    (w_link_status w) (w_validate_status w) (w_program_log w)
    (w_attrib_location w) (w_uniform_location w) (w_clock w) (w_glfw_errors w).

(** The fragment shader does not compile. *)
Definition broken_shader_world : World :=
  with_compile_status
    (fun typ => if typ =? gl_FRAGMENT_SHADER then 0 else gl_TRUE)
    (fun typ => if typ =? gl_FRAGMENT_SHADER
                then "0:9: syntax error"%string else ""%string)
    quiet_world.

(** The program does not link. *)
Definition unlinked_world : World :=
  with_link_status gl_FALSE "error: undefined symbol" quiet_world.

(** [sample2.png] decodes to a paletted image. *)
Definition paletted_world : World :=
  with_png_Decode
    (fun r => Ok (ImageOther (mkRect 0 0 2 2)))
    quiet_world.

(** *** Runs that differ in the pending GL errors only *)

(** Two states that agree on everything but what was printed. *)
Definition same_but_stdout (s1 s2 : State) : Prop :=
  set_stdout [] s1 = set_stdout [] s2.

(** Two computations that, from such states, end the same way in such
    states. *)
Definition sim {A} (m1 m2 : M A) : Prop :=
  forall s1 s2,
    same_but_stdout s1 s2 ->
    fst (m1 s1) = fst (m2 s2) /\ same_but_stdout (snd (m1 s1)) (snd (m2 s2)).

(* ================================================================= *)
(** ** Further observations *)

Definition is_terminate (c : Call) : bool :=
  match c with GlfwTerminate => true | _ => false end.

(** The GL objects of the programs that can be deleted. *)
Inductive GLObject : Type :=
| VertexArrayObject (name : Z)
| BufferObject (name : Z)
| TextureObject (name : Z).

(** The objects bound, in order: each program binds an object right after
    generating it, and nowhere else. *)
Definition bound (t : list Call) : list GLObject :=
  flat_map (fun c => match c with
                     | VertexArrayBind vao => [VertexArrayObject vao]
                     | BufferBind buffer _ => [BufferObject buffer]
                     | TextureBind texture _ => [TextureObject texture]
                     | _ => []
                     end) t.

(** The objects deleted, in order. *)
Definition deleted (t : list Call) : list GLObject :=
  flat_map (fun c => match c with
                     | VertexArrayDelete vao => [VertexArrayObject vao]
                     | BufferDelete buffer => [BufferObject buffer]
                     | TextureDelete texture => [TextureObject texture]
                     | _ => []
                     end) t.

(** The viewports set, in order. *)
Definition viewports (t : list Call) : list (Z * Z * Z * Z) :=
  flat_map (fun c => match c with
                     | GlViewport x y width height => [(x, y, width, height)]
                     | _ => []
                     end) t.

(** The calls each program has deferred when its setup returns, the latest
    first; objects are numbered in the order of their creation. *)
Definition releases_of (p : Program) : list Call :=
  match p with
  | ContextP => [GlfwTerminate]
  | CubeP =>
      [TextureDelete 4; TextureDelete 3; BufferDelete 2; VertexArrayDelete 1;
       WindowDestroy; GlfwTerminate]
  | TriangleP => [WindowDestroy; GlfwTerminate]
  | QuadP =>
      [TextureDelete 5; TextureDelete 4; BufferDelete 3; BufferDelete 2;
       VertexArrayDelete 1; WindowDestroy; GlfwTerminate]
  end.

(** The objects each setup binds. *)
Definition bound_of (p : Program) : list GLObject :=
  match p with
  | ContextP => []
  | CubeP =>
      [VertexArrayObject 1; BufferObject 2; TextureObject 3; TextureObject 4]
  | TriangleP => [VertexArrayObject 1; BufferObject 2]
  | QuadP =>
      [VertexArrayObject 1; BufferObject 2; BufferObject 3; TextureObject 4;
       TextureObject 5]
  end.

(** The prefixes of the [checkError] calls of each setup, in order. *)
Definition setup_checks (p : Program) : list string :=
  match p with
  | ContextP => []
  | CubeP =>
      ["vertex array object"; "vertex data"; "vertex shader";
       "fragment shader"; "program"; "position attrib pointer";
       "color attrib pointer"; "texcoord attrib pointer";
       "overrideColor uniform pointer"]
  | TriangleP =>
      ["vertex array object"; "vertex data"; "vertex shader";
       "fragment shader"; "program"; "position attrib pointer";
       "color attrib pointer"]
  | QuadP =>
      ["vertex array object"; "vertex data"; "element data"; "vertex shader";
       "fragment shader"; "program"; "position attrib pointer";
       "color attrib pointer"; "texcoord attrib pointer"]
  end%string.

(** The [gl.GetError()] calls of a setup that returns: the one after
    [gl.Init()], whose answer is dropped, and one per check. *)
Definition setup_errors_read (p : Program) : nat :=
  match p with
  | ContextP => 0
  | _ => S (List.length (setup_checks p))
  end.

(** What a setup that returns has printed: the first program prints its
    buffer list, the others one line per check that found an error. *)
Definition setup_report (p : Program) (w : World) : list string :=
  match p with
  | ContextP => [show_buffers [1]]
  | _ =>
      flat_map (fun c => error_lines w (fst c) (snd c))
        (combine (setup_checks p) (seq 1 (List.length (setup_checks p))))
  end.

(** No GL error is ever pending. *)
Definition no_gl_errors (w : World) : Prop :=
  forall n, w_gl_GetError w n = gl_NO_ERROR.

(** GLFW reports no error during the run. *)
Definition no_glfw_errors (w : World) : Prop :=
  forall n, w_glfw_errors w n = [].

(** What more holds when the setup of [p] ends with outcome [o]. *)
Definition setup_post_more (p : Program) (w : World) (o : Outcome unit)
    (s : State) : Prop :=
  filter is_cleanup (trace s) = [] /\
  viewports (trace s) = [] /\
  sizes_read s = 0%nat /\
  (w_glfw_Init w = false -> defers s = []) /\
  (w_glfw_Init w = true ->
   last (defers s) GlfwInit = GlfwTerminate /\
   filter is_terminate (removelast (defers s)) = []) /\
  (no_glfw_errors w -> no_gl_errors w -> uses_shaders p = true ->
   stdout s = []) /\
  (o = Ret tt ->
   defers s = releases_of p /\
   bound (trace s) = bound_of p /\
   errors_read s = setup_errors_read p /\
   (no_glfw_errors w -> stdout s = setup_report p w)).

(** The viewports and the lines of the first [n] passes through the loop
    of [p]; the first program's loop neither sets a viewport nor polls GL
    errors. *)
Definition loop_viewports (p : Program) (w : World) (n : nat)
    : list (Z * Z * Z * Z) :=
  if uses_shaders p
  then map (fun k => (0, 0, fst (w_framebuffer w k), snd (w_framebuffer w k)))
         (seq 0 n)
  else [].

Definition loop_report (p : Program) (w : World) (n : nat) : list string :=
  if uses_shaders p
  then flat_map (fun k => error_lines w "main loop" (setup_errors_read p + k))
         (seq 0 n)
  else [].

(** One pass through the loop of [p], in more detail than
    [shows_a_frame]. *)
Definition draws_a_frame (p : Program) (w : World) (frame : M unit) : Prop :=
  forall s, exists s' calls,
    frame s = (Ret tt, s') /\
    trace s' = trace s ++ calls /\
    filter is_cleanup calls = [] /\ bound calls = [] /\
    defers s' = defers s /\ polled s' = S (polled s) /\
    if uses_shaders p then
      viewports calls =
        [(0, 0, fst (w_framebuffer w (sizes_read s)),
                snd (w_framebuffer w (sizes_read s)))] /\
      sizes_read s' = S (sizes_read s) /\
      errors_read s' = S (errors_read s) /\
      (no_glfw_errors w ->
       stdout s' = stdout s ++ error_lines w "main loop" (errors_read s))
    else
      viewports calls = [] /\ sizes_read s' = sizes_read s /\
      errors_read s' = errors_read s /\
      (no_glfw_errors w -> stdout s' = stdout s).

(** What holds whenever the loop of [p] evaluates its condition. *)
Definition loop_invariant_more (p : Program) (w : World) (s : State) : Prop :=
  defers s = releases_of p /\
  filter is_cleanup (trace s) = [] /\
  bound (trace s) = bound_of p /\
  viewports (trace s) = loop_viewports p w (polled s) /\
  sizes_read s = (if uses_shaders p then polled s else 0%nat) /\
  errors_read s =
    (setup_errors_read p + (if uses_shaders p then polled s else 0))%nat /\
  (no_glfw_errors w ->
   stdout s = setup_report p w ++ loop_report p w (polled s)).

(** What holds of a run of [p] whether or not its setup returned. *)
Definition run_invariant_more (p : Program) (w : World) (s : State) : Prop :=
  filter is_cleanup (trace s) = [] /\
  viewports (trace s) = loop_viewports p w (polled s) /\
  sizes_read s = (if uses_shaders p then polled s else 0%nat) /\
  (w_glfw_Init w = false -> defers s = []) /\
  (w_glfw_Init w = true ->
   last (defers s) GlfwInit = GlfwTerminate /\
   filter is_terminate (removelast (defers s)) = []) /\
  forallb is_cleanup (defers s) = true /\
  (no_glfw_errors w -> no_gl_errors w -> uses_shaders p = true ->
   stdout s = []).

(** *** Images [createTexture] is not made for *)

(** Rows without padding: [Stride = 4 * Dx]. *)
Definition tightly_packed (p : NRGBA) : Prop :=
  laid_out p /\ Stride p = 4 * Dx (Rect p).

(** The same image with other pixel bytes. *)
Definition with_Pix (pix : list Byte.byte) (p : NRGBA) : NRGBA :=
  mkNRGBA pix (Stride p) (Rect p).

(** [Pix] holds more than the [Dy] rows of the bounds, as it does for the
    upper part of an image cut out with [SubImage].  [Stride] is a Go
    [int], and a Go slice is shorter than [2 ^ 63]. *)
Definition overlong (p : NRGBA) : Prop :=
  0 < Dx (Rect p) /\ 0 <= Dy (Rect p) /\
  4 * Dx (Rect p) <= Stride p /\ Stride p < 2 ^ 63 /\
  Stride p * Dy (Rect p) < len (Pix p) /\
  len (Pix p) < 2 ^ 63.

(** The panic value of slicing the data at the offset [- lineLen]. *)
Definition slice_panic (lineLen : Z) : string :=
  ("runtime error: slice bounds out of range [" ++ show_Z (- lineLen) ++ ":]")
    %string.

(** An image of three rows of two pixels whose [Pix] holds four rows. *)
Definition overlong_image : NRGBA :=
  mkNRGBA (Pix sample_image ++ Pix sample_image) 8 (mkRect 0 0 2 3).

(** An image without columns whose [Pix] is not empty. *)
Definition stuck_image : NRGBA :=
  mkNRGBA [Byte.x00] 0 (mkRect 0 0 0 1).


(** [png.Decode] answers with [overlong_image], or with [stuck_image]. *)
Definition overlong_world : World :=
  with_png_Decode (fun _ => Ok (ImageNRGBA overlong_image)) quiet_world.

Definition stuck_world : World :=
  with_png_Decode (fun _ => Ok (ImageNRGBA stuck_image)) quiet_world.

(** The fourth and the tenth [gl.GetError()] answer [INVALID_ENUM]; Escape
    is pressed with the third poll. *)
Definition noisy_world : World :=
  with_gl_errors
    (fun n => match n with
              | 3%nat | 9%nat => 1280
              | _ => gl_NO_ERROR
              end)
    (fun e => if e =? 1280 then Ok "invalid enumerant"%string
              else Err "unknown error"%string)
    escape_world.

(** *** The order of the library calls *)

(** How far the process has got with GLFW, its window and the GL. *)
Inductive Phase : Type :=
| Start          (** before [glfw.Init()] *)
| Initialised    (** GLFW is initialised, no window yet *)
| HasWindow      (** the window exists, its context is not current *)
| Current        (** the context is current, the GL not yet loaded *)
| Ready          (** [gl.Init()] has loaded the GL *)
| Destroyed      (** the window and its context are destroyed *)
| Terminated.    (** after [glfw.Terminate()] *)

Definition initialised (ph : Phase) : bool :=
  match ph with
  | Start | Terminated => false
  | _ => true
  end.

Definition has_window (ph : Phase) : bool :=
  match ph with
  | HasWindow | Current | Ready => true
  | _ => false
  end.

(** The phase after the call [c], if [c] may be made in the phase [ph]:
    the error callback is registered before [glfw.Init()], window hints
    and the monitor are asked for before the window is created, a window
    call needs the window, a GL call needs the context current and the GL
    loaded, and nothing of GLFW or the GL is used after
    [glfw.Terminate()].  The Go library is used at any time. *)
Definition next (ph : Phase) (c : Call) : option Phase :=
  match c with
  | OsOpen _ | FileClose _ | PngDecode | TimeNow => Some ph
  | GlfwSetErrorCallback =>
      match ph with Start => Some Start | _ => None end
  | GlfwInit =>
      match ph with Start => Some Initialised | _ => None end
  | GlfwTerminate => if initialised ph then Some Terminated else None
  | GlfwWindowHint _ _ | GlfwGetPrimaryMonitor =>
      match ph with Initialised => Some ph | _ => None end
  | GlfwCreateWindow _ _ _ _ =>
      match ph with Initialised => Some HasWindow | _ => None end
  | GlfwPollEvents => if initialised ph then Some ph else None
  | WindowMakeContextCurrent =>
      match ph with HasWindow => Some Current | _ => None end
  | WindowSetKeyCallback | WindowShouldClose | WindowSetShouldClose _
  | WindowSwapBuffers | WindowGetFramebufferSize =>
      if has_window ph then Some ph else None
  | WindowDestroy => if has_window ph then Some Destroyed else None
  | GlInit =>
      match ph with Current => Some Ready | _ => None end
  | _ =>
      match ph with Ready => Some Ready | _ => None end
  end.

(** The phase after the calls [t], if each may be made when it is made. *)
Fixpoint lifecycle (ph : Phase) (t : list Call) : option Phase :=
  match t with
  | [] => Some ph
  | c :: t' =>
      match next ph c with
      | Some ph' => lifecycle ph' t'
      | None => None
      end
  end.

(** *** Files and textures *)

(** The files closed, in order. *)
Definition closed (t : list Call) : list string :=
  flat_map (fun c => match c with FileClose name => [name] | _ => [] end) t.

Definition is_upload (c : Call) : bool :=
  match c with
  | GlTexImage2D _ _ _ _ _ _ _ _ _ => true
  | _ => false
  end.

(** The texture images handed to the GL. *)
Definition uploads (t : list Call) : nat := List.length (filter is_upload t).

(** The calls that create a GL object. *)
Definition is_creation (c : Call) : bool :=
  match c with
  | GlGenBuffers _ | GlGenBuffer | GlGenVertexArray | GlGenTexture
  | GlCreateShader _ | GlCreateProgram => true
  | _ => false
  end.

(** The objects each setup creates, in order. *)
Definition creations_of (p : Program) : list Call :=
  match p with
  | ContextP => [GlGenBuffers 1]
  | CubeP =>
      [GlGenVertexArray; GlGenBuffer; GlGenTexture; GlGenTexture;
       GlCreateShader gl_VERTEX_SHADER; GlCreateShader gl_FRAGMENT_SHADER;
       GlCreateProgram]
  | TriangleP =>
      [GlGenVertexArray; GlGenBuffer;
       GlCreateShader gl_VERTEX_SHADER; GlCreateShader gl_FRAGMENT_SHADER;
       GlCreateProgram]
  | QuadP =>
      [GlGenVertexArray; GlGenBuffer; GlGenBuffer; GlGenTexture; GlGenTexture;
       GlCreateShader gl_VERTEX_SHADER; GlCreateShader gl_FRAGMENT_SHADER;
       GlCreateProgram]
  end.

(** Every NRGBA image [png.Decode] answers with is laid out in rows, as
    [image.NewNRGBA] allocates it, and the fuel is enough to flip it. *)
Definition decodes_laid_out (w : World) (fuel : nat) : Prop :=
  forall r q,
    w_png_Decode w r = Ok (ImageNRGBA q) ->
    laid_out q /\ (Z.to_nat (Dy (Rect q)) < fuel)%nat.

(** [createTexture] does not get through flipping some image that
    [png.Decode] answers with. *)
Definition flip_fails (w : World) (fuel : nat) : Prop :=
  exists r q,
    w_png_Decode w r = Ok (ImageNRGBA q) /\
    forall data, flip_image fuel (ImageNRGBA q) q <> Ret data.

(** What holds of the order of the calls when the setup of [p] ends with
    outcome [o]. *)
Definition setup_post_safe (p : Program) (w : World) (fuel : nat)
    (o : Outcome unit) (s : State) : Prop :=
  (exists ph ph',
     lifecycle Start (trace s) = Some ph /\
     lifecycle ph (defers s) = Some ph' /\
     (w_glfw_Init w = true -> ph' = Terminated) /\
     (o = Ret tt -> ph = Ready)) /\
  closed (trace s) = firstn (uploads (trace s)) (opened (trace s)) /\
  (o = Ret tt -> closed (trace s) = opened (trace s)) /\
  (uses_textures p = true ->
   rev (bound (trace s)) = deleted (defers s) \/
   flip_fails w fuel /\
   exists texture,
     rev (bound (trace s)) = TextureObject texture :: deleted (defers s)) /\
  (o = Ret tt -> filter is_creation (trace s) = creations_of p).

(** One pass through a loop, as to the order of the calls. *)
Definition keeps_order (frame : M unit) : Prop :=
  forall s, exists s' calls,
    frame s = (Ret tt, s') /\
    trace s' = trace s ++ calls /\
    lifecycle Ready calls = Some Ready /\
    opened calls = [] /\ closed calls = [] /\ uploads calls = 0%nat /\
    filter is_creation calls = [].

(** What holds of the order of the calls whenever a loop evaluates its
    condition. *)
Definition loop_invariant_safe (p : Program) (s : State) : Prop :=
  lifecycle Start (trace s) = Some Ready /\
  closed (trace s) = opened (trace s) /\
  closed (trace s) = firstn (uploads (trace s)) (opened (trace s)) /\
  filter is_creation (trace s) = creations_of p.

(** No display to open: [glfw.Init()] fails, and GLFW reports a platform
    error while it runs, the programs' second call. *)
Definition headless_world : World :=
  mkWorld false None None
    (w_events quiet_world) (w_framebuffer quiet_world)
    (w_gl_GetError quiet_world) (w_glu_ErrorString quiet_world)
    (w_os_Open quiet_world) (w_png_Decode quiet_world)
    (w_compile_status quiet_world) (w_shader_log quiet_world)
    (w_link_status quiet_world) (w_validate_status quiet_world)
    (w_program_log quiet_world) (w_attrib_location quiet_world)
    (w_uniform_location quiet_world) (w_clock quiet_world)
    (fun n => match n with
              | 1%nat => [(65544, "X11: Failed to open display"%string)]
              | _ => []
              end).
(* ================================================================= *)
(** * Properties *)

(** ** The monad *)

Lemma wp_bind {A B} (m : M A) (k : A -> M B) Q s :
  wp m (fun o s' =>
          match o with
          | Ret a => wp (k a) Q s'
          | Panic v => Q (Panic v) s'
          | Timeout => Q Timeout s'
          end) s ->
  wp (bind m k) Q s.
Proof.
  unfold wp, bind. destruct (m s) as [[a | v |] s']; cbn; auto.
Qed.

Lemma bind_run {A B} (m : M A) (k : A -> M B) s a s' :
  m s = (Ret a, s') -> bind m k s = k a s'.
Proof. unfold bind. intros ->. reflexivity. Qed.

Lemma state_eta s :
  mkState (should_close s) (key_callback s) (error_callback s) (polled s) (errors_read s)
    (sizes_read s) (clock_read s) (objects s) (defers s) (trace s) (stdout s)
  = s.
Proof. destruct s; reflexivity. Qed.

(** ** GLFW's error reports, run *)

Lemma set_stdout_same s : set_stdout (stdout s) s = s.
Proof. destruct s; reflexivity. Qed.

Lemma for_each_errorCallback_run errors : forall s,
  for_each errors (fun e => errorCallback (fst e) (snd e)) s =
  (Ret tt, set_stdout (stdout s ++ map error_report errors) s).
Proof.
  induction errors as [| e errors IH]; intros s; cbn [for_each map].
  - now rewrite app_nil_r, set_stdout_same.
  - erewrite bind_run by reflexivity. rewrite IH. destruct s. cbn.
    now rewrite <- app_assoc.
Qed.

Lemma glfw_run w c s :
  glfw w c s =
  (Ret tt,
   mkState (should_close s) (key_callback s) (error_callback s) (polled s)
     (errors_read s) (sizes_read s) (clock_read s) (objects s) (defers s)
     (trace s ++ [c])
     (stdout s ++ glfw_lines w (error_callback s) (List.length (trace s)))).
Proof.
  unfold glfw, glfw_lines, report_errors.
  erewrite bind_run by reflexivity.
  destruct s as [sc cb ec p er sr cr ob df tr out]. cbn.
  destruct ec.
  - now rewrite for_each_errorCallback_run.
  - now rewrite app_nil_r.
Qed.

Lemma glfw_Init_run w s :
  glfw_Init w s =
  (Ret (w_glfw_Init w),
   mkState (should_close s) (key_callback s) (error_callback s) (polled s)
     (errors_read s) (sizes_read s) (clock_read s) (objects s) (defers s)
     (trace s ++ [GlfwInit])
     (stdout s ++ glfw_lines w (error_callback s) (List.length (trace s)))).
Proof.
  unfold glfw_Init. erewrite bind_run by apply glfw_run. reflexivity.
Qed.

Lemma glfw_CreateWindow_run w width height title fullscreen s :
  glfw_CreateWindow w width height title fullscreen s =
  (Ret (TheWindow, w_CreateWindow w),
   mkState (should_close s) (key_callback s) (error_callback s) (polled s)
     (errors_read s) (sizes_read s) (clock_read s) (objects s) (defers s)
     (trace s ++ [GlfwCreateWindow width height title fullscreen])
     (stdout s ++ glfw_lines w (error_callback s) (List.length (trace s)))).
Proof.
  unfold glfw_CreateWindow. erewrite bind_run by apply glfw_run. reflexivity.
Qed.

Lemma Window_GetFramebufferSize_run w window s :
  Window_GetFramebufferSize w window s =
  (Ret (w_framebuffer w (sizes_read s)),
   mkState (should_close s) (key_callback s) (error_callback s) (polled s)
     (errors_read s) (S (sizes_read s)) (clock_read s) (objects s) (defers s)
     (trace s ++ [WindowGetFramebufferSize])
     (stdout s ++ glfw_lines w (error_callback s) (List.length (trace s)))).
Proof.
  unfold Window_GetFramebufferSize. erewrite bind_run by apply glfw_run.
  reflexivity.
Qed.

(** ** Deferred calls, run *)

Lemma run_deferred_run w c s :
  run_deferred w c s =
  (Ret tt,
   set_stdout
     (stdout s ++ calls_lines w (error_callback s) (List.length (trace s)) [c])
     (set_trace (trace s ++ [c]) s)).
Proof.
  unfold run_deferred. cbn [calls_lines]. rewrite app_nil_r.
  destruct (reports c).
  - rewrite glfw_run. reflexivity.
  - rewrite app_nil_r. destruct s; reflexivity.
Qed.

Lemma for_each_run_deferred w calls : forall s,
  for_each calls (run_deferred w) s =
  (Ret tt,
   set_stdout
     (stdout s ++
      calls_lines w (error_callback s) (List.length (trace s)) calls)
     (set_trace (trace s ++ calls) s)).
Proof.
  induction calls as [| c calls IH]; intros s; cbn [for_each calls_lines].
  - rewrite !app_nil_r. destruct s; reflexivity.
  - erewrite bind_run by apply run_deferred_run. rewrite IH.
    destruct s as [sc cb ec p er sr cr ob df tr out]. cbn.
    rewrite length_app, Nat.add_1_r, app_nil_r, <- !app_assoc.
    reflexivity.
Qed.

Lemma run_defers_run w s : run_defers w s = (Ret tt, after_defers w s).
Proof.
  unfold run_defers, after_defers.
  erewrite bind_run by apply for_each_run_deferred.
  destruct s; reflexivity.
Qed.

(** How a body with deferred calls ends. *)
Lemma go_run_deferring w (body : M unit) :
  go_run (deferring w body) =
  match body init_state with
  | (Ret _, s) => (ExitNormal, after_defers w s)
  | (Panic v, s) => (ExitPanic v, after_defers w s)
  | (Timeout, s) => (StillRunning, s)
  end.
Proof.
  unfold go_run, deferring.
  destruct (body init_state) as [[[] | v |] s]; rewrite ?run_defers_run;
    reflexivity.
Qed.

(** ** [checkError], [handleKey] and [glfw.PollEvents], run *)

Lemma checkError_run w prefix s :
  checkError w prefix s =
  (Ret tt,
   mkState (should_close s) (key_callback s) (error_callback s) (polled s) (S (errors_read s))
     (sizes_read s) (clock_read s) (objects s) (defers s)
     (trace s ++ [GlGetError])
     (stdout s ++ error_lines w prefix (errors_read s))).
Proof.
  unfold checkError, error_lines, gl_GetError, bind, call, print, ret,
    set_trace, set_errors_read, set_stdout; cbn.
  destruct (negb (w_gl_GetError w (errors_read s) =? gl_NO_ERROR)).
  - destruct (w_glu_ErrorString w (w_gl_GetError w (errors_read s))); reflexivity.
  - rewrite app_nil_r. reflexivity.
Qed.

Lemma deliver_run e s :
  deliver e s =
  (Ret tt,
   mkState (should_close s || closes (key_callback s) e) (key_callback s) (error_callback s)
     (polled s) (errors_read s) (sizes_read s) (clock_read s) (objects s)
     (defers s) (trace s ++ callback_calls (key_callback s) e) (stdout s)).
Proof.
  destruct s as [sc cb ec p er sr cr ob df tr out].
  destruct e as [k scancode action mods | |]; cbn.
  - destruct cb; cbn.
    + unfold handleKey.
      destruct (action =? glfw_Press); cbn.
      * destruct (k =? glfw_KeyEscape); cbn.
        -- rewrite orb_true_r. reflexivity.
        -- rewrite orb_false_r, app_nil_r. reflexivity.
      * rewrite orb_false_r, app_nil_r. reflexivity.
    + rewrite orb_false_r, app_nil_r. reflexivity.
  - rewrite orb_true_r, app_nil_r. reflexivity.
  - rewrite orb_false_r, app_nil_r. reflexivity.
Qed.

Lemma for_each_deliver_run events : forall s,
  for_each events deliver s =
  (Ret tt,
   mkState (should_close s || existsb (closes (key_callback s)) events)
     (key_callback s) (error_callback s) (polled s) (errors_read s) (sizes_read s)
     (clock_read s) (objects s) (defers s)
     (trace s ++ flat_map (callback_calls (key_callback s)) events)
     (stdout s)).
Proof.
  induction events as [| e events IH]; intros s; cbn [for_each existsb flat_map].
  - rewrite orb_false_r, app_nil_r, state_eta. reflexivity.
  - erewrite bind_run by apply deliver_run.
    rewrite IH. cbn. rewrite orb_assoc, app_assoc. reflexivity.
Qed.

Lemma glfw_PollEvents_run w s :
  glfw_PollEvents w s =
  (Ret tt,
   mkState
     (should_close s || existsb (closes (key_callback s)) (w_events w (polled s)))
     (key_callback s) (error_callback s) (S (polled s)) (errors_read s) (sizes_read s)
     (clock_read s) (objects s) (defers s)
     (trace s ++ GlfwPollEvents ::
        flat_map (callback_calls (key_callback s)) (w_events w (polled s)))
     (stdout s ++ glfw_lines w (error_callback s) (List.length (trace s)))).
Proof.
  unfold glfw_PollEvents.
  erewrite bind_run by apply glfw_run.
  erewrite bind_run by reflexivity.
  rewrite for_each_deliver_run. cbn.
  rewrite <- app_assoc. reflexivity.
Qed.

(** ** One pass through each render loop *)

Ltac norm_state :=
  cbn [should_close key_callback error_callback polled errors_read sizes_read
       clock_read objects defers trace stdout
       set_should_close set_key_callback set_error_callback set_polled
       set_errors_read set_sizes_read set_clock_read set_objects set_defers
       set_trace set_stdout].

Ltac run_step :=
  first
    [ erewrite bind_run by apply glfw_PollEvents_run
    | erewrite bind_run by apply checkError_run
    | erewrite bind_run by apply Window_GetFramebufferSize_run
    | erewrite bind_run by apply glfw_run
    | erewrite bind_run by reflexivity ];
  norm_state.

Ltac finish_run :=
  rewrite ?glfw_run; cbv beta delta [call ret]; norm_state;
  repeat rewrite <- app_assoc; cbn [app]; reflexivity.

Lemma context_frame_run w window s :
  ContextCreation.frame w window s =
  (Ret tt,
   mkState
     (should_close s || existsb (closes (key_callback s)) (w_events w (polled s)))
     (key_callback s) (error_callback s) (S (polled s)) (errors_read s) (sizes_read s)
     (clock_read s) (objects s) (defers s)
     (trace s ++ WindowSwapBuffers ::
        poll_calls (key_callback s) (w_events w (polled s)))
     (stdout s
        ++ glfw_lines w (error_callback s) (List.length (trace s))
        ++ glfw_lines w (error_callback s)
             (List.length (trace s ++ [WindowSwapBuffers])))).
Proof.
  unfold ContextCreation.frame, Window_SwapBuffers, poll_calls.
  run_step. rewrite glfw_PollEvents_run. norm_state. finish_run.
Qed.

Lemma cube_frame_run w l s :
  Cube.frame w l s =
  (Ret tt,
   mkState
     (should_close s || existsb (closes (key_callback s)) (w_events w (polled s)))
     (key_callback s) (error_callback s) (S (polled s)) (S (errors_read s)) (S (sizes_read s))
     (S (clock_read s)) (objects s) (defers s)
     (trace s ++ poll_calls (key_callback s) (w_events w (polled s))
        ++ cube_frame_calls w l (sizes_read s) (clock_read s))
     (stdout s
        ++ glfw_lines w (error_callback s) (List.length (trace s))
        ++ glfw_lines w (error_callback s)
             (List.length
                (trace s ++ poll_calls (key_callback s) (w_events w (polled s))))
        ++ error_lines w "main loop" (errors_read s)
        ++ glfw_lines w (error_callback s)
             (List.length
                (trace s ++ poll_calls (key_callback s) (w_events w (polled s))
                   ++ removelast (cube_frame_calls w l (sizes_read s) (clock_read s)))))).
Proof.
  unfold Cube.frame, Window_SwapBuffers, poll_calls, cube_frame_calls,
    rotation_angle, time_Since.
  run_step.
  run_step.
  destruct (w_framebuffer w (sizes_read s)) as [width height].
  do 3 run_step.
  unfold time_Now. run_step.
  do 18 run_step.
  finish_run.
Qed.

Lemma triangle_frame_run w window s :
  Triangle.frame w window s =
  (Ret tt,
   mkState
     (should_close s || existsb (closes (key_callback s)) (w_events w (polled s)))
     (key_callback s) (error_callback s) (S (polled s)) (S (errors_read s)) (S (sizes_read s))
     (clock_read s) (objects s) (defers s)
     (trace s ++ poll_calls (key_callback s) (w_events w (polled s))
        ++ triangle_frame_calls w (sizes_read s))
     (stdout s
        ++ glfw_lines w (error_callback s) (List.length (trace s))
        ++ glfw_lines w (error_callback s)
             (List.length
                (trace s ++ poll_calls (key_callback s) (w_events w (polled s))))
        ++ error_lines w "main loop" (errors_read s)
        ++ glfw_lines w (error_callback s)
             (List.length
                (trace s ++ poll_calls (key_callback s) (w_events w (polled s))
                   ++ removelast (triangle_frame_calls w (sizes_read s)))))).
Proof.
  unfold Triangle.frame, Window_SwapBuffers, poll_calls, triangle_frame_calls.
  run_step.
  run_step.
  destruct (w_framebuffer w (sizes_read s)) as [width height].
  do 5 run_step.
  finish_run.
Qed.

Lemma quad_frame_run w l s :
  Quad.frame w l s =
  (Ret tt,
   mkState
     (should_close s || existsb (closes (key_callback s)) (w_events w (polled s)))
     (key_callback s) (error_callback s) (S (polled s)) (S (errors_read s)) (S (sizes_read s))
     (S (clock_read s)) (objects s) (defers s)
     (trace s ++ poll_calls (key_callback s) (w_events w (polled s))
        ++ quad_frame_calls w l (sizes_read s) (clock_read s))
     (stdout s
        ++ glfw_lines w (error_callback s) (List.length (trace s))
        ++ glfw_lines w (error_callback s)
             (List.length
                (trace s ++ poll_calls (key_callback s) (w_events w (polled s))
                  ++ firstn 2 (quad_frame_calls w l (sizes_read s) (clock_read s))))
        ++ error_lines w "main loop" (errors_read s)
        ++ glfw_lines w (error_callback s)
             (List.length
                (trace s ++ poll_calls (key_callback s) (w_events w (polled s))
                   ++ removelast (quad_frame_calls w l (sizes_read s) (clock_read s)))))).
Proof.
  unfold Quad.frame, Window_SwapBuffers, poll_calls, quad_frame_calls,
    rotation_angle, time_Since.
  run_step.
  unfold time_Now. do 2 run_step.
  run_step.
  destruct (w_framebuffer w (sizes_read s)) as [width height].
  do 5 run_step.
  finish_run.
Qed.

(** ** Symbolic execution of the setups *)

Lemma wp_bind_run {A B} (m : M A) (k : A -> M B) Q s a s' :
  m s = (Ret a, s') -> wp (k a) Q s' -> wp (bind m k) Q s.
Proof. unfold wp, bind. intros ->. auto. Qed.

Lemma wp_ret {A} (a : A) (Q : Outcome A -> State -> Prop) s :
  Q (Ret a) s -> wp (ret a) Q s.
Proof. auto. Qed.

Lemma wp_panic {A} v (Q : Outcome A -> State -> Prop) s :
  Q (Panic v) s -> wp (panic v) Q s.
Proof. auto. Qed.

Lemma wp_lift {A} (o : Outcome A) (Q : Outcome A -> State -> Prop) s :
  Q o s -> wp (lift o) Q s.
Proof. auto. Qed.

Lemma Shader_Get_run w sh s :
  Shader_Get w sh gl_COMPILE_STATUS s =
  (Ret (w_compile_status w (shader_type sh)),
   set_trace (trace s ++ [ShaderGet sh gl_COMPILE_STATUS]) s).
Proof. reflexivity. Qed.

Lemma Program_Get_run w program s :
  Program_Get w program gl_VALIDATE_STATUS s =
  (Ret (validate_status w),
   set_trace (trace s ++ [ProgramGet program gl_VALIDATE_STATUS]) s).
Proof. reflexivity. Qed.

Ltac norm_setup :=
  cbv beta iota zeta delta
    [should_close key_callback error_callback polled errors_read sizes_read
     clock_read objects defers trace stdout
     set_should_close set_key_callback set_error_callback set_polled
     set_errors_read set_sizes_read set_clock_read set_objects set_defers
     set_trace set_stdout shader_type];
  cbn [app List.length].

Ltac wp_step :=
  lazymatch goal with
  | |- wp (bind (checkError _ _) _) _ _ =>
      eapply wp_bind_run; [apply checkError_run | norm_setup]
  | |- wp (bind (Shader_Get _ _ _) _) _ _ =>
      eapply wp_bind_run; [apply Shader_Get_run | norm_setup]
  | |- wp (bind (Program_Get _ _ _) _) _ _ =>
      eapply wp_bind_run; [apply Program_Get_run | norm_setup]
  | |- wp (bind (glfw_Init _) _) _ _ =>
      eapply wp_bind_run; [apply glfw_Init_run | norm_setup]
  | |- wp (bind (glfw_CreateWindow _ _ _ _ _) _) _ _ =>
      eapply wp_bind_run; [apply glfw_CreateWindow_run | norm_setup]
  | |- wp (bind (glfw_WindowHint _ _ _) _) _ _ =>
      eapply wp_bind_run; [apply glfw_run | norm_setup]
  | |- wp (bind (Window_MakeContextCurrent _ _) _) _ _ =>
      eapply wp_bind_run; [apply glfw_run | norm_setup]
  | |- wp (bind (bind _ _) _) _ _ => apply wp_bind
  | |- wp (bind (if _ then _ else _) _) _ _ => apply wp_bind
  | |- wp (bind (match _ with _ => _ end) _) _ _ => apply wp_bind
  | |- wp (bind (createTexture _ _ _) _) _ _ =>
      apply wp_bind; unfold createTexture
  | |- wp (bind (lift _) _) _ _ => apply wp_bind
  | |- wp (bind _ _) _ _ =>
      eapply wp_bind_run; [reflexivity | norm_setup]
  | |- wp (if ?c then _ else _) _ _ => destruct c eqn:?
  | |- wp (match ?x with _ => _ end) _ _ => destruct x eqn:?
  | |- wp (ret _) _ _ => apply wp_ret; cbv beta iota
  | |- wp (panic _) _ _ => apply wp_panic; cbv beta iota
  | |- wp (lift ?o) _ _ => apply wp_lift; destruct o eqn:?; cbv beta iota
  end.

(** Rewrite the goal with what is known of the world. *)
Ltac use_world :=
  repeat match goal with
         | H : ?x = _ |- context [?x] => rewrite H
         end.

(** Two answers of the world that contradict each other. *)
Ltac clash :=
  repeat match goal with
         | H : ?x = _, H' : context [?x] |- _ => progress (rewrite H in H')
         end;
  cbn in *; congruence.

Ltac finish_post :=
  repeat match goal with
         | |- _ /\ _ => split
         | |- forall _, _ => intro
         end;
  first [ discriminate
        | reflexivity
        | use_world; reflexivity
        | clash
        | idtac ].

Lemma triangle_setup_spec w :
  wp (Triangle.setup w) (triangle_setup_post w) init_state.
Proof.
  unfold Triangle.setup, init_state.
  repeat wp_step.
  all: unfold triangle_setup_post, triangle_setup_outcome, shaders_outcome, before_loop.
  all: finish_post.
Qed.

Lemma context_setup_spec w :
  wp (ContextCreation.setup w) (context_setup_post w) init_state.
Proof.
  unfold ContextCreation.setup, init_state.
  repeat wp_step.
  all: unfold context_setup_post, context_setup_outcome, before_loop.
  all: finish_post.
Qed.

Ltac finish_locals :=
  repeat match goal with
         | H : Ret _ = Ret _ |- _ => injection H as <-
         end;
  cbn; rewrite ?Z.eqb_refl; reflexivity.

Lemma cube_setup_spec w fuel :
  wp (Cube.setup w fuel) (cube_setup_post w fuel) init_state.
Proof.
  unfold Cube.setup, init_state.
  repeat wp_step.
  all: unfold cube_setup_post, textured_setup_outcome, texture_outcome,
         shaders_outcome, before_loop.
  all: finish_post.
  all: finish_locals.
Qed.

Lemma quad_setup_spec w fuel :
  wp (Quad.setup w fuel) (quad_setup_post w fuel) init_state.
Proof.
  unfold Quad.setup, init_state.
  repeat wp_step.
  all: unfold quad_setup_post, textured_setup_outcome, texture_outcome,
         shaders_outcome, before_loop.
  all: finish_post.
  all: finish_locals.
Qed.

(** ** The render loop *)

Lemma loop_cond_run window s :
  loop_cond window s =
  (Ret (negb (should_close s)), set_trace (trace s ++ [WindowShouldClose]) s).
Proof. reflexivity. Qed.

Lemma for_loop_exit fuel window body s :
  should_close s = true ->
  for_loop (S fuel) (loop_cond window) body s =
  (Ret tt, set_trace (trace s ++ [WindowShouldClose]) s).
Proof.
  intros H. cbn [for_loop]. erewrite bind_run by apply loop_cond_run.
  rewrite H. reflexivity.
Qed.

Lemma for_loop_enter fuel window body s :
  should_close s = false ->
  for_loop (S fuel) (loop_cond window) body s =
  (body ;; for_loop fuel (loop_cond window) body)
    (set_trace (trace s ++ [WindowShouldClose]) s).
Proof.
  intros H. cbn [for_loop]. erewrite bind_run by apply loop_cond_run.
  rewrite H. reflexivity.
Qed.

Lemma frames_of_app t1 t2 : frames_of (t1 ++ t2) = (frames_of t1 + frames_of t2)%nat.
Proof. unfold frames_of. rewrite filter_app, length_app. reflexivity. Qed.

Lemma frames_of_cleanup t : forallb is_cleanup t = true -> frames_of t = 0%nat.
Proof.
  induction t as [| c t IH]; [reflexivity |].
  cbn [forallb]. intros [Hc Ht]%andb_prop.
  change (c :: t) with ([c] ++ t). rewrite frames_of_app, IH by assumption.
  destruct c; try discriminate; reflexivity.
Qed.

Lemma frames_of_poll_calls registered events :
  frames_of (poll_calls registered events) = 0%nat.
Proof.
  unfold poll_calls, frames_of. cbn [filter is_swap].
  induction events as [| e events IH]; [reflexivity |].
  cbn [flat_map]. rewrite filter_app, length_app, IH, Nat.add_0_r.
  destruct e; cbn; try reflexivity.
  destruct (registered && (action =? glfw_Press) && (k =? glfw_KeyEscape));
    reflexivity.
Qed.

Section RenderLoop.

Variable w : World.
Variable frame : M unit.
Hypothesis Hframe : shows_a_frame w frame.

(** Once an Escape press or a close request arrives with the [k]-th poll from
    now, the loop shows [k + 1] frames and exits. *)
Lemma render_loop_exits window : forall k s fuel,
  key_callback s = true ->
  should_close s = false ->
  (forall i, (i < k)%nat ->
     existsb (closes true) (w_events w (polled s + i)) = false) ->
  existsb (closes true) (w_events w (polled s + k)) = true ->
  (k + 2 <= fuel)%nat ->
  exists s',
    for_loop fuel (loop_cond window) frame s = (Ret tt, s') /\
    should_close s' = true /\
    polled s' = (polled s + S k)%nat /\
    frames_of (trace s') = (frames_of (trace s) + S k)%nat /\
    defers s' = defers s.
Proof.
  induction k as [| k IH]; intros s fuel Hcb Hopen Hquiet Hclose Hfuel.
  - destruct fuel as [| [| fuel]]; try lia.
    rewrite for_loop_enter by assumption.
    destruct (Hframe (set_trace (trace s ++ [WindowShouldClose]) s))
      as (s1 & Hrun & Hsc & Hcb1 & Hp & Hf & Hd).
    cbn [should_close key_callback polled trace defers set_trace] in Hsc, Hcb1, Hp, Hf, Hd.
    erewrite bind_run by exact Hrun.
    rewrite Nat.add_0_r in Hclose.
    rewrite Hopen, Hcb, Hclose in Hsc. cbn in Hsc.
    rewrite for_loop_exit by assumption.
    eexists. split; [reflexivity |].
    cbn [should_close polled trace defers set_trace].
    rewrite frames_of_app in Hf |- *.
    change (frames_of [WindowShouldClose]) with 0%nat in Hf |- *.
    repeat split; try assumption; lia.
  - destruct fuel as [| fuel]; try lia.
    rewrite for_loop_enter by assumption.
    destruct (Hframe (set_trace (trace s ++ [WindowShouldClose]) s))
      as (s1 & Hrun & Hsc & Hcb1 & Hp & Hf & Hd).
    cbn [should_close key_callback polled trace defers set_trace] in Hsc, Hcb1, Hp, Hf, Hd.
    erewrite bind_run by exact Hrun.
    pose proof (Hquiet 0%nat ltac:(lia)) as H0.
    rewrite Nat.add_0_r in H0.
    rewrite Hopen, Hcb, H0 in Hsc. cbn in Hsc.
    destruct (IH s1 fuel) as (s' & Hrun' & Hsc' & Hp' & Hf' & Hd').
    + congruence.
    + assumption.
    + intros i Hi. rewrite Hp.
      replace (S (polled s) + i)%nat with (polled s + S i)%nat by lia.
      apply Hquiet. lia.
    + rewrite Hp.
      replace (S (polled s) + k)%nat with (polled s + S k)%nat by lia.
      assumption.
    + lia.
    + exists s'. rewrite frames_of_app in Hf.
      change (frames_of [WindowShouldClose]) with 0%nat in Hf.
      repeat split; try assumption; try lia; congruence.
Qed.

(** While neither arrives, the loop goes on. *)
Lemma render_loop_goes_on window : forall fuel s,
  should_close s = false ->
  (forall i, existsb (closes (key_callback s)) (w_events w i) = false) ->
  fst (for_loop fuel (loop_cond window) frame s) = Timeout.
Proof.
  induction fuel as [| fuel IH]; intros s Hopen Hquiet; [reflexivity |].
  rewrite for_loop_enter by assumption.
  destruct (Hframe (set_trace (trace s ++ [WindowShouldClose]) s))
    as (s1 & Hrun & Hsc & Hcb1 & Hp & Hf & Hd).
  cbn in Hsc, Hcb1, Hp, Hf, Hd.
  erewrite bind_run by exact Hrun.
  apply IH.
  - rewrite Hsc, Hopen, Hquiet. reflexivity.
  - rewrite Hcb1. assumption.
Qed.

End RenderLoop.

Lemma context_shows_a_frame w window :
  shows_a_frame w (ContextCreation.frame w window).
Proof.
  intros s. eexists. split; [apply context_frame_run |].
  cbn [should_close key_callback polled trace defers].
  change (WindowSwapBuffers :: ?l) with ([WindowSwapBuffers] ++ l).
  rewrite !frames_of_app, frames_of_poll_calls.
  repeat split; cbn; lia.
Qed.

Lemma cube_shows_a_frame w l : shows_a_frame w (Cube.frame w l).
Proof.
  intros s. eexists. split; [apply cube_frame_run |].
  cbn [should_close key_callback polled trace defers].
  rewrite !frames_of_app, frames_of_poll_calls.
  repeat split; cbn; lia.
Qed.

Lemma triangle_shows_a_frame w window :
  shows_a_frame w (Triangle.frame w window).
Proof.
  intros s. eexists. split; [apply triangle_frame_run |].
  cbn [should_close key_callback polled trace defers].
  rewrite !frames_of_app, frames_of_poll_calls.
  repeat split; cbn; lia.
Qed.

Lemma quad_shows_a_frame w l : shows_a_frame w (Quad.frame w l).
Proof.
  intros s. eexists. split; [apply quad_frame_run |].
  cbn [should_close key_callback polled trace defers].
  rewrite !frames_of_app, frames_of_poll_calls.
  repeat split; cbn; lia.
Qed.

(** ** Whole runs *)

Section Shape.

Context {L : Type}.
Variable w : World.
Variable setup : M L.
Variable win : L -> Window.
Variable frame : L -> M unit.
Variable fuel : nat.

Let main : M unit :=
  deferring w (l <- setup ;; for_loop fuel (loop_cond (win l)) (frame l)).

Hypothesis Hframe : forall l, shows_a_frame w (frame l).

Lemma first_close_quiet n i :
  first_close w n -> (i < n)%nat ->
  existsb (closes true) (w_events w i) = false.
Proof.
  intros [_ Hq] Hi. rewrite forallb_forall in Hq.
  specialize (Hq i). rewrite in_seq in Hq.
  apply negb_true_iff, Hq. lia.
Qed.

Lemma shaped_main_exits l s1 n :
  setup init_state = (Ret l, s1) ->
  before_loop s1 -> key_callback s1 = true ->
  first_close w n -> (n + 2 <= fuel)%nat ->
  exists s',
    go_run main = (ExitNormal, s') /\
    should_close s' = true /\
    frames_of (trace s') = S n.
Proof.
  intros Hsetup (Hopen & Hp & Hclean & _ & Hf & _) Hcb Hfirst Hfuel.
  destruct (render_loop_exits w (frame l) (Hframe l) (win l) n s1 fuel)
    as (s2 & Hrun & Hsc & _ & Hf2 & Hd); try assumption.
  - intros i Hi. rewrite Hp. now apply (first_close_quiet n).
  - rewrite Hp. apply Hfirst.
  - unfold main. rewrite go_run_deferring.
    erewrite bind_run by exact Hsetup. rewrite Hrun.
    eexists. split; [reflexivity |]. unfold after_defers.
    cbn [should_close trace set_defers set_trace set_stdout].
    rewrite frames_of_app, Hd, (frames_of_cleanup _ Hclean).
    split; [assumption | lia].
Qed.

Lemma shaped_main_goes_on l s1 :
  setup init_state = (Ret l, s1) ->
  before_loop s1 -> key_callback s1 = true ->
  never_closes w ->
  fst (go_run main) = StillRunning.
Proof.
  intros Hsetup (Hopen & _) Hcb Hnever.
  pose proof (render_loop_goes_on w (frame l) (Hframe l) (win l) fuel s1 Hopen)
    as Hrun.
  unfold main. rewrite go_run_deferring. erewrite bind_run by exact Hsetup.
  destruct (for_loop fuel (loop_cond (win l)) (frame l) s1) as [o s2].
  cbn in Hrun. rewrite Hrun; [reflexivity |].
  rewrite Hcb. exact Hnever.
Qed.

(** A setup that panics ends the process there: the deferred calls run and
    the loop is never entered. *)
Lemma shaped_main_panics v s1 :
  setup init_state = (Panic v, s1) ->
  before_loop s1 ->
  exists s',
    go_run main = (ExitPanic v, s') /\ frames_of (trace s') = 0%nat /\
    polled s' = 0%nat.
Proof.
  intros Hsetup (_ & Hp & Hclean & _ & Hf & _).
  unfold main. rewrite go_run_deferring. unfold bind. rewrite Hsetup.
  eexists. split; [reflexivity |]. unfold after_defers.
  cbn [polled trace set_defers set_trace set_stdout].
  rewrite frames_of_app, Hf, (frames_of_cleanup _ Hclean). split; [reflexivity | assumption].
Qed.

End Shape.

Lemma handleKey_escape window scancode mods st :
  handleKey window glfw_KeyEscape scancode glfw_Press mods st =
  (Ret tt,
   set_should_close true (set_trace (trace st ++ [WindowSetShouldClose true]) st)).
Proof. reflexivity. Qed.

Lemma handleKey_other window k scancode action mods st :
  action <> glfw_Press \/ k <> glfw_KeyEscape ->
  handleKey window k scancode action mods st = (Ret tt, st).
Proof.
  intros H. unfold handleKey.
  destruct (action =? glfw_Press) eqn:Ha; [| reflexivity].
  destruct (k =? glfw_KeyEscape) eqn:Hk; [| reflexivity].
  apply Z.eqb_eq in Ha, Hk. tauto.
Qed.

Lemma main_exits p w fuel n :
  enters_loop p w fuel -> first_close w n -> (n + 2 <= fuel)%nat ->
  exists s',
    go_run (main_of p w fuel) = (ExitNormal, s') /\
    should_close s' = true /\
    frames_of (trace s') = S n.
Proof.
  destruct p; intros (l & s1 & Hsetup) Hfirst Hfuel.
  - pose proof (context_setup_spec w) as Hspec.
    unfold wp in Hspec. rewrite Hsetup in Hspec. cbn [fst snd] in Hspec.
    destruct Hspec as (_ & Hbefore & _ & Hcb).
    apply (shaped_main_exits w (ContextCreation.setup w) (fun window => window)
             (ContextCreation.frame w) fuel (context_shows_a_frame w) l s1 n);
      eauto.
  - pose proof (cube_setup_spec w fuel) as Hspec.
    unfold wp in Hspec. rewrite Hsetup in Hspec. cbn [fst snd] in Hspec.
    destruct Hspec as (_ & Hbefore & _ & Hret).
    destruct (Hret l eq_refl) as (Hcb & _).
    apply (shaped_main_exits w (Cube.setup w fuel) Cube.window
             (Cube.frame w) fuel (cube_shows_a_frame w) l s1 n); eauto.
  - pose proof (triangle_setup_spec w) as Hspec.
    unfold wp in Hspec. rewrite Hsetup in Hspec. cbn [fst snd] in Hspec.
    destruct Hspec as (_ & Hbefore & _ & Hcb).
    apply (shaped_main_exits w (Triangle.setup w) (fun window => window)
             (Triangle.frame w) fuel (triangle_shows_a_frame w) l s1 n);
      eauto.
  - pose proof (quad_setup_spec w fuel) as Hspec.
    unfold wp in Hspec. rewrite Hsetup in Hspec. cbn [fst snd] in Hspec.
    destruct Hspec as (_ & Hbefore & _ & Hret).
    destruct (Hret l eq_refl) as (Hcb & _).
    apply (shaped_main_exits w (Quad.setup w fuel) Quad.window
             (Quad.frame w) fuel (quad_shows_a_frame w) l s1 n); eauto.
Qed.

Lemma main_goes_on p w fuel :
  enters_loop p w fuel -> never_closes w ->
  fst (go_run (main_of p w fuel)) = StillRunning.
Proof.
  destruct p; intros (l & s1 & Hsetup) Hnever.
  - pose proof (context_setup_spec w) as Hspec.
    unfold wp in Hspec. rewrite Hsetup in Hspec. cbn [fst snd] in Hspec.
    destruct Hspec as (_ & Hbefore & _ & Hcb).
    apply (shaped_main_goes_on w (ContextCreation.setup w) (fun window => window)
             (ContextCreation.frame w) fuel (context_shows_a_frame w) l s1);
      eauto.
  - pose proof (cube_setup_spec w fuel) as Hspec.
    unfold wp in Hspec. rewrite Hsetup in Hspec. cbn [fst snd] in Hspec.
    destruct Hspec as (_ & Hbefore & _ & Hret).
    destruct (Hret l eq_refl) as (Hcb & _).
    apply (shaped_main_goes_on w (Cube.setup w fuel) Cube.window
             (Cube.frame w) fuel (cube_shows_a_frame w) l s1); eauto.
  - pose proof (triangle_setup_spec w) as Hspec.
    unfold wp in Hspec. rewrite Hsetup in Hspec. cbn [fst snd] in Hspec.
    destruct Hspec as (_ & Hbefore & _ & Hcb).
    apply (shaped_main_goes_on w (Triangle.setup w) (fun window => window)
             (Triangle.frame w) fuel (triangle_shows_a_frame w) l s1);
      eauto.
  - pose proof (quad_setup_spec w fuel) as Hspec.
    unfold wp in Hspec. rewrite Hsetup in Hspec. cbn [fst snd] in Hspec.
    destruct Hspec as (_ & Hbefore & _ & Hret).
    destruct (Hret l eq_refl) as (Hcb & _).
    apply (shaped_main_goes_on w (Quad.setup w fuel) Quad.window
             (Quad.frame w) fuel (quad_shows_a_frame w) l s1); eauto.
Qed.

(** ** Slices *)

Lemma int_wrap_small z : - 2 ^ 63 <= z < 2 ^ 63 -> int_wrap z = z.
Proof.
  intros H. unfold int_wrap. rewrite Z.mod_small; lia.
Qed.

Lemma slice_nat {A} (l : list A) (a n : nat) :
  slice l (Z.of_nat a) (Z.of_nat a + Z.of_nat n) = firstn n (skipn a l).
Proof.
  unfold slice.
  replace (Z.of_nat a + Z.of_nat n - Z.of_nat a) with (Z.of_nat n) by lia.
  now rewrite !Nat2Z.id.
Qed.

Lemma copy_to_nat {A} (data src : list A) (a n : nat) :
  (n <= List.length src)%nat ->
  copy_to data (Z.of_nat a) (Z.of_nat a + Z.of_nat n) src =
  firstn a data ++ firstn n src ++ skipn (a + n) data.
Proof.
  intros H. unfold copy_to.
  replace (Z.of_nat a + Z.of_nat n - Z.of_nat a) with (Z.of_nat n) by lia.
  rewrite !Nat2Z.id. now rewrite Nat.min_l by assumption.
Qed.

Lemma in_bounds_nat {A} (l : list A) (a n : nat) :
  (a + n <= List.length l)%nat ->
  in_bounds l (Z.of_nat a) (Z.of_nat a + Z.of_nat n) = true.
Proof.
  intros H. unfold in_bounds, len.
  repeat (apply andb_true_intro; split); apply Z.leb_le; lia.
Qed.

(** Writing one row of [n] bytes at row [k] of [data]. *)
Lemma row_written (n k : nat) (data src : list Byte.byte) :
  (k * n + n <= List.length data)%nat -> (n <= List.length src)%nat ->
  row n k (firstn (k * n) data ++ firstn n src ++ skipn (k * n + n) data)
  = firstn n src.
Proof.
  intros Hd Hs. unfold row.
  rewrite skipn_app, length_firstn, Nat.min_l by lia.
  rewrite Nat.sub_diag. cbn [skipn].
  rewrite skipn_all2 by (rewrite length_firstn; lia).
  cbn [app].
  rewrite firstn_app, length_firstn, Nat.min_l by lia.
  rewrite Nat.sub_diag. cbn [firstn]. rewrite app_nil_r.
  apply firstn_all2. rewrite length_firstn. lia.
Qed.

Lemma row_untouched (n k j : nat) (data src : list Byte.byte) :
  (k * n + n <= List.length data)%nat -> (n <= List.length src)%nat ->
  (k < j)%nat ->
  row n j (firstn (k * n) data ++ firstn n src ++ skipn (k * n + n) data)
  = row n j data.
Proof.
  intros Hd Hs Hj. unfold row. f_equal.
  assert (Hjn : (k * n + n <= j * n)%nat) by nia.
  rewrite skipn_app, length_firstn, Nat.min_l by lia.
  rewrite skipn_all2 by (rewrite length_firstn; lia).
  cbn [app].
  rewrite skipn_app, length_firstn, Nat.min_l by lia.
  rewrite skipn_all2 by (rewrite length_firstn; lia).
  cbn [app].
  rewrite skipn_skipn. f_equal. lia.
Qed.

(** ** The row loop of [createTexture] *)

Section Flip.

Variable p : NRGBA.
Variables L St Hn : nat.
Hypothesis HSt : Stride p = Z.of_nat St.
Hypothesis Hpos : (0 < St)%nat.
Hypothesis HL : (L <= St)%nat.
Hypothesis Hlen : List.length (Pix p) = (Hn * St)%nat.
Hypothesis Hsmall : Z.of_nat (Hn * St) < 2 ^ 63.

(** With [k] rows left to copy, the loop fills the rows [0 .. k-1] of the
    data, from the pixel rows [Hn-1 .. Hn-k], and leaves the others. *)
Lemma flip_rows_spec : forall k i data fuel,
  (i + k = Hn)%nat -> List.length data = (Hn * L)%nat -> (k < fuel)%nat ->
  exists data',
    flip_rows fuel p (Z.of_nat L) (Z.of_nat (i * St))
      (Z.of_nat (k * L) - Z.of_nat L) data = Ret data' /\
    List.length data' = (Hn * L)%nat /\
    (forall j, (j < k)%nat ->
       row L j data' = firstn L (pixel_row p (Hn - 1 - j))) /\
    (forall j, (k <= j)%nat -> row L j data' = row L j data).
Proof.
  induction k as [| k IH]; intros i data fuel Hik Hdata Hfuel;
    (destruct fuel as [| fuel]; [lia |]); cbn [flip_rows].
  - replace i with Hn by lia.
    unfold len. rewrite Hlen, Z.ltb_irrefl.
    exists data. repeat split; auto. intros j Hj. lia.
  - assert (Hi : (i * St + St <= Hn * St)%nat) by nia.
    assert (Hk : (k * L + L <= Hn * L)%nat) by nia.
    assert (HLS : (Hn * L <= Hn * St)%nat) by nia.
    replace (Z.of_nat (S k * L) - Z.of_nat L) with (Z.of_nat (k * L))
      by (rewrite Nat.mul_succ_l; lia).
    replace (Z.of_nat (i * St) <? len (Pix p)) with true
      by (symmetry; apply Z.ltb_lt; unfold len; rewrite Hlen; lia).
    rewrite HSt. unfold int_add, int_sub.
    rewrite !int_wrap_small by lia.
    rewrite !in_bounds_nat by lia. cbn [andb].
    rewrite slice_nat.
    assert (Hrow : (L <= List.length (firstn St (skipn (i * St) (Pix p))))%nat)
      by (rewrite length_firstn, length_skipn; lia).
    rewrite copy_to_nat by exact Hrow.
    replace (Z.of_nat (i * St) + Z.of_nat St) with (Z.of_nat (S i * St))
      by (rewrite Nat.mul_succ_l; lia).
    destruct (IH (S i)
                (firstn (k * L) data ++
                 firstn L (firstn St (skipn (i * St) (Pix p))) ++
                 skipn (k * L + L) data) fuel)
      as (data' & Hrun & Hlen' & Hnew & Hold).
    + lia.
    + rewrite !length_app, !length_firstn, !length_skipn, Hdata, Hlen. lia.
    + lia.
    + exists data'. split; [exact Hrun |]. split; [exact Hlen' |]. split.
      * intros j Hj. destruct (Nat.eq_dec j k) as [-> | Hne].
        -- rewrite Hold by lia. rewrite row_written by lia.
           unfold pixel_row, row. rewrite HSt, Nat2Z.id.
           replace (Hn - 1 - k)%nat with i by lia. reflexivity.
        -- apply Hnew. lia.
      * intros j Hj. rewrite Hold by lia. apply row_untouched; lia.
Qed.

End Flip.

Lemma row_nil n j : row n j [] = [].
Proof. unfold row. now rewrite skipn_nil, firstn_nil. Qed.

Lemma flip_rows_no_pixels fuel p lineLen dest data :
  Pix p = [] ->
  flip_rows (S fuel) p lineLen 0 dest data = Ret data.
Proof. intros H. cbn [flip_rows]. rewrite H. reflexivity. Qed.

(** [createTexture]'s byte array for an image laid out in rows. *)
Lemma flip_image_spec p fuel :
  laid_out p ->
  (Z.to_nat (Dy (Rect p)) < fuel)%nat ->
  exists data,
    flip_image fuel (ImageNRGBA p) p = Ret data /\
    len data = 4 * Dx (Rect p) * Dy (Rect p) /\
    forall j, (j < Z.to_nat (Dy (Rect p)))%nat ->
      row (Z.to_nat (4 * Dx (Rect p))) j data =
      firstn (Z.to_nat (4 * Dx (Rect p)))
        (pixel_row p (Z.to_nat (Dy (Rect p)) - 1 - j)).
Proof.
  intros (HW & HH & HWS & Hlen & Hsmall) Hfuel.
  unfold flip_image. cbn [Bounds].
  set (W := Dx (Rect p)) in *. set (H := Dy (Rect p)) in *.
  destruct (Z.eq_dec (len (Pix p)) 0) as [Hempty | Hfull].
  - (* no pixel bytes: no row or no column *)
    assert (Hnil : Pix p = []).
    { unfold len in Hempty. destruct (Pix p); [reflexivity | discriminate]. }
    assert (HWH : W * H = 0) by nia.
    unfold int_mul. rewrite HWH.
    change (int_wrap 0 * 4) with 0. change (int_wrap 0) with 0.
    cbn [make_bytes Z.ltb Z.compare Z.to_nat repeat].
    destruct fuel as [| fuel]; [lia |].
    rewrite flip_rows_no_pixels by assumption.
    exists []. split; [reflexivity |].
    split; [replace (4 * W * H) with (4 * (W * H)) by ring; rewrite HWH; reflexivity |].
    intros j Hj. rewrite row_nil.
    assert (Stride p = 0 \/ H = 0) as [HS0 | HH0] by (apply Z.mul_eq_0; lia).
    + replace (4 * W) with 0 by lia. reflexivity.
    + lia.
  - assert (HS : 0 < Stride p) by nia.
    assert (HH1 : 0 < H) by nia.
    assert (HSs : Stride p < 2 ^ 63) by nia.
    assert (HWH : 0 <= W * H * 4 <= Stride p * H) by nia.
    assert (HWH' : 0 <= W * H <= W * H * 4) by nia.
    unfold int_mul, int_sub.
    rewrite (int_wrap_small (W * H)) by lia.
    rewrite (int_wrap_small (W * H * 4)) by lia.
    rewrite (int_wrap_small (W * 4)) by lia.
    unfold make_bytes.
    replace (W * H * 4 <? 0) with false by (symmetry; apply Z.ltb_ge; lia).
    unfold len at 1. rewrite repeat_length.
    rewrite int_wrap_small by lia.
    pose (L := Z.to_nat (4 * W)). pose (St := Z.to_nat (Stride p)).
    pose (Hn := Z.to_nat H).
    assert (HLn : Z.to_nat (W * H * 4) = (Hn * L)%nat).
    { unfold Hn, L. rewrite <- Z2Nat.inj_mul by lia. f_equal. lia. }
    destruct (flip_rows_spec p L St Hn) with
      (k := Hn) (i := 0%nat) (data := repeat Byte.x00 (Z.to_nat (W * H * 4)))
      (fuel := fuel)
      as (data & Hrun & Hdlen & Hrows & _).
    + unfold St. lia.
    + unfold St. lia.
    + unfold L, St. lia.
    + unfold len in Hlen. apply Nat2Z.inj. rewrite Hlen. unfold Hn, St.
      rewrite Nat2Z.inj_mul, !Z2Nat.id by lia. lia.
    + unfold Hn, St. rewrite Nat2Z.inj_mul, !Z2Nat.id by lia. lia.
    + lia.
    + rewrite repeat_length. exact HLn.
    + exact Hfuel.
    + exists data. split; [| split].
      * rewrite <- Hrun. f_equal.
        -- unfold L. rewrite Z2Nat.id by lia. lia.
        -- rewrite HLn. unfold L. rewrite Z2Nat.id by lia. lia.
      * unfold len. rewrite Hdlen. unfold Hn, L.
        rewrite Nat2Z.inj_mul, !Z2Nat.id by lia. lia.
      * exact Hrows.
Qed.

(** ** [createTexture], run *)

Lemma createTexture_decode_error w fuel r s e :
  w_png_Decode w r = Err e ->
  createTexture w fuel r s =
  (Ret (0, Some e), set_trace (trace s ++ [PngDecode]) s).
Proof.
  intros H. unfold createTexture, png_Decode.
  erewrite bind_run by reflexivity. rewrite H. reflexivity.
Qed.

Lemma createTexture_not_NRGBA w fuel r s bounds :
  w_png_Decode w r = Ok (ImageOther bounds) ->
  createTexture w fuel r s =
  (Ret (0, Some "texture must be an NRGBA image"%string),
   set_trace (trace s ++ [PngDecode]) s).
Proof.
  intros H. unfold createTexture, png_Decode.
  erewrite bind_run by reflexivity. rewrite H. reflexivity.
Qed.

Lemma createTexture_NRGBA w fuel r s p data :
  w_png_Decode w r = Ok (ImageNRGBA p) ->
  flip_image fuel (ImageNRGBA p) p = Ret data ->
  createTexture w fuel r s =
  (Ret (Z.of_nat (S (objects s)), None),
   mkState (should_close s) (key_callback s) (error_callback s) (polled s) (errors_read s)
     (sizes_read s) (clock_read s) (S (objects s)) (defers s)
     (trace s ++
      [PngDecode; GlGenTexture;
       TextureBind (Z.of_nat (S (objects s))) gl_TEXTURE_2D;
       GlTexParameterf gl_TEXTURE_2D gl_TEXTURE_MAG_FILTER gl_LINEAR;
       GlTexParameterf gl_TEXTURE_2D gl_TEXTURE_MIN_FILTER gl_LINEAR;
       GlTexImage2D gl_TEXTURE_2D 0 gl_RGBA (Dx (Rect p)) (Dy (Rect p)) 0
         gl_RGBA gl_UNSIGNED_BYTE data])
     (stdout s)).
Proof.
  intros H Hflip. unfold createTexture, png_Decode.
  erewrite bind_run by reflexivity. rewrite H.
  unfold gl_GenTexture. do 4 run_step.
  rewrite Hflip. do 1 run_step.
  cbv beta delta [call ret bind]. norm_state.
  repeat rewrite <- app_assoc. reflexivity.
Qed.

(** ** Invariants of whole runs *)

Lemma preserves_bind {A B} (I : State -> Prop) (m : M A) (k : A -> M B) :
  preserves I m -> (forall a, preserves I (k a)) -> preserves I (bind m k).
Proof.
  intros Hm Hk s Hs. unfold bind.
  specialize (Hm s Hs). destruct (m s) as [[a | v |] s']; cbn in *; auto.
  now apply Hk.
Qed.

Lemma preserves_ret {A} (I : State -> Prop) (a : A) : preserves I (ret a).
Proof. intros s Hs. exact Hs. Qed.

Lemma for_loop_preserves (I : State -> Prop) cond body :
  preserves I cond -> preserves I body ->
  forall fuel, preserves I (for_loop fuel cond body).
Proof.
  intros Hc Hb. induction fuel as [| fuel IH]; cbn [for_loop].
  - intros s Hs. exact Hs.
  - apply preserves_bind; [exact Hc |]. intros [|].
    + apply preserves_bind; [exact Hb | intros _; exact IH].
    + apply preserves_ret.
Qed.

Section Final.

Context {L : Type}.
Variable w : World.
Variable setup : M L.
Variable win : L -> Window.
Variable frame : L -> M unit.
Variable fuel : nat.

Let main : M unit :=
  deferring w (l <- setup ;; for_loop fuel (loop_cond (win l)) (frame l)).

(** [good]: what the setup hands to the loop; [I]: what holds whenever the
    loop condition is evaluated; [F]: what holds when the process ends or
    the fuel runs out. *)
Variable good : L -> Prop.
Variables I F : State -> Prop.

Hypothesis setup_returns :
  forall l s1, setup init_state = (Ret l, s1) -> good l /\ I s1.
Hypothesis setup_fails :
  forall o s1, setup init_state = (o, s1) -> (forall l, o <> Ret l) -> F s1.
Hypothesis cond_keeps : forall window, preserves I (loop_cond window).
Hypothesis frame_keeps : forall l, good l -> preserves I (frame l).
Hypothesis I_F : forall s, I s -> F s.
Hypothesis deferred_keep : forall s, F s -> F (after_defers w s).

Lemma shaped_main_final : F (snd (go_run main)).
Proof.
  unfold main. rewrite go_run_deferring. unfold bind.
  destruct (setup init_state) as [[l | v |] s1] eqn:Hsetup.
  - destruct (setup_returns l s1 eq_refl) as [Hgood HI].
    pose proof (for_loop_preserves I (loop_cond (win l)) (frame l)
                  (cond_keeps (win l)) (frame_keeps l Hgood) fuel s1 HI) as H.
    destruct (for_loop fuel (loop_cond (win l)) (frame l) s1) as [[[] | v |] s2];
      cbn [snd] in *; auto.
  - cbn [snd]. apply deferred_keep, (setup_fails _ _ eq_refl). discriminate.
  - cbn [snd]. apply (setup_fails _ _ eq_refl). discriminate.
Qed.

End Final.

(** ** Observations distribute over the parts of a run *)

Lemma poll_calls_Forall registered events :
  Forall (fun c => c = GlfwPollEvents \/ c = WindowSetShouldClose true)
    (poll_calls registered events).
Proof.
  unfold poll_calls. constructor; [now left |].
  induction events as [| e events IH]; cbn [flat_map]; [constructor |].
  apply Forall_app. split; [| exact IH].
  destruct e; cbn [callback_calls]; try constructor.
  destruct (registered && (action =? glfw_Press) && (k =? glfw_KeyEscape));
    [constructor; [now right | constructor] | constructor].
Qed.

Lemma cleanup_Forall t :
  forallb is_cleanup t = true -> Forall (fun c => is_cleanup c = true) t.
Proof. intros H. apply Forall_forall. now apply forallb_forall. Qed.

Lemma flat_map_nil {X} (proj : Call -> list X) t :
  Forall (fun c => proj c = []) t -> flat_map proj t = [].
Proof.
  induction 1 as [| c t Hc _ IH]; [reflexivity |].
  cbn [flat_map]. now rewrite Hc, IH.
Qed.

Lemma filter_nil (keep : Call -> bool) t :
  Forall (fun c => keep c = false) t -> filter keep t = [].
Proof.
  induction 1 as [| c t Hc _ IH]; [reflexivity |].
  cbn [filter]. now rewrite Hc, IH.
Qed.




Lemma draws_poll_calls registered events :
  filter is_draw_or_stencil (poll_calls registered events) = [].
Proof.
  apply filter_nil.
  eapply Forall_impl; [| apply poll_calls_Forall].
  intros c [-> | ->]; reflexivity.
Qed.

Lemma draws_cleanup t :
  forallb is_cleanup t = true -> filter is_draw_or_stencil t = [].
Proof.
  intros H. apply filter_nil.
  eapply Forall_impl; [| apply cleanup_Forall, H].
  intros c Hc. destruct c; try discriminate; reflexivity.
Qed.

Lemma buffers_created_app t1 t2 :
  buffers_created (t1 ++ t2) = buffers_created t1 + buffers_created t2.
Proof.
  unfold buffers_created. induction t1 as [| c t1 IH]; cbn; [reflexivity |].
  cbn in IH. rewrite IH. lia.
Qed.

Lemma buffers_created_none t :
  Forall (fun c => buffers_made c = 0) t -> buffers_created t = 0.
Proof.
  induction 1 as [| c t Hc _ IH]; [reflexivity |].
  change (c :: t) with ([c] ++ t). rewrite buffers_created_app, IH.
  cbn. lia.
Qed.

Lemma buffers_poll_calls registered events :
  buffers_created (poll_calls registered events) = 0.
Proof.
  apply buffers_created_none.
  eapply Forall_impl; [| apply poll_calls_Forall].
  intros c [-> | ->]; reflexivity.
Qed.

Lemma buffers_cleanup t : forallb is_cleanup t = true -> buffers_created t = 0.
Proof.
  intros H. apply buffers_created_none.
  eapply Forall_impl; [| apply cleanup_Forall, H].
  intros c Hc. destruct c; try discriminate; reflexivity.
Qed.

Lemma opened_app t1 t2 : opened (t1 ++ t2) = opened t1 ++ opened t2.
Proof. apply flat_map_app. Qed.

Lemma opened_poll_calls registered events :
  opened (poll_calls registered events) = [].
Proof.
  apply flat_map_nil.
  eapply Forall_impl; [| apply poll_calls_Forall].
  intros c [-> | ->]; reflexivity.
Qed.

Lemma opened_cleanup t : forallb is_cleanup t = true -> opened t = [].
Proof.
  intros H. apply flat_map_nil.
  eapply Forall_impl; [| apply cleanup_Forall, H].
  intros c Hc. destruct c; try discriminate; reflexivity.
Qed.

Lemma concat_repeat_snoc {X} (l : list X) n :
  List.concat (repeat l n) ++ l = List.concat (repeat l (S n)).
Proof.
  induction n as [| n IH]; cbn [repeat List.concat].
  - now rewrite app_nil_r.
  - rewrite <- app_assoc, IH. reflexivity.
Qed.

(** ** The rotation of every pass *)


Ltac spec_at lemma Hsetup :=
  pose proof lemma as Hspec; unfold wp in Hspec; rewrite Hsetup in Hspec;
  cbn [fst snd] in Hspec.


(** ** The draw and stencil calls of every pass of the cube *)

Lemma cube_frame_draws w l sizes clock :
  filter is_draw_or_stencil (cube_frame_calls w l sizes clock) = stencil_recipe.
Proof. reflexivity. Qed.

Lemma cube_draws w fuel :
  let s := snd (go_run (Cube.main w fuel)) in
  filter is_draw_or_stencil (trace s) =
  List.concat (repeat stencil_recipe (polled s)).
Proof.
  pose (F := fun s =>
    filter is_draw_or_stencil (trace s) =
      List.concat (repeat stencil_recipe (polled s)) /\
    forallb is_cleanup (defers s) = true).
  cut (F (snd (go_run (Cube.main w fuel)))); [intros [H _]; exact H |].
  apply (shaped_main_final w (Cube.setup w fuel) Cube.window (Cube.frame w) fuel
           (fun _ => True) F F).
  - intros l s1 Hsetup. spec_at (cube_setup_spec w fuel) Hsetup.
    destruct Hspec as (_ & (_ & Hp & Hclean & _ & _ & _ & Hdraw) & _).
    unfold F. rewrite Hdraw, Hp. repeat split; assumption.
  - intros o s1 Hsetup Ho. spec_at (cube_setup_spec w fuel) Hsetup.
    destruct Hspec as (_ & (_ & Hp & Hclean & _ & _ & _ & Hdraw) & _).
    unfold F. rewrite Hdraw, Hp. split; [reflexivity | assumption].
  - intros window s [Hdraw Hclean]. rewrite loop_cond_run.
    unfold F. cbn [snd trace polled defers set_trace].
    rewrite filter_app, app_nil_r. split; assumption.
  - intros l _ s [Hdraw Hclean]. rewrite cube_frame_run.
    unfold F. cbn [snd trace polled defers].
    rewrite !filter_app, draws_poll_calls, cube_frame_draws, Hdraw.
    cbn [app]. rewrite concat_repeat_snoc. split; [reflexivity | assumption].
  - auto.
  - intros s [Hdraw Hclean]. unfold F.
    unfold after_defers.
    cbn [trace polled defers set_defers set_trace set_stdout].
    rewrite filter_app, (draws_cleanup _ Hclean), app_nil_r.
    split; [assumption | reflexivity].
Qed.

(** ** The buffers and the files of every run *)

Section Stable.

Context {L : Type}.
Variable w : World.
Variable setup : M L.
Variable win : L -> Window.
Variable frame : L -> M unit.
Variable fuel : nat.

(** A property of traces that the setup establishes and that neither a pass
    through the loop nor the deferred releases disturb. *)
Variable P : list Call -> Prop.

Hypothesis setup_P : forall o s1,
  setup init_state = (o, s1) ->
  P (trace s1) /\ forallb is_cleanup (defers s1) = true.
Hypothesis frame_P : forall l s,
  P (trace s) ->
  P (trace (snd (frame l s))) /\ defers (snd (frame l s)) = defers s.
Hypothesis cond_P : forall t, P t -> P (t ++ [WindowShouldClose]).
Hypothesis cleanup_P : forall t d,
  P t -> forallb is_cleanup d = true -> P (t ++ d).

Lemma shaped_main_stable :
  P (trace (snd (go_run (deferring w
                           (l <- setup ;;
                            for_loop fuel (loop_cond (win l)) (frame l)))))).
Proof.
  pose (F := fun s => P (trace s) /\ forallb is_cleanup (defers s) = true).
  cut (F (snd (go_run (deferring w
                         (l <- setup ;;
                          for_loop fuel (loop_cond (win l)) (frame l))))));
    [intros [H _]; exact H |].
  apply (shaped_main_final w setup win frame fuel (fun _ => True) F F).
  - intros l s1 Hsetup. split; [exact Logic.I | exact (setup_P _ _ Hsetup)].
  - intros o s1 Hsetup _. exact (setup_P _ _ Hsetup).
  - intros window s [HP Hclean]. rewrite loop_cond_run.
    split; [apply cond_P, HP | exact Hclean].
  - intros l _ s [HP Hclean]. destruct (frame_P l s HP) as [HP' Hd].
    split; [exact HP' | rewrite Hd; exact Hclean].
  - auto.
  - intros s [HP Hclean]. split; [| reflexivity].
    unfold after_defers. cbn [trace set_defers set_trace set_stdout].
    now apply cleanup_P.
Qed.

End Stable.

Lemma main_buffers p w fuel :
  window_created p w ->
  buffers_created (trace (snd (go_run (main_of p w fuel)))) = buffers_of p.
Proof.
  intros (Hinit & Hwin & Hmon).
  pose (P := fun t => buffers_created t = buffers_of p).
  assert (Hcond : forall t, P t -> P (t ++ [WindowShouldClose])).
  { unfold P. intros t Ht. rewrite buffers_created_app, Ht. cbn. lia. }
  assert (Hcleanup : forall t d, P t -> forallb is_cleanup d = true -> P (t ++ d)).
  { unfold P. intros t d Ht Hd. rewrite buffers_created_app, Ht, buffers_cleanup by exact Hd. lia. }
  destruct p; cbn [main_of].
  - apply (shaped_main_stable w (ContextCreation.setup w) (fun window => window)
             (ContextCreation.frame w) fuel P); try assumption.
    + intros o s1 Hsetup. spec_at (context_setup_spec w) Hsetup.
      destruct Hspec as (_ & (_ & _ & Hclean & _) & Hbuf & _).
      split; [apply Hbuf; auto | exact Hclean].
    + intros l s Ht. rewrite context_frame_run. cbn [snd trace defers].
      split; [| reflexivity]. unfold P in *.
      change (WindowSwapBuffers :: ?t) with ([WindowSwapBuffers] ++ t).
      rewrite !buffers_created_app, buffers_poll_calls, Ht. cbn. lia.
  - apply (shaped_main_stable w (Cube.setup w fuel) Cube.window
             (Cube.frame w) fuel P); try assumption.
    + intros o s1 Hsetup. spec_at (cube_setup_spec w fuel) Hsetup.
      destruct Hspec as (_ & (_ & _ & Hclean & _) & Hbuf & _).
      split; [apply Hbuf; auto | exact Hclean].
    + intros l s Ht. rewrite cube_frame_run. cbn [snd trace defers].
      split; [| reflexivity]. unfold P in *.
      rewrite !buffers_created_app, buffers_poll_calls, Ht. cbn. lia.
  - apply (shaped_main_stable w (Triangle.setup w) (fun window => window)
             (Triangle.frame w) fuel P); try assumption.
    + intros o s1 Hsetup. spec_at (triangle_setup_spec w) Hsetup.
      destruct Hspec as (_ & (_ & _ & Hclean & _) & Hbuf & _).
      split; [apply Hbuf; auto | exact Hclean].
    + intros l s Ht. rewrite triangle_frame_run. cbn [snd trace defers].
      split; [| reflexivity]. unfold P in *.
      rewrite !buffers_created_app, buffers_poll_calls, Ht. cbn. lia.
  - apply (shaped_main_stable w (Quad.setup w fuel) Quad.window
             (Quad.frame w) fuel P); try assumption.
    + intros o s1 Hsetup. spec_at (quad_setup_spec w fuel) Hsetup.
      destruct Hspec as (_ & (_ & _ & Hclean & _) & Hbuf & _).
      split; [apply Hbuf; auto | exact Hclean].
    + intros l s Ht. rewrite quad_frame_run. cbn [snd trace defers].
      split; [| reflexivity]. unfold P in *.
      rewrite !buffers_created_app, buffers_poll_calls, Ht. cbn. lia.
Qed.

Lemma textured_opened p w fuel :
  uses_textures p = true ->
  let t := trace (snd (go_run (main_of p w fuel))) in
  prefixb (opened t) sample_files = true /\
  (enters_loop p w fuel -> opened t = sample_files).
Proof.
  intros Htex.
  pose (P := fun t => prefixb (opened t) sample_files = true /\
                      (enters_loop p w fuel -> opened t = sample_files)).
  assert (Hcond : forall t, P t -> P (t ++ [WindowShouldClose])).
  { unfold P. intros t Ht. rewrite opened_app, app_nil_r. exact Ht. }
  assert (Hcleanup : forall t d, P t -> forallb is_cleanup d = true -> P (t ++ d)).
  { unfold P. intros t d Ht Hd.
    rewrite opened_app, (opened_cleanup _ Hd), app_nil_r. exact Ht. }
  destruct p; try discriminate; cbn [main_of].
  - apply (shaped_main_stable w (Cube.setup w fuel) Cube.window
             (Cube.frame w) fuel P); try assumption.
    + intros o s1 Hsetup. spec_at (cube_setup_spec w fuel) Hsetup.
      destruct Hspec as (_ & (_ & _ & Hclean & Hpre & _) & _ & Hret).
      split; [split; [exact Hpre |] | exact Hclean].
      intros (l & s & Hl). rewrite Hsetup in Hl.
      injection Hl as -> ->. now destruct (Hret l eq_refl) as (_ & _ & _ & _ & _ & Ho & _).
    + intros l s Ht. rewrite cube_frame_run. cbn [snd trace defers].
      split; [| reflexivity]. unfold P in *.
      rewrite !opened_app, opened_poll_calls. cbn. rewrite app_nil_r. exact Ht.
  - apply (shaped_main_stable w (Quad.setup w fuel) Quad.window
             (Quad.frame w) fuel P); try assumption.
    + intros o s1 Hsetup. spec_at (quad_setup_spec w fuel) Hsetup.
      destruct Hspec as (_ & (_ & _ & Hclean & Hpre & _) & _ & Hret).
      split; [split; [exact Hpre |] | exact Hclean].
      intros (l & s & Hl). rewrite Hsetup in Hl.
      injection Hl as -> ->. now destruct (Hret l eq_refl) as (_ & _ & _ & _ & Ho).
    + intros l s Ht. rewrite quad_frame_run. cbn [snd trace defers].
      split; [| reflexivity]. unfold P in *.
      rewrite !opened_app, opened_poll_calls. cbn. rewrite app_nil_r. exact Ht.
Qed.

(** ** The stencil test and the override colour of the cube *)

Lemma fold_left_unchanged {X} (step : X -> Call -> X) t x :
  Forall (fun c => forall y, step y c = y) t -> fold_left step t x = x.
Proof.
  intros H. revert x. induction H as [| c t Hc _ IH]; intros x; [reflexivity |].
  cbn [fold_left]. now rewrite Hc.
Qed.

Lemma stencil_test_after_app t1 t2 enabled :
  stencil_test_after (t1 ++ t2) enabled =
  stencil_test_after t2 (stencil_test_after t1 enabled).
Proof. apply fold_left_app. Qed.

Lemma uniform3f_after_app location t1 t2 v :
  uniform3f_after location (t1 ++ t2) v =
  uniform3f_after location t2 (uniform3f_after location t1 v).
Proof. apply fold_left_app. Qed.

Lemma stencil_test_after_poll_calls registered events enabled :
  stencil_test_after (poll_calls registered events) enabled = enabled.
Proof.
  apply fold_left_unchanged.
  eapply Forall_impl; [| apply poll_calls_Forall].
  intros c [-> | ->]; reflexivity.
Qed.

Lemma uniform3f_after_poll_calls location registered events v :
  uniform3f_after location (poll_calls registered events) v = v.
Proof.
  apply fold_left_unchanged.
  eapply Forall_impl; [| apply poll_calls_Forall].
  intros c [-> | ->]; reflexivity.
Qed.

(** A pass through the cube's loop ends with the stencil test disabled and
    the override colour white, in whatever state it began. *)
Lemma cube_frame_restores w l s enabled v :
  exists calls,
    trace (snd (Cube.frame w l s)) = trace s ++ calls /\
    stencil_test_after calls enabled = false /\
    uniform3f_after (Cube.overrideColorLocation l) calls v = Some white.
Proof.
  rewrite cube_frame_run. cbn [snd trace].
  eexists. split; [reflexivity |].
  rewrite stencil_test_after_app, uniform3f_after_app.
  rewrite stencil_test_after_poll_calls, uniform3f_after_poll_calls.
  split; [reflexivity |].
  cbn. rewrite Z.eqb_refl. reflexivity.
Qed.

Lemma loop_head_restored w fuel l s :
  loop_head w fuel l s ->
  stencil_test_after (trace s) false = false /\
  uniform3f_after (Cube.overrideColorLocation l) (trace s) None = Some white.
Proof.
  induction 1 as [s Hsetup | s s' _ _ _ Hframe].
  - spec_at (cube_setup_spec w fuel) Hsetup.
    destruct Hspec as (_ & _ & _ & Hret).
    now destruct (Hret l eq_refl) as (_ & _ & _ & _ & _ & _ & Hst & Hu).
  - destruct (cube_frame_restores w l
                (set_trace (trace s ++ [WindowShouldClose]) s)
                (stencil_test_after (trace s ++ [WindowShouldClose]) false)
                (uniform3f_after (Cube.overrideColorLocation l)
                   (trace s ++ [WindowShouldClose]) None))
      as (calls & Ht & Hst & Hu).
    rewrite Hframe in Ht. cbn [snd trace set_trace] in Ht.
    rewrite Ht, stencil_test_after_app, uniform3f_after_app.
    split; assumption.
Qed.

(** The loop does evaluate its condition in [loop_head] states only. *)
Lemma loop_head_step w fuel l s n :
  loop_head w fuel l s -> should_close s = false ->
  exists s',
    loop_head w fuel l s' /\
    for_loop (S n) (loop_cond (Cube.window l)) (Cube.frame w l) s =
    for_loop n (loop_cond (Cube.window l)) (Cube.frame w l) s'.
Proof.
  intros Hhead Hopen. rewrite for_loop_enter by assumption.
  eexists. split.
  - eapply head_next; [exact Hhead | exact Hopen | apply cube_frame_run].
  - erewrite bind_run by apply cube_frame_run. reflexivity.
Qed.

(** ** Setups that fail *)

Lemma main_aborts p w fuel v :
  setup_outcome p w fuel = Panic v -> aborts p w fuel v.
Proof.
  unfold aborts. destruct p; cbn [setup_outcome main_of]; intros Hout.
  - destruct (ContextCreation.setup w init_state) as [o s1] eqn:Hsetup.
    spec_at (context_setup_spec w) Hsetup.
    destruct Hspec as (Ho & Hbefore & _). rewrite Hout in Ho.
    destruct o; try discriminate. injection Ho as ->.
    apply (shaped_main_panics w (ContextCreation.setup w) (fun window => window)
             (ContextCreation.frame w) fuel v s1 Hsetup Hbefore).
  - destruct (Cube.setup w fuel init_state) as [o s1] eqn:Hsetup.
    spec_at (cube_setup_spec w fuel) Hsetup.
    destruct Hspec as (Ho & Hbefore & _). rewrite Hout in Ho.
    destruct o; try discriminate. injection Ho as ->.
    apply (shaped_main_panics w (Cube.setup w fuel) Cube.window
             (Cube.frame w) fuel v s1 Hsetup Hbefore).
  - destruct (Triangle.setup w init_state) as [o s1] eqn:Hsetup.
    spec_at (triangle_setup_spec w) Hsetup.
    destruct Hspec as (Ho & Hbefore & _). rewrite Hout in Ho.
    destruct o; try discriminate. injection Ho as ->.
    apply (shaped_main_panics w (Triangle.setup w) (fun window => window)
             (Triangle.frame w) fuel v s1 Hsetup Hbefore).
  - destruct (Quad.setup w fuel init_state) as [o s1] eqn:Hsetup.
    spec_at (quad_setup_spec w fuel) Hsetup.
    destruct Hspec as (Ho & Hbefore & _). rewrite Hout in Ho.
    destruct o; try discriminate. injection Ho as ->.
    apply (shaped_main_panics w (Quad.setup w fuel) Quad.window
             (Quad.frame w) fuel v s1 Hsetup Hbefore).
Qed.

(** A setup that comes to [Ret] does return. *)
Lemma main_enters p w fuel :
  setup_outcome p w fuel = Ret tt -> enters_loop p w fuel.
Proof.
  destruct p; cbn [setup_outcome enters_loop]; intros Hout.
  - destruct (ContextCreation.setup w init_state) as [o s1] eqn:Hsetup.
    spec_at (context_setup_spec w) Hsetup.
    destruct Hspec as (Ho & _). rewrite Hout in Ho.
    destruct o; try discriminate. eauto.
  - destruct (Cube.setup w fuel init_state) as [o s1] eqn:Hsetup.
    spec_at (cube_setup_spec w fuel) Hsetup.
    destruct Hspec as (Ho & _). rewrite Hout in Ho.
    destruct o; try discriminate. eauto.
  - destruct (Triangle.setup w init_state) as [o s1] eqn:Hsetup.
    spec_at (triangle_setup_spec w) Hsetup.
    destruct Hspec as (Ho & _). rewrite Hout in Ho.
    destruct o; try discriminate. eauto.
  - destruct (Quad.setup w fuel init_state) as [o s1] eqn:Hsetup.
    spec_at (quad_setup_spec w fuel) Hsetup.
    destruct Hspec as (Ho & _). rewrite Hout in Ho.
    destruct o; try discriminate. eauto.
Qed.

Lemma texture_fails_outcome w fuel name e :
  texture_fails w name e -> texture_outcome w fuel name = Panic e.
Proof.
  unfold texture_outcome.
  intros [H | [(r & Ho & Hd) | (r & b & Ho & Hd & ->)]].
  - now rewrite H.
  - now rewrite Ho, Hd.
  - now rewrite Ho, Hd.
Qed.

Lemma init_failure_aborts p w fuel :
  w_glfw_Init w = false -> aborts p w fuel "Can't init glfw!".
Proof.
  intros H. apply main_aborts.
  destruct p; cbn [setup_outcome];
    unfold context_setup_outcome, triangle_setup_outcome, textured_setup_outcome;
    now rewrite H.
Qed.

Lemma monitor_failure_aborts w fuel e :
  w_glfw_Init w = true -> w_GetPrimaryMonitor w = Some e ->
  aborts ContextP w fuel e.
Proof.
  intros Hi Hm. apply main_aborts. cbn [setup_outcome].
  unfold context_setup_outcome. now rewrite Hi, Hm.
Qed.

Lemma window_failure_aborts p w fuel e :
  w_glfw_Init w = true ->
  (p = ContextP -> w_GetPrimaryMonitor w = None) ->
  w_CreateWindow w = Some e ->
  aborts p w fuel e.
Proof.
  intros Hi Hm Hw. apply main_aborts.
  destruct p; cbn [setup_outcome];
    unfold context_setup_outcome, triangle_setup_outcome, textured_setup_outcome;
    rewrite Hi, ?Hm, Hw by reflexivity; reflexivity.
Qed.

Lemma first_texture_failure_aborts p w fuel e :
  uses_textures p = true -> window_created p w ->
  texture_fails w "sample.png" e ->
  aborts p w fuel e.
Proof.
  intros Hp (Hi & Hw & _) Ht. apply main_aborts.
  apply (texture_fails_outcome w fuel) in Ht.
  destruct p; try discriminate; cbn [setup_outcome];
    unfold textured_setup_outcome; now rewrite Hi, Hw, Ht.
Qed.

Lemma second_texture_failure_aborts p w fuel data e :
  uses_textures p = true -> window_created p w ->
  texture_outcome w fuel "sample.png" = Ret data ->
  texture_fails w "sample2.png" e ->
  aborts p w fuel e.
Proof.
  intros Hp (Hi & Hw & _) H1 Ht. apply main_aborts.
  apply (texture_fails_outcome w fuel) in Ht.
  destruct p; try discriminate; cbn [setup_outcome];
    unfold textured_setup_outcome; now rewrite Hi, Hw, H1, Ht.
Qed.

(** The setup of a program with shaders, once the window and the textures
    are there, comes to what the shaders come to. *)
Lemma shader_stage p w fuel :
  uses_shaders p = true -> window_created p w -> textures_loaded p w fuel ->
  setup_outcome p w fuel = shaders_outcome w.
Proof.
  intros Hp (Hi & Hw & _) Ht.
  destruct p; try discriminate; cbn [setup_outcome];
    unfold triangle_setup_outcome, textured_setup_outcome;
    rewrite Hi, Hw; cbn [negb]; try reflexivity.
  - destruct (Ht eq_refl) as (d1 & d2 & H1 & H2). now rewrite H1, H2.
  - destruct (Ht eq_refl) as (d1 & d2 & H1 & H2). now rewrite H1, H2.
Qed.

Lemma status_not_TRUE x : x <> gl_TRUE -> negb (x =? gl_TRUE) = true.
Proof. intros H. apply negb_true_iff, Z.eqb_neq, H. Qed.

Lemma status_TRUE x : x = gl_TRUE -> negb (x =? gl_TRUE) = false.
Proof. intros ->. reflexivity. Qed.

(** ** The GL error poll has no say in what a program does *)

Ltac sim_prim :=
  let s1 := fresh "s1" in
  let s2 := fresh "s2" in
  let H := fresh "H" in
  intros s1 s2 H; unfold same_but_stdout in *;
  destruct s1, s2; cbn in H |- *;
  injection H as -> -> -> -> -> -> -> -> -> ->;
  split; reflexivity.

Lemma sim_ret {A} (a : A) : sim (ret a) (ret a).
Proof. sim_prim. Qed.



Lemma sim_call c : sim (call c) (call c).
Proof. sim_prim. Qed.



Lemma sim_gen_object : sim gen_object gen_object.
Proof. sim_prim. Qed.

Lemma sim_bind {A B} (m1 m2 : M A) (k1 k2 : A -> M B) :
  sim m1 m2 -> (forall a, sim (k1 a) (k2 a)) -> sim (bind m1 k1) (bind m2 k2).
Proof.
  intros Hm Hk s1 s2 H. unfold bind.
  destruct (Hm s1 s2 H) as [Ho Hs].
  destruct (m1 s1) as [o1 s1'], (m2 s2) as [o2 s2']. cbn in Ho, Hs. subst o2.
  destruct o1 as [a | v |]; cbn; auto. now apply Hk.
Qed.


Lemma sim_run {A} (m1 m2 : M A) a f1 f2 :
  (forall s, m1 s = (Ret a, f1 s)) -> (forall s, m2 s = (Ret a, f2 s)) ->
  (forall s1 s2, same_but_stdout s1 s2 -> same_but_stdout (f1 s1) (f2 s2)) ->
  sim m1 m2.
Proof.
  intros H1 H2 Hf s1 s2 H. rewrite H1, H2. cbn. split; [reflexivity | auto].
Qed.

Section Errors.

Variable w : World.
Variable errors : nat -> Z.
Variable strings : Z -> Result string.

Let w' : World := with_gl_errors errors strings w.






Lemma sim_glfw_GetPrimaryMonitor :
  sim (glfw_GetPrimaryMonitor w) (glfw_GetPrimaryMonitor w').
Proof. sim_prim. Qed.


Lemma sim_Window_ShouldClose window :
  sim (Window_ShouldClose window) (Window_ShouldClose window).
Proof. sim_prim. Qed.

Lemma sim_Window_SetKeyCallback window :
  sim (Window_SetKeyCallback window) (Window_SetKeyCallback window).
Proof. sim_prim. Qed.



Lemma sim_gl_GenBuffers n : sim (gl_GenBuffers n) (gl_GenBuffers n).
Proof.
  unfold gl_GenBuffers. apply sim_bind; [apply sim_call | intros _].
  induction (Z.to_nat n) as [| k IH]; [apply sim_ret |].
  apply sim_bind; [apply sim_gen_object | intros b].
  apply sim_bind; [exact IH | intros l]. apply sim_ret.
Qed.

Lemma sim_gl_GenBuffer : sim gl_GenBuffer gl_GenBuffer.
Proof. sim_prim. Qed.

Lemma sim_gl_GenVertexArray : sim gl_GenVertexArray gl_GenVertexArray.
Proof. sim_prim. Qed.

Lemma sim_gl_GenTexture : sim gl_GenTexture gl_GenTexture.
Proof. sim_prim. Qed.

Lemma sim_gl_CreateShader typ : sim (gl_CreateShader typ) (gl_CreateShader typ).
Proof. sim_prim. Qed.

Lemma sim_gl_CreateProgram : sim gl_CreateProgram gl_CreateProgram.
Proof. sim_prim. Qed.

Lemma sim_Shader_Get sh pname : sim (Shader_Get w sh pname) (Shader_Get w' sh pname).
Proof. sim_prim. Qed.

Lemma sim_Shader_GetInfoLog sh :
  sim (Shader_GetInfoLog w sh) (Shader_GetInfoLog w' sh).
Proof. sim_prim. Qed.

Lemma sim_Program_Get program pname :
  sim (Program_Get w program pname) (Program_Get w' program pname).
Proof. sim_prim. Qed.

Lemma sim_Program_GetInfoLog program :
  sim (Program_GetInfoLog w program) (Program_GetInfoLog w' program).
Proof. sim_prim. Qed.

Lemma sim_Program_GetAttribLocation program name :
  sim (Program_GetAttribLocation w program name)
      (Program_GetAttribLocation w' program name).
Proof. sim_prim. Qed.

Lemma sim_Program_GetUniformLocation program name :
  sim (Program_GetUniformLocation w program name)
      (Program_GetUniformLocation w' program name).
Proof. sim_prim. Qed.

Lemma sim_os_Open name : sim (os_Open w name) (os_Open w' name).
Proof. sim_prim. Qed.

Lemma sim_png_Decode r : sim (png_Decode w r) (png_Decode w' r).
Proof. sim_prim. Qed.

Lemma sim_time_Now : sim (time_Now w) (time_Now w').
Proof. sim_prim. Qed.

Lemma sim_time_Since t : sim (time_Since w t) (time_Since w' t).
Proof. sim_prim. Qed.







End Errors.


(** ** The clock is read right before the loop *)



(** ** How a run can end *)

Section Endings.

Variable w : World.
Variable frame : M unit.
Hypothesis Hframe : shows_a_frame w frame.

(** The loop returns only with the flag up, and never panics. *)
Lemma render_loop_outcome window : forall fuel s,
  match for_loop fuel (loop_cond window) frame s with
  | (Ret _, s') => should_close s' = true
  | (Panic _, _) => False
  | (Timeout, _) => True
  end.
Proof.
  induction fuel as [| fuel IH]; intros s; [exact Logic.I |].
  destruct (should_close s) eqn:Hflag.
  - rewrite for_loop_exit by assumption. exact Hflag.
  - rewrite for_loop_enter by assumption.
    destruct (Hframe (set_trace (trace s ++ [WindowShouldClose]) s))
      as (s1 & Hrun & _).
    erewrite bind_run by exact Hrun. apply IH.
Qed.

(** Whenever the loop evaluates its condition with the flag up, an Escape
    press or a close request was delivered by an earlier poll. *)
Lemma render_loop_flag_has_a_cause window : forall fuel,
  preserves
    (fun s => key_callback s = true /\
              (should_close s = true ->
               exists n, (n < polled s)%nat /\
                         existsb (closes true) (w_events w n) = true))
    (for_loop fuel (loop_cond window) frame).
Proof.
  intros fuel. apply for_loop_preserves.
  - intros s [Hcb Hcause]. rewrite loop_cond_run. cbn. auto.
  - intros s [Hcb Hcause].
    destruct (Hframe s) as (s1 & Hrun & Hsc & Hcb1 & Hp & _).
    rewrite Hrun. cbn [snd]. split; [congruence |].
    rewrite Hsc, Hp, Hcb. intros [Hold | Hnew]%orb_prop.
    + destruct (Hcause Hold) as (n & Hn & Hc). exists n. split; [lia | exact Hc].
    + exists (polled s). split; [lia | exact Hnew].
Qed.

End Endings.

Section ShapeEndings.

Context {L : Type}.
Variable w : World.
Variable setup : M L.
Variable win : L -> Window.
Variable frame : L -> M unit.
Variable fuel : nat.

Let main : M unit :=
  deferring w (l <- setup ;; for_loop fuel (loop_cond (win l)) (frame l)).

Hypothesis Hframe : forall l, shows_a_frame w (frame l).

Lemma shaped_main_no_panic_in_loop l s1 :
  setup init_state = (Ret l, s1) ->
  fst (go_run main) = ExitNormal \/ fst (go_run main) = StillRunning.
Proof.
  intros Hsetup. unfold main. rewrite go_run_deferring.
  erewrite bind_run by exact Hsetup.
  pose proof (render_loop_outcome w (frame l) (Hframe l) (win l) fuel s1) as H.
  destruct (for_loop fuel (loop_cond (win l)) (frame l) s1) as [[[] | v |] s2];
    cbn; tauto.
Qed.

Lemma shaped_main_exit_has_a_cause s :
  (forall l s1, setup init_state = (Ret l, s1) ->
                before_loop s1 /\ key_callback s1 = true) ->
  go_run main = (ExitNormal, s) ->
  should_close s = true /\
  exists n, (n < polled s)%nat /\ existsb (closes true) (w_events w n) = true.
Proof.
  intros Hpost. unfold main. rewrite go_run_deferring. unfold bind.
  destruct (setup init_state) as [[l | v |] s1] eqn:Hsetup; try discriminate.
  destruct (Hpost l s1 eq_refl) as [(Hopen & Hp & _) Hcb].
  pose proof (render_loop_outcome w (frame l) (Hframe l) (win l) fuel s1) as Hout.
  pose proof (render_loop_flag_has_a_cause w (frame l) (Hframe l) (win l) fuel s1)
    as Hcause.
  destruct (for_loop fuel (loop_cond (win l)) (frame l) s1) as [[[] | v |] s2];
    try discriminate.
  intros [= <-]. unfold after_defers.
  cbn [should_close polled set_defers set_trace set_stdout].
  cbn [snd] in Hcause. split; [exact Hout |].
  apply Hcause; [| exact Hout].
  split; [exact Hcb |]. rewrite Hopen. discriminate.
Qed.

Lemma shaped_main_frames_need_setup :
  (forall o s1, setup init_state = (o, s1) -> before_loop s1) ->
  (0 < frames_of (trace (snd (go_run main))))%nat ->
  exists l s1, setup init_state = (Ret l, s1).
Proof.
  intros Hpost. unfold main. rewrite go_run_deferring. unfold bind.
  destruct (setup init_state) as [[l | v |] s1] eqn:Hsetup; [eauto | |];
    destruct (Hpost _ _ eq_refl) as (_ & _ & Hclean & _ & Hf & _);
    unfold after_defers; cbn [snd trace set_defers set_trace set_stdout];
    rewrite ?frames_of_app, ?(frames_of_cleanup _ Hclean), Hf; lia.
Qed.

End ShapeEndings.

Lemma main_loop_never_panics p w fuel :
  enters_loop p w fuel ->
  fst (go_run (main_of p w fuel)) = ExitNormal \/
  fst (go_run (main_of p w fuel)) = StillRunning.
Proof.
  destruct p; intros (l & s1 & Hsetup); cbn [main_of].
  - apply (shaped_main_no_panic_in_loop w (ContextCreation.setup w)
             (fun window => window) (ContextCreation.frame w) fuel
             (context_shows_a_frame w) l s1 Hsetup).
  - apply (shaped_main_no_panic_in_loop w (Cube.setup w fuel) Cube.window
             (Cube.frame w) fuel (cube_shows_a_frame w) l s1 Hsetup).
  - apply (shaped_main_no_panic_in_loop w (Triangle.setup w)
             (fun window => window) (Triangle.frame w) fuel
             (triangle_shows_a_frame w) l s1 Hsetup).
  - apply (shaped_main_no_panic_in_loop w (Quad.setup w fuel) Quad.window
             (Quad.frame w) fuel (quad_shows_a_frame w) l s1 Hsetup).
Qed.

Lemma main_exit_has_a_cause p w fuel s :
  go_run (main_of p w fuel) = (ExitNormal, s) ->
  should_close s = true /\
  exists n, (n < polled s)%nat /\ existsb (closes true) (w_events w n) = true.
Proof.
  destruct p; cbn [main_of].
  - apply (shaped_main_exit_has_a_cause w (ContextCreation.setup w)
             (fun window => window) (ContextCreation.frame w) fuel
             (context_shows_a_frame w)).
    intros l s1 Hsetup. spec_at (context_setup_spec w) Hsetup.
    destruct Hspec as (_ & Hbefore & _ & Hcb). eauto.
  - apply (shaped_main_exit_has_a_cause w (Cube.setup w fuel) Cube.window
             (Cube.frame w) fuel (cube_shows_a_frame w)).
    intros l s1 Hsetup. spec_at (cube_setup_spec w fuel) Hsetup.
    destruct Hspec as (_ & Hbefore & _ & Hret).
    destruct (Hret l eq_refl) as (Hcb & _). auto.
  - apply (shaped_main_exit_has_a_cause w (Triangle.setup w)
             (fun window => window) (Triangle.frame w) fuel
             (triangle_shows_a_frame w)).
    intros l s1 Hsetup. spec_at (triangle_setup_spec w) Hsetup.
    destruct Hspec as (_ & Hbefore & _ & Hcb). eauto.
  - apply (shaped_main_exit_has_a_cause w (Quad.setup w fuel) Quad.window
             (Quad.frame w) fuel (quad_shows_a_frame w)).
    intros l s1 Hsetup. spec_at (quad_setup_spec w fuel) Hsetup.
    destruct Hspec as (_ & Hbefore & _ & Hret).
    destruct (Hret l eq_refl) as (Hcb & _). auto.
Qed.

Lemma main_frames_need_setup p w fuel :
  (0 < frames_of (trace (snd (go_run (main_of p w fuel)))))%nat ->
  enters_loop p w fuel.
Proof.
  destruct p; cbn [main_of enters_loop].
  - apply (shaped_main_frames_need_setup w (ContextCreation.setup w)
             (fun window => window) (ContextCreation.frame w) fuel).
    intros o s1 Hsetup. spec_at (context_setup_spec w) Hsetup. apply Hspec.
  - apply (shaped_main_frames_need_setup w (Cube.setup w fuel) Cube.window
             (Cube.frame w) fuel).
    intros o s1 Hsetup. spec_at (cube_setup_spec w fuel) Hsetup. apply Hspec.
  - apply (shaped_main_frames_need_setup w (Triangle.setup w)
             (fun window => window) (Triangle.frame w) fuel).
    intros o s1 Hsetup. spec_at (triangle_setup_spec w) Hsetup. apply Hspec.
  - apply (shaped_main_frames_need_setup w (Quad.setup w fuel) Quad.window
             (Quad.frame w) fuel).
    intros o s1 Hsetup. spec_at (quad_setup_spec w fuel) Hsetup. apply Hspec.
Qed.

Lemma enters_outcome p w fuel :
  enters_loop p w fuel -> setup_outcome p w fuel = Ret tt.
Proof.
  destruct p; intros (l & s1 & Hsetup); cbn [setup_outcome].
  - spec_at (context_setup_spec w) Hsetup. symmetry. apply Hspec.
  - spec_at (cube_setup_spec w fuel) Hsetup. symmetry. apply Hspec.
  - spec_at (triangle_setup_spec w) Hsetup. symmetry. apply Hspec.
  - spec_at (quad_setup_spec w fuel) Hsetup. symmetry. apply Hspec.
Qed.

Lemma shaders_ready w :
  shaders_outcome w = Ret tt ->
  w_compile_status w gl_VERTEX_SHADER = gl_TRUE /\
  w_compile_status w gl_FRAGMENT_SHADER = gl_TRUE /\
  w_validate_status w = gl_TRUE.
Proof.
  unfold shaders_outcome.
  destruct (w_compile_status w gl_VERTEX_SHADER =? gl_TRUE) eqn:Hv;
    [| discriminate].
  destruct (w_compile_status w gl_FRAGMENT_SHADER =? gl_TRUE) eqn:Hf;
    [| discriminate].
  unfold validate_status.
  destruct (w_link_status w =? gl_TRUE); [| discriminate].
  destruct (w_validate_status w =? gl_TRUE) eqn:Hl; [| discriminate].
  intros _. apply Z.eqb_eq in Hv, Hf, Hl. auto.
Qed.

Ltac ready_tac :=
  split; [split; [reflexivity | split; [reflexivity | intros; first [reflexivity | discriminate]]] |];
  split; intros; first [discriminate | eauto].

Lemma setup_ready p w fuel :
  setup_outcome p w fuel = Ret tt ->
  window_created p w /\ textures_loaded p w fuel /\
  (uses_shaders p = true ->
   w_compile_status w gl_VERTEX_SHADER = gl_TRUE /\
   w_compile_status w gl_FRAGMENT_SHADER = gl_TRUE /\
   w_validate_status w = gl_TRUE).
Proof.
  unfold window_created, textures_loaded.
  destruct p; cbn [setup_outcome uses_textures uses_shaders];
    unfold context_setup_outcome, triangle_setup_outcome, textured_setup_outcome;
    destruct (w_glfw_Init w); cbn [negb]; try discriminate.
  - destruct (w_GetPrimaryMonitor w); [discriminate |].
    destruct (w_CreateWindow w); [discriminate |]. intros _.
    ready_tac.
  - destruct (w_CreateWindow w); [discriminate |].
    destruct (texture_outcome w fuel "sample.png") as [d1 | |];
      try discriminate.
    destruct (texture_outcome w fuel "sample2.png") as [d2 | |];
      try discriminate.
    intros H%shaders_ready. ready_tac.
  - destruct (w_CreateWindow w); [discriminate |].
    intros H%shaders_ready. ready_tac.
  - destruct (w_CreateWindow w); [discriminate |].
    destruct (texture_outcome w fuel "sample.png") as [d1 | |];
      try discriminate.
    destruct (texture_outcome w fuel "sample2.png") as [d2 | |];
      try discriminate.
    intros H%shaders_ready. ready_tac.
Qed.

(** ** More on the setups *)

Lemma error_lines_quiet w prefix n :
  no_gl_errors w -> error_lines w prefix n = [].
Proof. intros H. unfold error_lines. now rewrite H. Qed.

Lemma glfw_lines_quiet w registered n :
  no_glfw_errors w -> glfw_lines w registered n = [].
Proof. intros H. unfold glfw_lines. rewrite H. now destruct registered. Qed.

Lemma calls_lines_quiet w registered calls : forall n,
  no_glfw_errors w -> calls_lines w registered n calls = [].
Proof.
  induction calls as [| c calls IH]; intros n H; cbn [calls_lines];
    [reflexivity |].
  rewrite (glfw_lines_quiet _ _ _ H), (IH _ H). now destruct (reports c).
Qed.

(** Use that nothing is reported. *)
Ltac quiet :=
  try match goal with
      | H : no_glfw_errors _ |- _ =>
          rewrite ?(glfw_lines_quiet _ _ _ H), ?(calls_lines_quiet _ _ _ _ H)
      end;
  try match goal with
      | H : no_gl_errors _ |- _ => rewrite ?(error_lines_quiet _ _ _ H)
      end;
  cbn [app].

Ltac finish_more :=
  repeat match goal with
         | |- _ /\ _ => split
         | |- forall _, _ => intro
         end;
  first [ discriminate
        | reflexivity
        | clash
        | quiet; reflexivity
        | quiet;
          cbv [setup_report setup_checks combine seq flat_map List.length
               fst snd];
          rewrite ?app_nil_r, <- ?app_assoc; reflexivity
        | idtac ].

Lemma triangle_setup_more w :
  wp (Triangle.setup w)
    (fun o s => setup_post_more TriangleP w (forget o) s) init_state.
Proof.
  unfold Triangle.setup, init_state.
  repeat wp_step.
  all: unfold setup_post_more, forget.
  all: finish_more.
Qed.

Lemma context_setup_more w :
  wp (ContextCreation.setup w)
    (fun o s => setup_post_more ContextP w (forget o) s) init_state.
Proof.
  unfold ContextCreation.setup, init_state.
  repeat wp_step.
  all: unfold setup_post_more, forget.
  all: finish_more.
Qed.

Lemma cube_setup_more w fuel :
  wp (Cube.setup w fuel)
    (fun o s => setup_post_more CubeP w (forget o) s) init_state.
Proof.
  unfold Cube.setup, init_state.
  repeat wp_step.
  all: unfold setup_post_more, forget.
  all: finish_more.
Qed.

Lemma quad_setup_more w fuel :
  wp (Quad.setup w fuel)
    (fun o s => setup_post_more QuadP w (forget o) s) init_state.
Proof.
  unfold Quad.setup, init_state.
  repeat wp_step.
  all: unfold setup_post_more, forget.
  all: finish_more.
Qed.

(** ** One pass through each loop, in more detail *)

Lemma cleanup_poll_calls registered events :
  filter is_cleanup (poll_calls registered events) = [].
Proof.
  apply filter_nil.
  eapply Forall_impl; [| apply poll_calls_Forall].
  intros c [-> | ->]; reflexivity.
Qed.

Lemma bound_poll_calls registered events :
  bound (poll_calls registered events) = [].
Proof.
  apply flat_map_nil.
  eapply Forall_impl; [| apply poll_calls_Forall].
  intros c [-> | ->]; reflexivity.
Qed.

Lemma viewports_poll_calls registered events :
  viewports (poll_calls registered events) = [].
Proof.
  apply flat_map_nil.
  eapply Forall_impl; [| apply poll_calls_Forall].
  intros c [-> | ->]; reflexivity.
Qed.

Lemma bound_app t1 t2 : bound (t1 ++ t2) = bound t1 ++ bound t2.
Proof. apply flat_map_app. Qed.

Lemma viewports_app t1 t2 : viewports (t1 ++ t2) = viewports t1 ++ viewports t2.
Proof. apply flat_map_app. Qed.

Lemma deleted_app t1 t2 : deleted (t1 ++ t2) = deleted t1 ++ deleted t2.
Proof. apply flat_map_app. Qed.

Lemma viewports_cleanup t : forallb is_cleanup t = true -> viewports t = [].
Proof.
  intros H. apply flat_map_nil.
  eapply Forall_impl; [| apply cleanup_Forall, H].
  intros c Hc. destruct c; try discriminate; reflexivity.
Qed.

Lemma bound_cleanup t : forallb is_cleanup t = true -> bound t = [].
Proof.
  intros H. apply flat_map_nil.
  eapply Forall_impl; [| apply cleanup_Forall, H].
  intros c Hc. destruct c; try discriminate; reflexivity.
Qed.

Ltac frame_more :=
  cbn [snd trace defers polled sizes_read errors_read stdout uses_shaders];
  rewrite ?filter_app, ?bound_app, ?viewports_app, ?cleanup_poll_calls,
    ?bound_poll_calls, ?viewports_poll_calls;
  repeat match goal with |- _ /\ _ => split end;
  try reflexivity;
  intros Hquiet; quiet; rewrite ?app_nil_r; reflexivity.

Lemma context_draws_a_frame w window :
  draws_a_frame ContextP w (ContextCreation.frame w window).
Proof.
  intros s. eexists. eexists. split; [apply context_frame_run |].
  split; [reflexivity |].
  change (WindowSwapBuffers :: ?l) with ([WindowSwapBuffers] ++ l).
  frame_more.
Qed.

Lemma cube_draws_a_frame w l : draws_a_frame CubeP w (Cube.frame w l).
Proof.
  intros s. eexists. eexists. split; [apply cube_frame_run |].
  split; [reflexivity |]. frame_more.
Qed.

Lemma triangle_draws_a_frame w window :
  draws_a_frame TriangleP w (Triangle.frame w window).
Proof.
  intros s. eexists. eexists. split; [apply triangle_frame_run |].
  split; [reflexivity |]. frame_more.
Qed.

Lemma quad_draws_a_frame w l : draws_a_frame QuadP w (Quad.frame w l).
Proof.
  intros s. eexists. eexists. split; [apply quad_frame_run |].
  split; [reflexivity |]. frame_more.
Qed.

(** ** Whole runs, in more detail *)

Lemma seq_snoc_map {X} (g : nat -> X) n :
  map g (seq 0 (S n)) = map g (seq 0 n) ++ [g n].
Proof. rewrite seq_S, map_app. reflexivity. Qed.

Lemma seq_snoc_flat_map {X} (g : nat -> list X) n :
  flat_map g (seq 0 (S n)) = flat_map g (seq 0 n) ++ g n.
Proof. rewrite seq_S, flat_map_app. cbn. now rewrite app_nil_r. Qed.

Section More.

Context {L : Type}.
Variable p : Program.
Variable w : World.
Variable setup : M L.
Variable win : L -> Window.
Variable frame : L -> M unit.
Variable fuel : nat.

Let main : M unit :=
  deferring w (l <- setup ;; for_loop fuel (loop_cond (win l)) (frame l)).

Hypothesis Hmore :
  wp setup (fun o s => setup_post_more p w (forget o) s) init_state.
Hypothesis Hbefore : forall o s1, setup init_state = (o, s1) -> before_loop s1.
Hypothesis Hframe : forall l, draws_a_frame p w (frame l).

Lemma cond_keeps_loop_invariant window :
  preserves (loop_invariant_more p w) (loop_cond window).
Proof.
  intros s (Hd & Hc & Hb & Hv & Hs & He & Ho). rewrite loop_cond_run.
  unfold loop_invariant_more.
  cbn [snd trace defers polled sizes_read errors_read stdout set_trace].
  rewrite filter_app, bound_app, viewports_app, Hc, Hb, Hv.
  cbn. rewrite !app_nil_r. auto 10.
Qed.

Lemma cond_keeps_run_invariant window :
  preserves (run_invariant_more p w) (loop_cond window).
Proof.
  intros s (Hc & Hv & Hs & H0 & H1 & Hcl & Ho). rewrite loop_cond_run.
  unfold run_invariant_more.
  cbn [snd trace defers polled sizes_read errors_read stdout set_trace].
  rewrite filter_app, viewports_app, Hc, Hv.
  cbn. rewrite !app_nil_r. auto 10.
Qed.

Lemma frame_keeps_loop_invariant l :
  preserves (loop_invariant_more p w) (frame l).
Proof.
  intros s (Hd & Hc & Hb & Hv & Hs & He & Ho).
  destruct (Hframe l s) as (s' & calls & Hrun & Ht & Hcc & Hbc & Hd' & Hp & Hrest).
  rewrite Hrun. cbn [snd]. unfold loop_invariant_more, loop_viewports, loop_report in *.
  rewrite Ht, Hd', Hp, filter_app, bound_app, viewports_app, Hc, Hcc, Hb, Hbc, Hv.
  destruct (uses_shaders p).
  - destruct Hrest as (Hvc & Hs' & He' & Ho').
    rewrite Hvc, Hs', He', Hs, He, seq_snoc_map, seq_snoc_flat_map.
    rewrite ?app_nil_r, <- ?app_assoc.
    repeat match goal with |- _ /\ _ => split end;
      try first [assumption | reflexivity | lia].
    intros Hq. rewrite (Ho' Hq), (Ho Hq), He, <- ?app_assoc. reflexivity.
  - destruct Hrest as (Hvc & Hs' & He' & Ho').
    rewrite Hvc, Hs', He', Hs, He. rewrite !app_nil_r.
    repeat match goal with |- _ /\ _ => split end;
      try first [assumption | reflexivity | lia].
    intros Hq. rewrite (Ho' Hq), (Ho Hq), ?app_nil_r. reflexivity.
Qed.

Lemma frame_keeps_run_invariant l :
  preserves (run_invariant_more p w) (frame l).
Proof.
  intros s (Hc & Hv & Hs & H0 & H1 & Hcl & Ho).
  destruct (Hframe l s) as (s' & calls & Hrun & Ht & Hcc & Hbc & Hd' & Hp & Hrest).
  rewrite Hrun. cbn [snd]. unfold run_invariant_more, loop_viewports in *.
  rewrite Ht, Hd', Hp, filter_app, viewports_app, Hc, Hcc, Hv.
  destruct (uses_shaders p).
  - destruct Hrest as (Hvc & Hs' & He' & Ho').
    rewrite Hvc, Hs', Hs, seq_snoc_map.
    repeat match goal with |- _ /\ _ => split end; auto.
    intros Hg Hq _.
    rewrite (Ho' Hg), (Ho Hg Hq eq_refl), (error_lines_quiet _ _ _ Hq).
    reflexivity.
  - destruct Hrest as (Hvc & Hs' & He' & Ho').
    rewrite Hvc, Hs', Hs. rewrite !app_nil_r.
    repeat match goal with |- _ /\ _ => split end; auto.
    intros _ _ Hf. discriminate Hf.
Qed.

Lemma setup_gives_loop_invariant l s1 :
  setup init_state = (Ret l, s1) -> loop_invariant_more p w s1.
Proof.
  intros Hsetup. pose proof Hmore as H. unfold wp in H. rewrite Hsetup in H.
  cbn [fst snd forget] in H.
  destruct H as (Hc & Hv & Hs & _ & _ & _ & Hret).
  destruct (Hret eq_refl) as (Hd & Hb & He & Ho).
  destruct (Hbefore _ _ Hsetup) as (_ & Hp & _).
  unfold loop_invariant_more, loop_viewports, loop_report.
  rewrite Hp, Hd, Hc, Hb, Hv, Hs, He. cbn [seq map flat_map].
  destruct (uses_shaders p); rewrite ?app_nil_r, ?Nat.add_0_r; auto 10.
Qed.

Lemma setup_gives_run_invariant o s1 :
  setup init_state = (o, s1) -> run_invariant_more p w s1.
Proof.
  intros Hsetup. pose proof Hmore as H. unfold wp in H. rewrite Hsetup in H.
  cbn [fst snd] in H.
  destruct H as (Hc & Hv & Hs & H0 & H1 & Ho & _).
  destruct (Hbefore _ _ Hsetup) as (_ & Hp & Hcl & _).
  unfold run_invariant_more, loop_viewports.
  rewrite Hp, Hc, Hv, Hs. cbn [seq map].
  destruct (uses_shaders p); auto 10.
Qed.

(** A pass always returns, so the loop never panics. *)
Lemma loop_outcome l : forall n s,
  exists s2,
    for_loop n (loop_cond (win l)) (frame l) s = (Ret tt, s2) \/
    for_loop n (loop_cond (win l)) (frame l) s = (Timeout, s2).
Proof.
  induction n as [| n IH]; intros s.
  - exists s. right. reflexivity.
  - destruct (should_close s) eqn:Hflag.
    + rewrite for_loop_exit by assumption. eauto.
    + rewrite for_loop_enter by assumption.
      destruct (Hframe l (set_trace (trace s ++ [WindowShouldClose]) s))
        as (s' & calls & Hrun & _).
      erewrite bind_run by exact Hrun. apply IH.
Qed.

(** How [go_run main] comes about. *)
Lemma go_run_cases :
  (exists v s1,
     setup init_state = (Panic v, s1) /\
     go_run main =
       (ExitPanic v, after_defers w s1)) \/
  (exists s1,
     setup init_state = (Timeout, s1) /\ go_run main = (StillRunning, s1)) \/
  (exists l s1 s2,
     setup init_state = (Ret l, s1) /\
     ((for_loop fuel (loop_cond (win l)) (frame l) s1 = (Ret tt, s2) /\
       go_run main =
         (ExitNormal, after_defers w s2)) \/
      (for_loop fuel (loop_cond (win l)) (frame l) s1 = (Timeout, s2) /\
       go_run main = (StillRunning, s2)))).
Proof.
  unfold main. rewrite go_run_deferring. unfold bind.
  destruct (setup init_state) as [[l | v |] s1] eqn:Hsetup.
  - right. right.
    destruct (loop_outcome l fuel s1) as (s2 & [Hloop | Hloop]);
      rewrite Hloop; exists l, s1, s2; auto.
  - left. eauto.
  - right. left. eauto.
Qed.

(** The state in which the loop ended, if the setup returned. *)
Lemma loop_end_invariants l s1 o s2 :
  setup init_state = (Ret l, s1) ->
  for_loop fuel (loop_cond (win l)) (frame l) s1 = (o, s2) ->
  loop_invariant_more p w s2 /\ run_invariant_more p w s2.
Proof.
  intros Hsetup Hloop. split.
  - pose proof (for_loop_preserves (loop_invariant_more p w)
                  (loop_cond (win l)) (frame l)
                  (cond_keeps_loop_invariant (win l))
                  (frame_keeps_loop_invariant l) fuel s1
                  (setup_gives_loop_invariant l s1 Hsetup)) as H.
    now rewrite Hloop in H.
  - pose proof (for_loop_preserves (run_invariant_more p w)
                  (loop_cond (win l)) (frame l)
                  (cond_keeps_run_invariant (win l))
                  (frame_keeps_run_invariant l) fuel s1
                  (setup_gives_run_invariant _ s1 Hsetup)) as H.
    now rewrite Hloop in H.
Qed.

(** Every pass sets the viewport to the framebuffer size it has just
    read. *)
Lemma shaped_viewports :
  let s := snd (go_run main) in
  viewports (trace s) = loop_viewports p w (polled s).
Proof.
  cbv zeta.
  destruct go_run_cases
    as [(v & s1 & Hsetup & ->) | [(s1 & Hsetup & ->)
       | (l & s1 & s2 & Hsetup & [[Hloop ->] | [Hloop ->]])]];
    unfold after_defers; cbn [snd trace polled set_defers set_trace set_stdout].
  - destruct (setup_gives_run_invariant _ _ Hsetup) as (_ & Hv & _ & _ & _ & Hcl & _).
    now rewrite viewports_app, (viewports_cleanup _ Hcl), app_nil_r.
  - apply (setup_gives_run_invariant _ _ Hsetup).
  - destruct (loop_end_invariants l s1 _ s2 Hsetup Hloop)
      as [_ (_ & Hv & _ & _ & _ & Hcl & _)].
    now rewrite viewports_app, (viewports_cleanup _ Hcl), app_nil_r.
  - apply (loop_end_invariants l s1 _ s2 Hsetup Hloop).
Qed.

(** With no GL error pending, a program with a GL error poll prints
    nothing. *)
Lemma shaped_silent :
  no_glfw_errors w -> no_gl_errors w -> uses_shaders p = true ->
  stdout (snd (go_run main)) = [].
Proof.
  intros Hg Hq Hp.
  destruct go_run_cases
    as [(v & s1 & Hsetup & ->) | [(s1 & Hsetup & ->)
       | (l & s1 & s2 & Hsetup & [[Hloop ->] | [Hloop ->]])]];
    unfold after_defers; cbn [snd stdout set_defers set_trace set_stdout];
    rewrite ?(calls_lines_quiet _ _ _ _ Hg), ?app_nil_r.
  - now apply (setup_gives_run_invariant _ _ Hsetup).
  - now apply (setup_gives_run_invariant _ _ Hsetup).
  - now apply (loop_end_invariants l s1 _ s2 Hsetup Hloop).
  - now apply (loop_end_invariants l s1 _ s2 Hsetup Hloop).
Qed.

(** When the process ends, the releases come last, after everything else;
    [glfw.Terminate()] is the last of them if [glfw.Init()] succeeded, and
    is not called if it failed. *)
Lemma shaped_releases_last e s :
  go_run main = (e, s) -> e <> StillRunning ->
  exists t d,
    trace s = t ++ d /\
    filter is_cleanup t = [] /\ forallb is_cleanup d = true /\
    (w_glfw_Init w = false -> d = []) /\
    (w_glfw_Init w = true ->
     last d GlfwInit = GlfwTerminate /\
     filter is_terminate (removelast d) = []).
Proof.
  destruct go_run_cases
    as [(v & s1 & Hsetup & ->) | [(s1 & Hsetup & ->)
       | (l & s1 & s2 & Hsetup & [[Hloop ->] | [Hloop ->]])]];
    intros [= <- <-] He; try congruence.
  - destruct (setup_gives_run_invariant _ _ Hsetup)
      as (Hc & _ & _ & H0 & H1 & Hcl & _).
    exists (trace s1), (defers s1). unfold after_defers.
    cbn [trace set_defers set_trace set_stdout]. auto.
  - destruct (loop_end_invariants l s1 _ s2 Hsetup Hloop)
      as [_ (Hc & _ & _ & H0 & H1 & Hcl & _)].
    exists (trace s2), (defers s2). unfold after_defers.
    cbn [trace set_defers set_trace set_stdout]. auto.
Qed.

(** After a normal exit the trace ends with the releases the setup
    deferred, in the reverse of the order of creation; nothing was released
    before, and nothing was bound but what the setup bound. *)
Lemma shaped_exit_releases s :
  go_run main = (ExitNormal, s) ->
  exists t,
    trace s = t ++ releases_of p /\
    filter is_cleanup t = [] /\ bound t = bound_of p.
Proof.
  destruct go_run_cases
    as [(v & s1 & Hsetup & ->) | [(s1 & Hsetup & ->)
       | (l & s1 & s2 & Hsetup & [[Hloop ->] | [Hloop ->]])]];
    intros [= <-].
  destruct (loop_end_invariants l s1 _ s2 Hsetup Hloop)
    as [(Hd & Hc & Hb & _) _].
  exists (trace s2). unfold after_defers.
  cbn [trace set_defers set_trace set_stdout]. rewrite Hd. auto.
Qed.

(** What a run whose setup returned has printed and read, when GLFW
    reports no error. *)
Lemma shaped_report l s1 :
  no_glfw_errors w ->
  setup init_state = (Ret l, s1) ->
  let s := snd (go_run main) in
  stdout s = setup_report p w ++ loop_report p w (polled s) /\
  errors_read s =
    (setup_errors_read p + (if uses_shaders p then polled s else 0))%nat.
Proof.
  intros Hg Hsetup. cbv zeta.
  destruct go_run_cases
    as [(v & s1' & Hsetup' & ->) | [(s1' & Hsetup' & ->)
       | (l' & s1' & s2 & Hsetup' & [[Hloop ->] | [Hloop ->]])]];
    try congruence;
    destruct (loop_end_invariants l' s1' _ s2 Hsetup' Hloop)
      as [(_ & _ & _ & _ & _ & He & Ho) _];
    unfold after_defers;
    cbn [snd stdout errors_read polled set_defers set_trace set_stdout];
    rewrite ?(calls_lines_quiet _ _ _ _ Hg), ?app_nil_r; auto.
Qed.

End More.

Lemma context_before w o s1 :
  ContextCreation.setup w init_state = (o, s1) -> before_loop s1.
Proof. intros H. spec_at (context_setup_spec w) H. apply Hspec. Qed.

Lemma cube_before w fuel o s1 :
  Cube.setup w fuel init_state = (o, s1) -> before_loop s1.
Proof. intros H. spec_at (cube_setup_spec w fuel) H. apply Hspec. Qed.

Lemma triangle_before w o s1 :
  Triangle.setup w init_state = (o, s1) -> before_loop s1.
Proof. intros H. spec_at (triangle_setup_spec w) H. apply Hspec. Qed.

Lemma quad_before w fuel o s1 :
  Quad.setup w fuel init_state = (o, s1) -> before_loop s1.
Proof. intros H. spec_at (quad_setup_spec w fuel) H. apply Hspec. Qed.

Ltac program_facts :=
  lazymatch goal with
  | |- wp (ContextCreation.setup _) _ _ => apply context_setup_more
  | |- wp (Cube.setup _ _) _ _ => apply cube_setup_more
  | |- wp (Triangle.setup _) _ _ => apply triangle_setup_more
  | |- wp (Quad.setup _ _) _ _ => apply quad_setup_more
  | |- forall o s1, ContextCreation.setup _ init_state = _ -> _ =>
      apply context_before
  | |- forall o s1, Cube.setup _ _ init_state = _ -> _ => apply cube_before
  | |- forall o s1, Triangle.setup _ init_state = _ -> _ =>
      apply triangle_before
  | |- forall o s1, Quad.setup _ _ init_state = _ -> _ => apply quad_before
  | |- forall l, draws_a_frame ContextP _ _ =>
      intro; apply context_draws_a_frame
  | |- forall l, draws_a_frame CubeP _ _ => intro; apply cube_draws_a_frame
  | |- forall l, draws_a_frame TriangleP _ _ =>
      intro; apply triangle_draws_a_frame
  | |- forall l, draws_a_frame QuadP _ _ => intro; apply quad_draws_a_frame
  end.

Lemma main_viewports p w fuel :
  let s := snd (go_run (main_of p w fuel)) in
  viewports (trace s) = loop_viewports p w (polled s).
Proof.
  destruct p; cbn [main_of].
  - apply (@shaped_viewports _ ContextP w (ContextCreation.setup w)
             (fun window => window) (ContextCreation.frame w) fuel);
      program_facts.
  - apply (@shaped_viewports _ CubeP w (Cube.setup w fuel) Cube.window
             (Cube.frame w) fuel); program_facts.
  - apply (@shaped_viewports _ TriangleP w (Triangle.setup w)
             (fun window => window) (Triangle.frame w) fuel); program_facts.
  - apply (@shaped_viewports _ QuadP w (Quad.setup w fuel) Quad.window
             (Quad.frame w) fuel); program_facts.
Qed.

Lemma main_silent p w fuel :
  no_glfw_errors w -> no_gl_errors w -> uses_shaders p = true ->
  stdout (snd (go_run (main_of p w fuel))) = [].
Proof.
  destruct p; cbn [main_of].
  - apply (@shaped_silent _ ContextP w (ContextCreation.setup w)
             (fun window => window) (ContextCreation.frame w) fuel);
      program_facts.
  - apply (@shaped_silent _ CubeP w (Cube.setup w fuel) Cube.window
             (Cube.frame w) fuel); program_facts.
  - apply (@shaped_silent _ TriangleP w (Triangle.setup w)
             (fun window => window) (Triangle.frame w) fuel); program_facts.
  - apply (@shaped_silent _ QuadP w (Quad.setup w fuel) Quad.window
             (Quad.frame w) fuel); program_facts.
Qed.

Lemma main_releases_last p w fuel e s :
  go_run (main_of p w fuel) = (e, s) -> e <> StillRunning ->
  exists t d,
    trace s = t ++ d /\
    filter is_cleanup t = [] /\ forallb is_cleanup d = true /\
    (w_glfw_Init w = false -> d = []) /\
    (w_glfw_Init w = true ->
     last d GlfwInit = GlfwTerminate /\
     filter is_terminate (removelast d) = []).
Proof.
  destruct p; cbn [main_of].
  - apply (@shaped_releases_last _ ContextP w (ContextCreation.setup w)
             (fun window => window) (ContextCreation.frame w) fuel);
      program_facts.
  - apply (@shaped_releases_last _ CubeP w (Cube.setup w fuel) Cube.window
             (Cube.frame w) fuel); program_facts.
  - apply (@shaped_releases_last _ TriangleP w (Triangle.setup w)
             (fun window => window) (Triangle.frame w) fuel); program_facts.
  - apply (@shaped_releases_last _ QuadP w (Quad.setup w fuel) Quad.window
             (Quad.frame w) fuel); program_facts.
Qed.

Lemma main_exit_releases p w fuel s :
  go_run (main_of p w fuel) = (ExitNormal, s) ->
  exists t,
    trace s = t ++ releases_of p /\
    filter is_cleanup t = [] /\ bound t = bound_of p.
Proof.
  destruct p; cbn [main_of].
  - apply (@shaped_exit_releases _ ContextP w (ContextCreation.setup w)
             (fun window => window) (ContextCreation.frame w) fuel);
      program_facts.
  - apply (@shaped_exit_releases _ CubeP w (Cube.setup w fuel) Cube.window
             (Cube.frame w) fuel); program_facts.
  - apply (@shaped_exit_releases _ TriangleP w (Triangle.setup w)
             (fun window => window) (Triangle.frame w) fuel); program_facts.
  - apply (@shaped_exit_releases _ QuadP w (Quad.setup w fuel) Quad.window
             (Quad.frame w) fuel); program_facts.
Qed.

Lemma main_report p w fuel :
  no_glfw_errors w -> enters_loop p w fuel ->
  let s := snd (go_run (main_of p w fuel)) in
  stdout s = setup_report p w ++ loop_report p w (polled s) /\
  errors_read s =
    (setup_errors_read p + (if uses_shaders p then polled s else 0))%nat.
Proof.
  destruct p; intros Hg (l & s1 & Hsetup); cbn [main_of].
  - apply (@shaped_report _ ContextP w (ContextCreation.setup w)
             (fun window => window) (ContextCreation.frame w) fuel) with l s1;
      first [exact Hsetup | exact Hg | program_facts].
  - apply (@shaped_report _ CubeP w (Cube.setup w fuel) Cube.window
             (Cube.frame w) fuel) with l s1;
      first [exact Hsetup | exact Hg | program_facts].
  - apply (@shaped_report _ TriangleP w (Triangle.setup w)
             (fun window => window) (Triangle.frame w) fuel) with l s1;
      first [exact Hsetup | exact Hg | program_facts].
  - apply (@shaped_report _ QuadP w (Quad.setup w fuel) Quad.window
             (Quad.frame w) fuel) with l s1;
      first [exact Hsetup | exact Hg | program_facts].
Qed.

(** ** More on [createTexture] *)

Lemma row_succ n j (l : list Byte.byte) :
  row n (S j) l = row n j (skipn n l).
Proof.
  unfold row. rewrite skipn_skipn. f_equal. f_equal. lia.
Qed.

(** Two byte arrays of [h] rows of [n] bytes with the same rows are
    equal. *)
Lemma rows_ext n : forall h (l1 l2 : list Byte.byte),
  List.length l1 = (h * n)%nat -> List.length l2 = (h * n)%nat ->
  (forall j, (j < h)%nat -> row n j l1 = row n j l2) ->
  l1 = l2.
Proof.
  induction h as [| h IH]; intros l1 l2 H1 H2 Hrows.
  - destruct l1, l2; try discriminate; reflexivity.
  - rewrite <- (firstn_skipn n l1), <- (firstn_skipn n l2). f_equal.
    + specialize (Hrows 0%nat ltac:(lia)). unfold row in Hrows.
      cbn [Nat.mul skipn] in Hrows. exact Hrows.
    + apply IH.
      * rewrite length_skipn, H1. lia.
      * rewrite length_skipn, H2. lia.
      * intros j Hj. rewrite <- !row_succ. apply Hrows. lia.
Qed.

Lemma firstn_row n j (l : list Byte.byte) : firstn n (row n j l) = row n j l.
Proof.
  unfold row. rewrite firstn_firstn, Nat.min_id. reflexivity.
Qed.

(** Flipping a tightly packed image twice gives its pixel bytes back. *)
Lemma flip_image_twice p fuel :
  tightly_packed p ->
  (Z.to_nat (Dy (Rect p)) < fuel)%nat ->
  exists data,
    flip_image fuel (ImageNRGBA p) p = Ret data /\
    flip_image fuel (ImageNRGBA (with_Pix data p)) (with_Pix data p)
      = Ret (Pix p).
Proof.
  intros [Hp Htight] Hfuel.
  destruct (flip_image_spec p fuel Hp Hfuel) as (data & Hflip & Hlen & Hrows).
  exists data. split; [exact Hflip |].
  pose proof Hp as (HW & HH & HWS & HPix & Hsmall).
  assert (Hp' : laid_out (with_Pix data p)).
  { unfold laid_out, with_Pix. cbn [Rect Stride Pix].
    repeat split; try assumption; rewrite Hlen; [rewrite Htight; lia | nia]. }
  destruct (flip_image_spec (with_Pix data p) fuel Hp' Hfuel)
    as (data' & Hflip' & Hlen' & Hrows').
  rewrite Hflip'. f_equal.
  cbn [with_Pix Rect] in Hlen', Hrows'.
  set (n := Z.to_nat (4 * Dx (Rect p))) in *.
  set (h := Z.to_nat (Dy (Rect p))) in *.
  assert (Hn : Z.to_nat (Stride p) = n) by (unfold n; now rewrite Htight).
  apply (rows_ext n h).
  - apply Nat2Z.inj. fold (len data'). rewrite Hlen'. unfold h, n.
    rewrite Nat2Z.inj_mul, !Z2Nat.id by lia. lia.
  - apply Nat2Z.inj. fold (len (Pix p)). rewrite HPix, Htight. unfold h, n.
    rewrite Nat2Z.inj_mul, !Z2Nat.id by lia. lia.
  - intros j Hj. rewrite Hrows' by exact Hj.
    unfold pixel_row. cbn [with_Pix Stride Pix]. rewrite Hn, firstn_row.
    rewrite Hrows by lia.
    unfold pixel_row. rewrite Hn, firstn_row. f_equal. lia.
Qed.

(** ** The row loop on images that are not laid out in rows *)

Section FlipLong.

Variable p : NRGBA.
Variables L St Hn : nat.
Hypothesis HSt : Stride p = Z.of_nat St.
Hypothesis HLpos : (0 < L)%nat.
Hypothesis HL : (L <= St)%nat.
Hypothesis Hlong : (Hn * St < List.length (Pix p))%nat.
Hypothesis Hsmall : len (Pix p) < 2 ^ 63.

(** With more pixel bytes than rows, the loop copies the [Hn] rows and then
    slices the data at a negative offset. *)
Lemma flip_rows_overlong : forall k i data fuel,
  (i + k = Hn)%nat -> List.length data = (Hn * L)%nat -> (k < fuel)%nat ->
  flip_rows fuel p (Z.of_nat L) (Z.of_nat (i * St))
    (Z.of_nat (k * L) - Z.of_nat L) data = Panic (slice_panic (Z.of_nat L)).
Proof.
  unfold len in Hsmall.
  induction k as [| k IH]; intros i data fuel Hik Hdata Hfuel;
    (destruct fuel as [| fuel]; [lia |]); cbn [flip_rows].
  - replace i with Hn by lia.
    replace (Z.of_nat (Hn * St) <? len (Pix p)) with true
      by (symmetry; apply Z.ltb_lt; unfold len; lia).
    replace (Z.of_nat (0 * L) - Z.of_nat L) with (- Z.of_nat L) by lia.
    replace (int_add (- Z.of_nat L) (Z.of_nat L)) with 0
      by (unfold int_add; now rewrite Z.add_opp_diag_l).
    unfold in_bounds.
    replace (0 <=? - Z.of_nat L) with false
      by (symmetry; apply Z.leb_gt; lia).
    cbn [andb]. unfold slice_error, slice_panic.
    replace (len data <? 0) with false
      by (symmetry; apply Z.ltb_ge; unfold len; lia).
    replace (- Z.of_nat L <? 0) with true
      by (symmetry; apply Z.ltb_lt; lia).
    reflexivity.
  - assert (Hi : (i * St + St <= Hn * St)%nat) by nia.
    assert (Hk : (k * L + L <= Hn * L)%nat) by nia.
    assert (HLS : (Hn * L <= Hn * St)%nat) by nia.
    replace (Z.of_nat (S k * L) - Z.of_nat L) with (Z.of_nat (k * L))
      by (rewrite Nat.mul_succ_l; lia).
    replace (Z.of_nat (i * St) <? len (Pix p)) with true
      by (symmetry; apply Z.ltb_lt; unfold len; lia).
    rewrite HSt. unfold int_add, int_sub.
    rewrite !int_wrap_small by lia.
    rewrite !in_bounds_nat by lia. cbn [andb].
    rewrite slice_nat.
    assert (Hrow : (L <= List.length (firstn St (skipn (i * St) (Pix p))))%nat)
      by (rewrite length_firstn, length_skipn; lia).
    rewrite copy_to_nat by exact Hrow.
    replace (Z.of_nat (i * St) + Z.of_nat St) with (Z.of_nat (S i * St))
      by (rewrite Nat.mul_succ_l; lia).
    apply IH.
    + lia.
    + rewrite !length_app, !length_firstn, !length_skipn, Hdata. lia.
    + lia.
Qed.

End FlipLong.

Lemma flip_image_overlong p fuel :
  overlong p -> (Z.to_nat (Dy (Rect p)) < fuel)%nat ->
  flip_image fuel (ImageNRGBA p) p = Panic (slice_panic (4 * Dx (Rect p))).
Proof.
  intros (HW & HH & HWS & HS & HPix & Hsmall) Hfuel.
  unfold flip_image. cbn [Bounds].
  set (W := Dx (Rect p)) in *. set (H := Dy (Rect p)) in *.
  assert (HWH : 0 <= W * H * 4 < 2 ^ 63) by nia.
  assert (HWH' : 0 <= W * H < 2 ^ 63) by nia.
  unfold int_mul.
  rewrite (int_wrap_small (W * H)) by lia.
  rewrite (int_wrap_small (W * H * 4)) by lia.
  rewrite (int_wrap_small (W * 4)) by lia.
  unfold make_bytes.
  replace (W * H * 4 <? 0) with false by (symmetry; apply Z.ltb_ge; lia).
  unfold len at 1. rewrite repeat_length.
  pose (L := Z.to_nat (W * 4)). pose (St := Z.to_nat (Stride p)).
  pose (Hn := Z.to_nat H).
  assert (HLn : Z.to_nat (W * H * 4) = (Hn * L)%nat).
  { unfold Hn, L. rewrite <- Z2Nat.inj_mul by lia. f_equal. lia. }
  unfold int_sub. rewrite int_wrap_small by lia.
  assert (Hl : (Hn * St < List.length (Pix p))%nat).
  { unfold len in HPix. apply Nat2Z.inj_lt. unfold Hn, St.
    rewrite Nat2Z.inj_mul, !Z2Nat.id by lia. lia. }
  assert (Hrun := fun H1 H2 H3 =>
            flip_rows_overlong p L St Hn H1 H2 H3 Hl Hsmall Hn 0%nat
              (repeat Byte.x00 (Z.to_nat (W * H * 4))) fuel).
  replace (4 * W) with (Z.of_nat L) by (unfold L; lia).
  rewrite <- Hrun.
  - f_equal.
    + unfold L. rewrite Z2Nat.id by lia. reflexivity.
    + rewrite HLn. unfold L. rewrite Z2Nat.id by lia. lia.
  - unfold St. lia.
  - unfold L. lia.
  - unfold L, St. lia.
  - lia.
  - rewrite repeat_length. exact HLn.
  - exact Hfuel.
Qed.

(** With [Stride = 0] the loop stays at [src = 0]. *)
Lemma flip_rows_stuck p lineLen : Stride p = 0 -> Pix p <> [] ->
  forall fuel dest data data',
    flip_rows fuel p lineLen 0 dest data <> Ret data'.
Proof.
  intros HS HP. induction fuel as [| fuel IH]; intros dest data data';
    cbn [flip_rows]; [discriminate |].
  replace (0 <? len (Pix p)) with true
    by (symmetry; apply Z.ltb_lt; unfold len; destruct (Pix p);
        [congruence | cbn [List.length]; lia]).
  rewrite HS.
  destruct (in_bounds data dest (int_add dest lineLen) &&
            in_bounds (Pix p) 0 (int_add 0 0));
    [| destruct (in_bounds data dest (int_add dest lineLen)); discriminate].
  change (int_add 0 0) with 0. apply IH.
Qed.

Lemma flip_rows_forever p : Stride p = 0 -> Pix p <> [] ->
  forall fuel, flip_rows fuel p 0 0 0 [] = Timeout.
Proof.
  intros HS HP. induction fuel as [| fuel IH]; cbn [flip_rows];
    [reflexivity |].
  replace (0 <? len (Pix p)) with true
    by (symmetry; apply Z.ltb_lt; unfold len; destruct (Pix p);
        [congruence | cbn [List.length]; lia]).
  rewrite HS. change (int_add 0 0) with 0. change (int_sub 0 0) with 0.
  replace (in_bounds (Pix p) 0 0) with true
    by (unfold in_bounds; cbn; symmetry; apply Z.leb_le; unfold len; lia).
  cbn. exact IH.
Qed.

(** ** [createTexture] when the flip does not return *)

Lemma createTexture_flip_panics w fuel r s p v :
  w_png_Decode w r = Ok (ImageNRGBA p) ->
  flip_image fuel (ImageNRGBA p) p = Panic v ->
  createTexture w fuel r s =
  (Panic v,
   mkState (should_close s) (key_callback s) (error_callback s) (polled s) (errors_read s)
     (sizes_read s) (clock_read s) (S (objects s)) (defers s)
     (trace s ++
      [PngDecode; GlGenTexture;
       TextureBind (Z.of_nat (S (objects s))) gl_TEXTURE_2D;
       GlTexParameterf gl_TEXTURE_2D gl_TEXTURE_MAG_FILTER gl_LINEAR;
       GlTexParameterf gl_TEXTURE_2D gl_TEXTURE_MIN_FILTER gl_LINEAR])
     (stdout s)).
Proof.
  intros H Hflip. unfold createTexture, png_Decode.
  erewrite bind_run by reflexivity. rewrite H.
  unfold gl_GenTexture. do 4 run_step.
  rewrite Hflip. unfold bind, lift.
  repeat rewrite <- app_assoc. reflexivity.
Qed.

Lemma createTexture_flip_timeout w fuel r s p :
  w_png_Decode w r = Ok (ImageNRGBA p) ->
  flip_image fuel (ImageNRGBA p) p = Timeout ->
  createTexture w fuel r s =
  (Timeout,
   mkState (should_close s) (key_callback s) (error_callback s) (polled s) (errors_read s)
     (sizes_read s) (clock_read s) (S (objects s)) (defers s)
     (trace s ++
      [PngDecode; GlGenTexture;
       TextureBind (Z.of_nat (S (objects s))) gl_TEXTURE_2D;
       GlTexParameterf gl_TEXTURE_2D gl_TEXTURE_MAG_FILTER gl_LINEAR;
       GlTexParameterf gl_TEXTURE_2D gl_TEXTURE_MIN_FILTER gl_LINEAR])
     (stdout s)).
Proof.
  intros H Hflip. unfold createTexture, png_Decode.
  erewrite bind_run by reflexivity. rewrite H.
  unfold gl_GenTexture. do 4 run_step.
  rewrite Hflip. unfold bind, lift.
  repeat rewrite <- app_assoc. reflexivity.
Qed.

Lemma flip_image_stuck p fuel data :
  Stride p = 0 -> Pix p <> [] ->
  flip_image fuel (ImageNRGBA p) p <> Ret data.
Proof.
  intros HS HP. unfold flip_image.
  destruct (make_bytes _); [apply flip_rows_stuck; assumption | |];
    discriminate.
Qed.

Lemma flip_image_forever p fuel :
  Stride p = 0 -> Pix p <> [] -> Dx (Rect p) = 0 ->
  flip_image fuel (ImageNRGBA p) p = Timeout.
Proof.
  intros HS HP HW. unfold flip_image. cbn [Bounds]. rewrite HW.
  change (int_mul 0 (Dy (Rect p))) with 0.
  change (int_mul 0 4) with 0. cbn [make_bytes Z.ltb Z.compare Z.to_nat repeat].
  change (int_sub (len []) 0) with 0.
  apply flip_rows_forever; assumption.
Qed.

Lemma createTexture_stuck w fuel r s p :
  w_png_Decode w r = Ok (ImageNRGBA p) ->
  Stride p = 0 -> Pix p <> [] ->
  (forall a, fst (createTexture w fuel r s) <> Ret a) /\
  (Dx (Rect p) = 0 -> fst (createTexture w fuel r s) = Timeout).
Proof.
  intros H HS HP. split.
  - intros a.
    destruct (flip_image fuel (ImageNRGBA p) p) as [d | v |] eqn:E.
    + now apply flip_image_stuck in E.
    + rewrite (createTexture_flip_panics _ _ _ _ _ _ H E). discriminate.
    + rewrite (createTexture_flip_timeout _ _ _ _ _ H E). discriminate.
  - intros HW.
    rewrite (createTexture_flip_timeout _ _ _ _ _ H
               (flip_image_forever p fuel HS HP HW)).
    reflexivity.
Qed.

Lemma deleted_no_cleanup t : filter is_cleanup t = [] -> deleted t = [].
Proof.
  induction t as [| c t IH]; [reflexivity |].
  cbn [filter]. destruct (is_cleanup c) eqn:E; [discriminate |].
  intros H. unfold deleted. cbn [flat_map]. fold (deleted t).
  rewrite (IH H). destruct c; try reflexivity; discriminate.
Qed.

Lemma main_exit_deletes p w fuel s :
  go_run (main_of p w fuel) = (ExitNormal, s) ->
  (exists t,
     trace s = t ++ releases_of p /\
     filter is_cleanup t = [] /\ bound t = bound_of p) /\
  bound (trace s) = bound_of p /\
  deleted (trace s) = deleted (releases_of p).
Proof.
  intros H. destruct (main_exit_releases p w fuel s H) as (t & Ht & Hc & Hb).
  split; [exists t; auto |].
  rewrite Ht, bound_app, deleted_app, Hb, (deleted_no_cleanup t Hc).
  split; [| reflexivity].
  destruct p; reflexivity.
Qed.

(** ** The order of the library calls *)

Lemma lifecycle_app t1 : forall ph t2,
  lifecycle ph (t1 ++ t2) =
  match lifecycle ph t1 with
  | Some ph' => lifecycle ph' t2
  | None => None
  end.
Proof.
  induction t1 as [| c t1 IH]; intros ph t2; cbn [app lifecycle];
    [reflexivity |].
  destruct (next ph c); [apply IH | reflexivity].
Qed.

Lemma lifecycle_stays ph t :
  Forall (fun c => next ph c = Some ph) t -> lifecycle ph t = Some ph.
Proof.
  induction 1 as [| c t Hc _ IH]; cbn [lifecycle]; [reflexivity |].
  now rewrite Hc.
Qed.

Lemma lifecycle_poll_calls registered events :
  lifecycle Ready (poll_calls registered events) = Some Ready.
Proof.
  apply lifecycle_stays.
  eapply Forall_impl; [| apply poll_calls_Forall].
  intros c [-> | ->]; reflexivity.
Qed.

Lemma closed_app t1 t2 : closed (t1 ++ t2) = closed t1 ++ closed t2.
Proof. apply flat_map_app. Qed.

Lemma uploads_app t1 t2 : uploads (t1 ++ t2) = (uploads t1 + uploads t2)%nat.
Proof. unfold uploads. now rewrite filter_app, length_app. Qed.

Lemma closed_poll_calls registered events :
  closed (poll_calls registered events) = [].
Proof.
  apply flat_map_nil.
  eapply Forall_impl; [| apply poll_calls_Forall].
  intros c [-> | ->]; reflexivity.
Qed.

Lemma uploads_poll_calls registered events :
  uploads (poll_calls registered events) = 0%nat.
Proof.
  unfold uploads. rewrite filter_nil; [reflexivity |].
  eapply Forall_impl; [| apply poll_calls_Forall].
  intros c [-> | ->]; reflexivity.
Qed.

Lemma closed_cleanup t : forallb is_cleanup t = true -> closed t = [].
Proof.
  intros H. apply flat_map_nil.
  eapply Forall_impl; [| apply cleanup_Forall, H].
  intros c Hc. destruct c; try discriminate; reflexivity.
Qed.

Lemma uploads_cleanup t : forallb is_cleanup t = true -> uploads t = 0%nat.
Proof.
  intros H. unfold uploads. rewrite filter_nil; [reflexivity |].
  eapply Forall_impl; [| apply cleanup_Forall, H].
  intros c Hc. destruct c; try discriminate; reflexivity.
Qed.

Lemma creation_poll_calls registered events :
  filter is_creation (poll_calls registered events) = [].
Proof.
  apply filter_nil.
  eapply Forall_impl; [| apply poll_calls_Forall].
  intros c [-> | ->]; reflexivity.
Qed.

Lemma creation_cleanup t :
  forallb is_cleanup t = true -> filter is_creation t = [].
Proof.
  intros H. apply filter_nil.
  eapply Forall_impl; [| apply cleanup_Forall, H].
  intros c Hc. destruct c; try discriminate; reflexivity.
Qed.

Ltac order_tac :=
  cbn [snd trace];
  rewrite ?lifecycle_app, ?opened_app, ?closed_app, ?uploads_app,
    ?filter_app;
  cbn [lifecycle next has_window initialised];
  rewrite ?lifecycle_poll_calls, ?opened_poll_calls, ?closed_poll_calls,
    ?uploads_poll_calls, ?creation_poll_calls;
  repeat split; reflexivity.

Lemma context_keeps_order w window :
  keeps_order (ContextCreation.frame w window).
Proof.
  intros s. eexists. eexists. split; [apply context_frame_run |].
  split; [reflexivity |].
  change (WindowSwapBuffers :: ?l) with ([WindowSwapBuffers] ++ l).
  order_tac.
Qed.

Lemma cube_keeps_order w l : keeps_order (Cube.frame w l).
Proof.
  intros s. eexists. eexists. split; [apply cube_frame_run |].
  split; [reflexivity |]. order_tac.
Qed.

Lemma triangle_keeps_order w window :
  keeps_order (Triangle.frame w window).
Proof.
  intros s. eexists. eexists. split; [apply triangle_frame_run |].
  split; [reflexivity |]. order_tac.
Qed.

Lemma quad_keeps_order w l : keeps_order (Quad.frame w l).
Proof.
  intros s. eexists. eexists. split; [apply quad_frame_run |].
  split; [reflexivity |]. order_tac.
Qed.

(** The image in hand is one that [createTexture] does not flip. *)
Ltac flip_fails_tac :=
  match goal with
  | H1 : w_png_Decode _ ?r = Ok (ImageNRGBA ?q),
    H2 : flip_image _ (ImageNRGBA ?q) ?q = _ |- flip_fails _ _ =>
      exists r, q; split;
      [exact H1 | intros d Hd; rewrite Hd in H2; discriminate H2]
  end.

Ltac finish_safe :=
  split;
  [ eexists; eexists;
    split; [reflexivity |];
    split; [reflexivity |];
    split; intro; first [reflexivity | discriminate | clash]
  | split; [reflexivity |];
    split; [| split]; intro;
    first [ discriminate
          | reflexivity
          | left; reflexivity
          | right; split; [flip_fails_tac | eexists; reflexivity] ] ].

Lemma triangle_setup_safe w fuel :
  wp (Triangle.setup w)
    (fun o s => setup_post_safe TriangleP w fuel (forget o) s) init_state.
Proof.
  unfold Triangle.setup, init_state.
  repeat wp_step.
  all: unfold setup_post_safe, forget.
  all: finish_safe.
Qed.

Lemma context_setup_safe w fuel :
  wp (ContextCreation.setup w)
    (fun o s => setup_post_safe ContextP w fuel (forget o) s) init_state.
Proof.
  unfold ContextCreation.setup, init_state.
  repeat wp_step.
  all: unfold setup_post_safe, forget.
  all: finish_safe.
Qed.

Lemma cube_setup_safe w fuel :
  wp (Cube.setup w fuel)
    (fun o s => setup_post_safe CubeP w fuel (forget o) s) init_state.
Proof.
  unfold Cube.setup, init_state.
  repeat wp_step.
  all: unfold setup_post_safe, forget.
  all: finish_safe.
Qed.

Lemma quad_setup_safe w fuel :
  wp (Quad.setup w fuel)
    (fun o s => setup_post_safe QuadP w fuel (forget o) s) init_state.
Proof.
  unfold Quad.setup, init_state.
  repeat wp_step.
  all: unfold setup_post_safe, forget.
  all: finish_safe.
Qed.

(** ** Whole runs, as to the order of the calls *)

Lemma lifecycle_releases p :
  lifecycle Ready (releases_of p) = Some Terminated.
Proof. destruct p; reflexivity. Qed.

Section Safe.

Context {L : Type}.
Variable p : Program.
Variable w : World.
Variable setup : M L.
Variable win : L -> Window.
Variable frame : L -> M unit.
Variable fuel : nat.

Let main : M unit :=
  deferring w (l <- setup ;; for_loop fuel (loop_cond (win l)) (frame l)).

Hypothesis Hmore :
  wp setup (fun o s => setup_post_more p w (forget o) s) init_state.
Hypothesis Hbefore : forall o s1, setup init_state = (o, s1) -> before_loop s1.
Hypothesis Hframe : forall l, draws_a_frame p w (frame l).
Hypothesis Hsafe :
  wp setup (fun o s => setup_post_safe p w fuel (forget o) s) init_state.
Hypothesis Horder : forall l, keeps_order (frame l).

Lemma cond_keeps_safe window :
  preserves (loop_invariant_safe p) (loop_cond window).
Proof.
  intros s (Hl & Hf & Hu & Hcr). rewrite loop_cond_run.
  unfold loop_invariant_safe. cbn [snd trace set_trace].
  rewrite lifecycle_app, opened_app, closed_app, uploads_app, filter_app, Hl.
  cbn. rewrite !app_nil_r, Nat.add_0_r. auto.
Qed.

Lemma frame_keeps_safe l : preserves (loop_invariant_safe p) (frame l).
Proof.
  intros s (Hl & Hf & Hu & Hcr).
  destruct (Horder l s)
    as (s' & calls & Hrun & Ht & Hlc & Ho & Hc & Hup & Hcc).
  rewrite Hrun. cbn [snd]. unfold loop_invariant_safe.
  rewrite Ht, lifecycle_app, opened_app, closed_app, uploads_app, filter_app,
    Hl, Hlc, Ho, Hc, Hup, Hcc, !app_nil_r, Nat.add_0_r.
  auto.
Qed.

Lemma setup_safe_at o s1 :
  setup init_state = (o, s1) -> setup_post_safe p w fuel (forget o) s1.
Proof.
  intros Hsetup. pose proof Hsafe as H. unfold wp in H.
  now rewrite Hsetup in H.
Qed.

Lemma setup_gives_safe l s1 :
  setup init_state = (Ret l, s1) -> loop_invariant_safe p s1.
Proof.
  intros Hsetup.
  destruct (setup_safe_at _ _ Hsetup)
    as ((ph & ph' & Hl & _ & _ & Hready) & Hu & Hf & _ & Hcr).
  cbn [forget] in Hready, Hf, Hcr. rewrite (Hready eq_refl) in Hl.
  split; [exact Hl | split; [exact (Hf eq_refl) | split; [exact Hu |]]].
  exact (Hcr eq_refl).
Qed.

Lemma loop_end_safe l s1 o s2 :
  setup init_state = (Ret l, s1) ->
  for_loop fuel (loop_cond (win l)) (frame l) s1 = (o, s2) ->
  loop_invariant_safe p s2.
Proof.
  intros Hsetup Hloop.
  pose proof (for_loop_preserves (loop_invariant_safe p)
                (loop_cond (win l)) (frame l)
                (cond_keeps_safe (win l)) (frame_keeps_safe l) fuel s1
                (setup_gives_safe l s1 Hsetup)) as H.
  now rewrite Hloop in H.
Qed.

(** Every call is made in a phase in which it may be made; a process that
    has ended and had initialised GLFW has terminated it. *)
Lemma shaped_lifecycle e s :
  go_run main = (e, s) ->
  exists ph,
    lifecycle Start (trace s) = Some ph /\
    (e <> StillRunning -> w_glfw_Init w = true -> ph = Terminated).
Proof.
  unfold main.
  destruct (go_run_cases p w setup win frame fuel Hbefore Hframe)
    as [(v & s1 & Hsetup & ->) | [(s1 & Hsetup & ->)
       | (l & s1 & s2 & Hsetup & [[Hloop ->] | [Hloop ->]])]];
    intros [= <- <-]; unfold after_defers; cbn [trace set_defers set_trace set_stdout].
  - destruct (setup_safe_at _ _ Hsetup)
      as ((ph & ph' & Hl & Hd & Hterm & _) & _).
    exists ph'. rewrite lifecycle_app, Hl. auto.
  - destruct (setup_safe_at _ _ Hsetup) as ((ph & ph' & Hl & _) & _).
    exists ph. split; [exact Hl | congruence].
  - destruct (loop_end_safe l s1 _ s2 Hsetup Hloop) as (Hl & _).
    destruct (loop_end_invariants p w setup win frame fuel Hmore Hbefore
                Hframe l s1 _ s2 Hsetup Hloop) as [(Hd & _) _].
    exists Terminated.
    rewrite lifecycle_app, Hl, Hd, lifecycle_releases. auto.
  - destruct (loop_end_safe l s1 _ s2 Hsetup Hloop) as (Hl & _).
    exists Ready. split; [exact Hl | congruence].
Qed.

(** A file is closed as soon as its texture is handed to the GL, and not
    before. *)
Lemma shaped_files e s :
  go_run main = (e, s) ->
  closed (trace s) = firstn (uploads (trace s)) (opened (trace s)) /\
  ((exists l s1, setup init_state = (Ret l, s1)) ->
   closed (trace s) = opened (trace s)).
Proof.
  unfold main.
  destruct (go_run_cases p w setup win frame fuel Hbefore Hframe)
    as [(v & s1 & Hsetup & ->) | [(s1 & Hsetup & ->)
       | (l & s1 & s2 & Hsetup & [[Hloop ->] | [Hloop ->]])]];
    intros [= <- <-]; unfold after_defers; cbn [trace set_defers set_trace set_stdout].
  - destruct (setup_safe_at _ _ Hsetup) as (_ & Hu & _).
    destruct (setup_gives_run_invariant p w setup Hmore Hbefore _ _ Hsetup)
      as (_ & _ & _ & _ & _ & Hcl & _).
    rewrite opened_app, closed_app, uploads_app, (opened_cleanup _ Hcl),
      (closed_cleanup _ Hcl), (uploads_cleanup _ Hcl), !app_nil_r,
      Nat.add_0_r.
    split; [exact Hu |]. intros (l & s1' & H). congruence.
  - destruct (setup_safe_at _ _ Hsetup) as (_ & Hu & _).
    split; [exact Hu |]. intros (l & s1' & H). congruence.
  - destruct (loop_end_safe l s1 _ s2 Hsetup Hloop) as (_ & Hf & Hu & _).
    destruct (loop_end_invariants p w setup win frame fuel Hmore Hbefore
                Hframe l s1 _ s2 Hsetup Hloop) as [_ (_ & _ & _ & _ & _ & Hcl & _)].
    rewrite opened_app, closed_app, uploads_app, (opened_cleanup _ Hcl),
      (closed_cleanup _ Hcl), (uploads_cleanup _ Hcl), !app_nil_r,
      Nat.add_0_r.
    auto.
  - destruct (loop_end_safe l s1 _ s2 Hsetup Hloop) as (_ & Hf & Hu & _).
    auto.
Qed.

(** When the process has ended, what it bound is deleted, the latest
    first, but for a texture that [createTexture] was making when it
    panicked. *)
Lemma shaped_no_leak e s :
  go_run main = (e, s) -> e <> StillRunning -> uses_textures p = true ->
  deleted (trace s) = rev (bound (trace s)) \/
  flip_fails w fuel /\
  exists texture message,
    e = ExitPanic message /\
    rev (bound (trace s)) = TextureObject texture :: deleted (trace s).
Proof.
  unfold main.
  destruct (go_run_cases p w setup win frame fuel Hbefore Hframe)
    as [(v & s1 & Hsetup & ->) | [(s1 & Hsetup & ->)
       | (l & s1 & s2 & Hsetup & [[Hloop ->] | [Hloop ->]])]];
    intros [= <- <-] He Hp; try congruence; unfold after_defers; cbn [trace set_defers set_trace set_stdout].
  - destruct (setup_safe_at _ _ Hsetup) as (_ & _ & _ & Hleak & _).
    destruct (setup_gives_run_invariant p w setup Hmore Hbefore _ _ Hsetup)
      as (Hc & _ & _ & _ & _ & Hcl & _).
    rewrite bound_app, deleted_app, (bound_cleanup _ Hcl),
      (deleted_no_cleanup _ Hc), app_nil_r.
    cbn [app].
    destruct (Hleak Hp) as [H | (Hff & texture & H)]; [left; now symmetry |].
    right. split; [exact Hff |]. exists texture, v. auto.
  - destruct (loop_end_invariants p w setup win frame fuel Hmore Hbefore
                Hframe l s1 _ s2 Hsetup Hloop)
      as [(Hd & Hc & Hb & _) (_ & _ & _ & _ & _ & Hcl & _)].
    left.
    rewrite bound_app, deleted_app, (bound_cleanup _ Hcl),
      (deleted_no_cleanup _ Hc), app_nil_r, Hb, Hd.
    destruct p; try discriminate Hp; reflexivity.
Qed.

(** A run that returns has created what its setup creates, and nothing
    else. *)
Lemma shaped_creations s :
  go_run main = (ExitNormal, s) ->
  filter is_creation (trace s) = creations_of p.
Proof.
  unfold main.
  destruct (go_run_cases p w setup win frame fuel Hbefore Hframe)
    as [(v & s1 & Hsetup & ->) | [(s1 & Hsetup & ->)
       | (l & s1 & s2 & Hsetup & [[Hloop ->] | [Hloop ->]])]];
    intros [= <-]; unfold after_defers; cbn [trace set_defers set_trace set_stdout].
  destruct (loop_end_safe l s1 _ s2 Hsetup Hloop) as (_ & _ & _ & Hcr).
  destruct (loop_end_invariants p w setup win frame fuel Hmore Hbefore
              Hframe l s1 _ s2 Hsetup Hloop)
    as [_ (_ & _ & _ & _ & _ & Hcl & _)].
  now rewrite filter_app, (creation_cleanup _ Hcl), app_nil_r.
Qed.

End Safe.

Ltac order_facts :=
  lazymatch goal with
  | |- wp (ContextCreation.setup _)
         (fun o s => setup_post_safe _ _ _ _ _) _ =>
      apply context_setup_safe
  | |- wp (Cube.setup _ _) (fun o s => setup_post_safe _ _ _ _ _) _ =>
      apply cube_setup_safe
  | |- wp (Triangle.setup _) (fun o s => setup_post_safe _ _ _ _ _) _ =>
      apply triangle_setup_safe
  | |- wp (Quad.setup _ _) (fun o s => setup_post_safe _ _ _ _ _) _ =>
      apply quad_setup_safe
  | |- forall l, keeps_order (ContextCreation.frame _ _) =>
      intro; apply context_keeps_order
  | |- forall l, keeps_order (Cube.frame _ _) =>
      intro; apply cube_keeps_order
  | |- forall l, keeps_order (Triangle.frame _ _) =>
      intro; apply triangle_keeps_order
  | |- forall l, keeps_order (Quad.frame _ _) =>
      intro; apply quad_keeps_order
  | |- _ => program_facts
  end.

Lemma main_lifecycle p w fuel e s :
  go_run (main_of p w fuel) = (e, s) ->
  exists ph,
    lifecycle Start (trace s) = Some ph /\
    (e <> StillRunning -> w_glfw_Init w = true -> ph = Terminated).
Proof.
  destruct p; cbn [main_of].
  - apply (@shaped_lifecycle _ ContextP w (ContextCreation.setup w)
             (fun window => window) (ContextCreation.frame w) fuel);
      order_facts.
  - apply (@shaped_lifecycle _ CubeP w (Cube.setup w fuel) Cube.window
             (Cube.frame w) fuel); order_facts.
  - apply (@shaped_lifecycle _ TriangleP w (Triangle.setup w)
             (fun window => window) (Triangle.frame w) fuel); order_facts.
  - apply (@shaped_lifecycle _ QuadP w (Quad.setup w fuel) Quad.window
             (Quad.frame w) fuel); order_facts.
Qed.

Lemma main_files p w fuel e s :
  go_run (main_of p w fuel) = (e, s) ->
  closed (trace s) = firstn (uploads (trace s)) (opened (trace s)) /\
  (enters_loop p w fuel -> closed (trace s) = opened (trace s)).
Proof.
  destruct p; cbn [main_of enters_loop].
  - apply (@shaped_files _ ContextP w (ContextCreation.setup w)
             (fun window => window) (ContextCreation.frame w) fuel);
      order_facts.
  - apply (@shaped_files _ CubeP w (Cube.setup w fuel) Cube.window
             (Cube.frame w) fuel); order_facts.
  - apply (@shaped_files _ TriangleP w (Triangle.setup w)
             (fun window => window) (Triangle.frame w) fuel); order_facts.
  - apply (@shaped_files _ QuadP w (Quad.setup w fuel) Quad.window
             (Quad.frame w) fuel); order_facts.
Qed.

Lemma main_no_leak p w fuel e s :
  go_run (main_of p w fuel) = (e, s) -> e <> StillRunning ->
  uses_textures p = true ->
  deleted (trace s) = rev (bound (trace s)) \/
  flip_fails w fuel /\
  exists texture message,
    e = ExitPanic message /\
    rev (bound (trace s)) = TextureObject texture :: deleted (trace s).
Proof.
  destruct p; cbn [main_of].
  - apply (@shaped_no_leak _ ContextP w (ContextCreation.setup w)
             (fun window => window) (ContextCreation.frame w) fuel);
      order_facts.
  - apply (@shaped_no_leak _ CubeP w (Cube.setup w fuel) Cube.window
             (Cube.frame w) fuel); order_facts.
  - apply (@shaped_no_leak _ TriangleP w (Triangle.setup w)
             (fun window => window) (Triangle.frame w) fuel); order_facts.
  - apply (@shaped_no_leak _ QuadP w (Quad.setup w fuel) Quad.window
             (Quad.frame w) fuel); order_facts.
Qed.

Lemma main_creations p w fuel s :
  go_run (main_of p w fuel) = (ExitNormal, s) ->
  filter is_creation (trace s) = creations_of p.
Proof.
  destruct p; cbn [main_of].
  - apply (@shaped_creations _ ContextP w (ContextCreation.setup w)
             (fun window => window) (ContextCreation.frame w) fuel);
      order_facts.
  - apply (@shaped_creations _ CubeP w (Cube.setup w fuel) Cube.window
             (Cube.frame w) fuel); order_facts.
  - apply (@shaped_creations _ TriangleP w (Triangle.setup w)
             (fun window => window) (Triangle.frame w) fuel); order_facts.
  - apply (@shaped_creations _ QuadP w (Quad.setup w fuel) Quad.window
             (Quad.frame w) fuel); order_facts.
Qed.

(** Images laid out in rows are flipped. *)
Lemma laid_out_flips w fuel : decodes_laid_out w fuel -> ~ flip_fails w fuel.
Proof.
  intros Hw (r & q & Hq & Hflip).
  destruct (Hw r q Hq) as (Hl & Hfuel).
  destruct (flip_image_spec q fuel Hl Hfuel) as (data & Hdata & _).
  exact (Hflip data Hdata).
Qed.

(** The exception is real: with an image whose [Pix] is too long the quad
    program panics in [createTexture] and leaves the texture it was
    making. *)
Lemma quad_leaves_a_texture :
  exists s,
    go_run (main_of QuadP overlong_world 5) = (ExitPanic (slice_panic 8), s) /\
    rev (bound (trace s)) = TextureObject 4 :: deleted (trace s).
Proof. eexists. split; vm_compute; reflexivity. Qed.

(** ** A failed [glfw.Init()] *)

Lemma failed_init_run {A} w (rest : M A) :
  w_glfw_Init w = false ->
  (glfw_SetErrorCallback ;;
   ok <- glfw_Init w ;;
   if negb ok then panic "Can't init glfw!" else rest) init_state =
  (Panic "Can't init glfw!",
   mkState false false true 0 0 0 0 0 [] [GlfwSetErrorCallback; GlfwInit]
     (map error_report (w_glfw_errors w 1))).
Proof.
  intros H. unfold glfw_SetErrorCallback.
  erewrite bind_run by (erewrite bind_run by reflexivity; reflexivity).
  erewrite bind_run by apply glfw_Init_run.
  rewrite H. reflexivity.
Qed.

Lemma main_failed_init p w fuel :
  w_glfw_Init w = false ->
  go_run (main_of p w fuel) =
    (ExitPanic "Can't init glfw!",
     mkState false false true 0 0 0 0 0 [] [GlfwSetErrorCallback; GlfwInit]
       (map error_report (w_glfw_errors w 1))).
Proof.
  intros H.
  destruct p; cbn [main_of];
    [unfold ContextCreation.main, ContextCreation.setup
    | unfold Cube.main, Cube.setup
    | unfold Triangle.main, Triangle.setup
    | unfold Quad.main, Quad.setup];
    rewrite go_run_deferring;
    unfold bind at 1; rewrite (failed_init_run _ _ H);
    unfold after_defers; cbn; rewrite app_nil_r; reflexivity.
Qed.

(* ================================================================= *)
(** * The claims *)

(** C1. In every program the key callback, invoked with Escape and Press,
    sets the should-close flag; the render loop runs its body exactly while
    the flag is down: when the first Escape press or close request arrives
    with poll [n] the program shows [n + 1] frames, leaves the loop and
    [main] returns normally, and while none arrives the loop goes on. *)
Theorem C1_escape_closes_and_main_returns :
  (forall window scancode mods st,
     exists st',
       handleKey window glfw_KeyEscape scancode glfw_Press mods st = (Ret tt, st')
       /\ should_close st' = true) /\
  (forall window body fuel s,
     for_loop (S fuel) (loop_cond window) body s =
     if should_close s
     then (Ret tt, set_trace (trace s ++ [WindowShouldClose]) s)
     else (body ;; for_loop fuel (loop_cond window) body)
            (set_trace (trace s ++ [WindowShouldClose]) s)) /\
  (forall p w fuel n,
     enters_loop p w fuel -> first_close w n -> (n + 2 <= fuel)%nat ->
     exists s',
       go_run (main_of p w fuel) = (ExitNormal, s') /\
       should_close s' = true /\
       frames_of (trace s') = S n) /\
  (forall p w fuel,
     enters_loop p w fuel -> never_closes w ->
     fst (go_run (main_of p w fuel)) = StillRunning).
Proof.
  split; [| split; [| split]].
  - intros. eexists. split; [apply handleKey_escape | reflexivity].
  - intros window body fuel s. destruct (should_close s) eqn:H.
    + now apply for_loop_exit.
    + now apply for_loop_enter.
  - exact main_exits.
  - exact main_goes_on.
Qed.

Lemma C1_witness :
  exists s',
    go_run (main_of CubeP escape_world 5) = (ExitNormal, s') /\
    should_close s' = true /\
    frames_of (trace s') = 3%nat.
Proof.
  apply (proj1 (proj2 (proj2 C1_escape_closes_and_main_returns))
           CubeP escape_world 5%nat 2%nat).
  - eexists. eexists. vm_compute. reflexivity.
  - split; reflexivity.
  - lia.
Defined.

(** C10. A key event whose action is not Press, and a Press of a key other
    than Escape, leave the whole state as it was: the callback returns
    without a call and without touching the should-close flag. *)
Theorem C10_other_keys_change_nothing :
  forall window k scancode action mods st,
    action <> glfw_Press \/ k <> glfw_KeyEscape ->
    handleKey window k scancode action mods st = (Ret tt, st).
Proof. exact handleKey_other. Qed.

Lemma C10_witness :
  handleKey TheWindow glfw_KeyEscape 9 glfw_Repeat 0 init_state
  = (Ret tt, init_state).
Proof.
  apply (C10_other_keys_change_nothing TheWindow glfw_KeyEscape 9 glfw_Repeat 0
           init_state).
  left. unfold glfw_Repeat, glfw_Press. lia.
Defined.

(** C2. A failure during setup ends the process in a panic that prints a
    diagnostic, before any event is polled or any frame shown: GLFW
    initialisation, the primary-monitor lookup of the first program, window
    creation, opening or decoding a sample file (or decoding it to an image
    that is not NRGBA), compiling the vertex or the fragment shader
    ([COMPILE_STATUS != TRUE]), and linking the program.  The programs do
    not read the link status: after [Link], [Use] and [Validate] they read
    [VALIDATE_STATUS], which is not [TRUE] for a program that did not link,
    nor for one that linked and does not validate. *)
Theorem C2_setup_failures_abort : forall p w fuel,
  (w_glfw_Init w = false -> aborts p w fuel "Can't init glfw!") /\
  (forall e,
     p = ContextP -> w_glfw_Init w = true -> w_GetPrimaryMonitor w = Some e ->
     aborts p w fuel e) /\
  (forall e,
     w_glfw_Init w = true -> (p = ContextP -> w_GetPrimaryMonitor w = None) ->
     w_CreateWindow w = Some e ->
     aborts p w fuel e) /\
  (forall e,
     uses_textures p = true -> window_created p w ->
     texture_fails w "sample.png" e ->
     aborts p w fuel e) /\
  (forall e data,
     uses_textures p = true -> window_created p w ->
     texture_outcome w fuel "sample.png" = Ret data ->
     texture_fails w "sample2.png" e ->
     aborts p w fuel e) /\
  (uses_shaders p = true -> window_created p w -> textures_loaded p w fuel ->
   w_compile_status w gl_VERTEX_SHADER <> gl_TRUE ->
   aborts p w fuel
     ("vertex shader compilation error: " ++ w_shader_log w gl_VERTEX_SHADER)) /\
  (uses_shaders p = true -> window_created p w -> textures_loaded p w fuel ->
   w_compile_status w gl_VERTEX_SHADER = gl_TRUE ->
   w_compile_status w gl_FRAGMENT_SHADER <> gl_TRUE ->
   aborts p w fuel
     ("fragment shader compilation error: " ++ w_shader_log w gl_FRAGMENT_SHADER)) /\
  (uses_shaders p = true -> window_created p w -> textures_loaded p w fuel ->
   w_compile_status w gl_VERTEX_SHADER = gl_TRUE ->
   w_compile_status w gl_FRAGMENT_SHADER = gl_TRUE ->
   w_link_status w <> gl_TRUE ->
   aborts p w fuel ("program error: " ++ w_program_log w)) /\
  (uses_shaders p = true -> window_created p w -> textures_loaded p w fuel ->
   w_compile_status w gl_VERTEX_SHADER = gl_TRUE ->
   w_compile_status w gl_FRAGMENT_SHADER = gl_TRUE ->
   w_link_status w = gl_TRUE ->
   w_validate_status w <> gl_TRUE ->
   aborts p w fuel ("program error: " ++ w_program_log w)).
Proof.
  intros p w fuel.
  split; [| split; [| split; [| split; [| split; [| split; [| split;
    [| split]]]]]]].
  - apply init_failure_aborts.
  - intros e ->. apply monitor_failure_aborts.
  - intros e. apply window_failure_aborts.
  - intros e. apply first_texture_failure_aborts.
  - intros e data. apply second_texture_failure_aborts.
  - intros Hp Hw Ht Hv. apply main_aborts.
    rewrite shader_stage by assumption. unfold shaders_outcome.
    now rewrite (status_not_TRUE _ Hv).
  - intros Hp Hw Ht Hv Hf. apply main_aborts.
    rewrite shader_stage by assumption. unfold shaders_outcome.
    now rewrite (status_TRUE _ Hv), (status_not_TRUE _ Hf).
  - intros Hp Hw Ht Hv Hf Hl. apply main_aborts.
    rewrite shader_stage by assumption. unfold shaders_outcome.
    rewrite (status_TRUE _ Hv), (status_TRUE _ Hf).
    unfold validate_status. apply Z.eqb_neq in Hl. now rewrite Hl.
  - intros Hp Hw Ht Hv Hf Hl Hval. apply main_aborts.
    rewrite shader_stage by assumption. unfold shaders_outcome.
    rewrite (status_TRUE _ Hv), (status_TRUE _ Hf).
    unfold validate_status. rewrite Hl, Z.eqb_refl.
    now rewrite (status_not_TRUE _ Hval).
Qed.

Lemma C2_witness :
  aborts TriangleP unlinked_world 3 "program error: error: undefined symbol".
Proof.
  apply (proj1 (proj2 (proj2 (proj2 (proj2 (proj2 (proj2 (proj2
           (C2_setup_failures_abort TriangleP unlinked_world 3))))))))).
  - reflexivity.
  - split; [reflexivity | split; [reflexivity | discriminate]].
  - intros H. discriminate H.
  - reflexivity.
  - reflexivity.
  - vm_compute. discriminate.
Defined.



(** C4. Every pass through the cube's render loop issues, after the poll,
    the same calls in the same order; its draw calls and its changes of
    stencil and depth-write state are: draw the cube (36 vertices from 0),
    enable the stencil test, stencil func ALWAYS with reference 1, stencil op
    REPLACE on pass, stencil mask 0xFF, depth writes off, clear the stencil
    buffer, draw the floor (6 vertices from 36), stencil func EQUAL with
    reference 1, stencil mask 0x00, depth writes on, draw the cube again
    (with the mirrored model matrix), disable the stencil test. *)
Theorem C4_stencil_recipe_in_order : forall w fuel,
  (forall l s,
     trace (snd (Cube.frame w l s)) =
     trace s ++ poll_calls (key_callback s) (w_events w (polled s))
       ++ cube_frame_calls w l (sizes_read s) (clock_read s)) /\
  (forall l s,
     filter is_draw_or_stencil (trace (snd (Cube.frame w l s))) =
     filter is_draw_or_stencil (trace s) ++ stencil_recipe) /\
  (let s := snd (go_run (Cube.main w fuel)) in
   filter is_draw_or_stencil (trace s) =
   List.concat (repeat stencil_recipe (polled s))).
Proof.
  intros w fuel. repeat split.
  - intros l s. now rewrite cube_frame_run.
  - intros l s. rewrite cube_frame_run. cbn [snd trace].
    now rewrite !filter_app, draws_poll_calls, cube_frame_draws.
  - apply cube_draws.
Qed.

(** C6. The cube and the quad program open the files [sample.png] and
    [sample2.png], in this order, and no other file.  [createTexture]
    returns an error, and texture 0 without creating one, when the reader
    does not decode as a PNG and when the decoded image is not NRGBA; the
    caller panics with that error. *)
Theorem C6_textures_must_be_NRGBA_PNGs : forall p w fuel,
  (forall r s e,
     w_png_Decode w r = Err e ->
     createTexture w fuel r s =
     (Ret (0, Some e), set_trace (trace s ++ [PngDecode]) s)) /\
  (forall r s bounds,
     w_png_Decode w r = Ok (ImageOther bounds) ->
     createTexture w fuel r s =
     (Ret (0, Some "texture must be an NRGBA image"%string),
      set_trace (trace s ++ [PngDecode]) s)) /\
  (uses_textures p = true ->
   let t := trace (snd (go_run (main_of p w fuel))) in
   prefixb (opened t) sample_files = true /\
   (enters_loop p w fuel -> opened t = sample_files)) /\
  (forall e,
     uses_textures p = true -> window_created p w ->
     texture_fails w "sample.png" e ->
     aborts p w fuel e) /\
  (forall e data,
     uses_textures p = true -> window_created p w ->
     texture_outcome w fuel "sample.png" = Ret data ->
     texture_fails w "sample2.png" e ->
     aborts p w fuel e).
Proof.
  intros p w fuel. repeat split.
  - intros r s e. apply createTexture_decode_error.
  - intros r s bounds. apply createTexture_not_NRGBA.
  - now apply textured_opened.
  - now apply textured_opened.
  - intros e. apply first_texture_failure_aborts.
  - intros e data. apply second_texture_failure_aborts.
Qed.

Lemma C6_witness :
  aborts QuadP paletted_world 3 "texture must be an NRGBA image".
Proof.
  apply (proj1 (proj2 (proj2 (proj2 (C6_textures_must_be_NRGBA_PNGs
           QuadP paletted_world 3))))).
  - reflexivity.
  - split; [reflexivity | split; [reflexivity | discriminate]].
  - right. right. eexists. eexists. repeat split.
Defined.

(** C7 (as amended). Once the window exists, a run of the context, the cube
    or the triangle program creates exactly one buffer object, and a run of
    the quad program exactly two: its vertex buffer and its element
    buffer. *)
Theorem C7_buffers_created : forall p w fuel,
  window_created p w ->
  buffers_created (trace (snd (go_run (main_of p w fuel)))) =
  match p with
  | QuadP => 2
  | _ => 1
  end.
Proof. exact main_buffers. Qed.

Lemma C7_witness :
  buffers_created (trace (snd (go_run (main_of CubeP escape_world 5)))) = 1.
Proof.
  apply (C7_buffers_created CubeP escape_world 5).
  split; [reflexivity | split; [reflexivity | discriminate]].
Defined.

(** The quad program creates two buffer objects, not one. *)
Lemma C7_counterexample :
  buffers_created (trace (snd (go_run (main_of QuadP escape_world 5)))) <> 1.
Proof. vm_compute. discriminate. Qed.

(** C8. [createTexture] flips the image: for an NRGBA image of width [W]
    and height [H] whose [Pix] holds [H] rows of [Stride >= 4 * W] bytes, the
    array handed to [gl.TexImage2D] has [4 * W * H] bytes and its row [j] is
    the first [4 * W] bytes of pixel row [H - 1 - j]. *)
Theorem C8_createTexture_flips : forall w fuel r s p,
  w_png_Decode w r = Ok (ImageNRGBA p) ->
  laid_out p ->
  (Z.to_nat (Dy (Rect p)) < fuel)%nat ->
  exists data texture s' t,
    createTexture w fuel r s = (Ret (texture, None), s') /\
    trace s' =
      t ++ [GlTexImage2D gl_TEXTURE_2D 0 gl_RGBA (Dx (Rect p)) (Dy (Rect p)) 0
              gl_RGBA gl_UNSIGNED_BYTE data] /\
    len data = 4 * Dx (Rect p) * Dy (Rect p) /\
    forall j, (j < Z.to_nat (Dy (Rect p)))%nat ->
      row (Z.to_nat (4 * Dx (Rect p))) j data =
      firstn (Z.to_nat (4 * Dx (Rect p)))
        (pixel_row p (Z.to_nat (Dy (Rect p)) - 1 - j)).
Proof.
  intros w fuel r s p Hd Hp Hfuel.
  destruct (flip_image_spec p fuel Hp Hfuel) as (data & Hflip & Hlen & Hrows).
  exists data. eexists. eexists.
  exists (trace s ++
          [PngDecode; GlGenTexture;
           TextureBind (Z.of_nat (S (objects s))) gl_TEXTURE_2D;
           GlTexParameterf gl_TEXTURE_2D gl_TEXTURE_MAG_FILTER gl_LINEAR;
           GlTexParameterf gl_TEXTURE_2D gl_TEXTURE_MIN_FILTER gl_LINEAR]).
  split; [apply (createTexture_NRGBA w fuel r s p data Hd Hflip) |].
  cbn [trace]. rewrite <- app_assoc. cbn [app]. auto.
Qed.

Lemma C8_witness :
  exists data texture s' t,
    createTexture quiet_world 3 [] init_state = (Ret (texture, None), s') /\
    trace s' =
      t ++ [GlTexImage2D gl_TEXTURE_2D 0 gl_RGBA 2 2 0 gl_RGBA gl_UNSIGNED_BYTE data] /\
    len data = 16 /\
    forall j, (j < 2)%nat ->
      row 8 j data = firstn 8 (pixel_row sample_image (2 - 1 - j)).
Proof.
  apply (C8_createTexture_flips quiet_world 3 [] init_state sample_image).
  - reflexivity.
  - unfold laid_out. vm_compute. repeat split; discriminate.
  - vm_compute. lia.
Defined.

(** C9. In the cube program a pass through the render loop ends with the
    stencil test disabled and the override colour set to (1.0, 1.0, 1.0), in
    whatever state it began; the setup leaves the same state; so the loop
    evaluates its condition, and begins every pass, with the stencil test
    disabled and the override colour white. *)
Theorem C9_loop_restores_gl_state : forall w fuel l,
  (forall s enabled v,
     exists calls,
       trace (snd (Cube.frame w l s)) = trace s ++ calls /\
       stencil_test_after calls enabled = false /\
       uniform3f_after (Cube.overrideColorLocation l) calls v
         = Some (1.0, 1.0, 1.0)%Q) /\
  (forall s,
     loop_head w fuel l s ->
     stencil_test_after (trace s) false = false /\
     uniform3f_after (Cube.overrideColorLocation l) (trace s) None
       = Some (1.0, 1.0, 1.0)%Q) /\
  (forall s n,
     loop_head w fuel l s -> should_close s = false ->
     exists s',
       loop_head w fuel l s' /\
       for_loop (S n) (loop_cond (Cube.window l)) (Cube.frame w l) s =
       for_loop n (loop_cond (Cube.window l)) (Cube.frame w l) s').
Proof.
  intros w fuel l. split; [| split].
  - intros s enabled v. apply cube_frame_restores.
  - intros s. apply loop_head_restored.
  - intros s n. apply loop_head_step.
Qed.



Lemma C9_witness :
  match Cube.setup escape_world 5 init_state with
  | (Ret l, s) =>
      stencil_test_after (trace s) false = false /\
      uniform3f_after (Cube.overrideColorLocation l) (trace s) None
        = Some (1.0, 1.0, 1.0)%Q
  | _ => False
  end.
Proof.
  destruct (Cube.setup escape_world 5 init_state) as [[l | v |] s] eqn:E.
  - apply (proj1 (proj2 (C9_loop_restores_gl_state escape_world 5 l)) s).
    apply head_first. exact E.
  - vm_compute in E. discriminate E.
  - vm_compute in E. discriminate E.
Defined.

(* ================================================================= *)
(** * Further properties of the programs *)

(** X1. Once the setup of a program has returned, nothing in its render
    loop can panic: [main] either returns normally or is still in the
    loop. *)
Theorem X1_render_loop_never_panics :
  forall p w fuel,
    enters_loop p w fuel ->
    fst (go_run (main_of p w fuel)) = ExitNormal \/
    fst (go_run (main_of p w fuel)) = StillRunning.
Proof. exact main_loop_never_panics. Qed.

Lemma X1_witness :
  fst (go_run (main_of QuadP escape_world 5)) = ExitNormal \/
  fst (go_run (main_of QuadP escape_world 5)) = StillRunning.
Proof.
  apply (X1_render_loop_never_panics QuadP escape_world 5%nat).
  eexists. eexists. vm_compute. reflexivity.
Defined.

(** X2. [main] returns normally only on request: the should-close flag is
    up, and some poll before delivered an Escape press or a close
    request. *)
Theorem X2_normal_exit_only_on_request :
  forall p w fuel s,
    go_run (main_of p w fuel) = (ExitNormal, s) ->
    should_close s = true /\
    exists n, (n < polled s)%nat /\
              existsb (closes true) (w_events w n) = true.
Proof. exact main_exit_has_a_cause. Qed.

Lemma X2_witness :
  should_close (snd (go_run (main_of TriangleP escape_world 5))) = true /\
  exists n,
    (n < polled (snd (go_run (main_of TriangleP escape_world 5))))%nat /\
    existsb (closes true) (w_events escape_world n) = true.
Proof.
  apply (X2_normal_exit_only_on_request TriangleP escape_world 5%nat).
  vm_compute. reflexivity.
Defined.

(** X3. A frame is shown only after the whole setup went well: GLFW was
    initialised and the window created (with a primary monitor, in the
    first program), both textures were loaded where the program has
    textures, and where it has shaders both compiled and the program
    validated. *)
Theorem X3_frames_only_after_setup :
  forall p w fuel,
    (0 < frames_of (trace (snd (go_run (main_of p w fuel)))))%nat ->
    window_created p w /\ textures_loaded p w fuel /\
    (uses_shaders p = true ->
     w_compile_status w gl_VERTEX_SHADER = gl_TRUE /\
     w_compile_status w gl_FRAGMENT_SHADER = gl_TRUE /\
     w_validate_status w = gl_TRUE).
Proof.
  intros p w fuel H.
  apply (setup_ready p w fuel), enters_outcome, main_frames_need_setup, H.
Qed.

Lemma X3_witness :
  window_created CubeP escape_world /\
  textures_loaded CubeP escape_world 5 /\
  (uses_shaders CubeP = true ->
   w_compile_status escape_world gl_VERTEX_SHADER = gl_TRUE /\
   w_compile_status escape_world gl_FRAGMENT_SHADER = gl_TRUE /\
   w_validate_status escape_world = gl_TRUE).
Proof.
  apply (X3_frames_only_after_setup CubeP escape_world 5%nat).
  vm_compute. lia.
Defined.

(** X4. When [main] returns normally its deferred calls are the last calls
    made, the latest deferred first, and nothing is released before them.
    The cube and the quad program delete every object they bound, in the
    reverse order; the triangle program binds a vertex array and a buffer
    and deletes neither. *)
Theorem X4_normal_exit_releases :
  forall p w fuel s,
    go_run (main_of p w fuel) = (ExitNormal, s) ->
    (exists t, trace s = t ++ releases_of p /\ filter is_cleanup t = []) /\
    (p <> TriangleP -> deleted (trace s) = rev (bound (trace s))) /\
    (p = TriangleP ->
     deleted (trace s) = [] /\
     bound (trace s) = [VertexArrayObject 1; BufferObject 2]).
Proof.
  intros p w fuel s H.
  destruct (main_exit_deletes p w fuel s H)
    as ((t & Ht & Hc & _) & Hb & Hd).
  split; [exists t; split; assumption |].
  rewrite Hb, Hd.
  split; [destruct p; intros Hp; try reflexivity; now contradiction Hp |].
  intros ->. split; reflexivity.
Qed.

Lemma X4_witness :
  (exists t,
     trace (snd (go_run (main_of QuadP escape_world 5)))
       = t ++ releases_of QuadP /\
     filter is_cleanup t = []) /\
  (QuadP <> TriangleP ->
   deleted (trace (snd (go_run (main_of QuadP escape_world 5))))
     = rev (bound (trace (snd (go_run (main_of QuadP escape_world 5)))))) /\
  (QuadP = TriangleP ->
   deleted (trace (snd (go_run (main_of QuadP escape_world 5)))) = [] /\
   bound (trace (snd (go_run (main_of QuadP escape_world 5))))
     = [VertexArrayObject 1; BufferObject 2]).
Proof.
  apply (X4_normal_exit_releases QuadP escape_world 5%nat).
  vm_compute. reflexivity.
Defined.

(** X5. However [main] ends, by returning or by a panic, the releases come
    last: the trace is the calls of the program proper, none of which
    releases anything, followed by releases only.  If [glfw.Init()] failed
    nothing is released; if it succeeded [glfw.Terminate()] is the very
    last call, and it is called once. *)
Theorem X5_releases_come_last :
  forall p w fuel e s,
    go_run (main_of p w fuel) = (e, s) -> e <> StillRunning ->
    exists t d,
      trace s = t ++ d /\
      filter is_cleanup t = [] /\ forallb is_cleanup d = true /\
      (w_glfw_Init w = false -> d = []) /\
      (w_glfw_Init w = true ->
       last d GlfwInit = GlfwTerminate /\
       filter is_terminate (removelast d) = []).
Proof. exact main_releases_last. Qed.

Lemma X5_witness :
  exists t d,
    trace (snd (go_run (main_of CubeP broken_shader_world 5))) = t ++ d /\
    filter is_cleanup t = [] /\ forallb is_cleanup d = true /\
    (w_glfw_Init broken_shader_world = false -> d = []) /\
    (w_glfw_Init broken_shader_world = true ->
     last d GlfwInit = GlfwTerminate /\
     filter is_terminate (removelast d) = []).
Proof.
  apply (X5_releases_come_last CubeP broken_shader_world 5%nat
           (ExitPanic "fragment shader compilation error: 0:9: syntax error")).
  - vm_compute. reflexivity.
  - discriminate.
Defined.

(** X6. Once [glfw.Init()] and [glfw.CreateWindow] have succeeded, and
    while GLFW reports no error to [errorCallback] and no GL error is
    pending, the cube, triangle and quad programs print nothing on the
    standard output, however long they run and however they end. *)
Theorem X6_silent_without_gl_errors :
  forall p w fuel,
    w_glfw_Init w = true -> w_CreateWindow w = None ->
    no_glfw_errors w -> no_gl_errors w -> uses_shaders p = true ->
    stdout (snd (go_run (main_of p w fuel))) = [].
Proof. intros p w fuel _ _. apply main_silent. Qed.

Lemma X6_witness :
  stdout (snd (go_run (main_of TriangleP escape_world 5))) = [].
Proof.
  apply (X6_silent_without_gl_errors TriangleP escape_world 5%nat).
  - reflexivity.
  - reflexivity.
  - intros n. reflexivity.
  - intros n. reflexivity.
  - reflexivity.
Defined.

(** X7. While GLFW reports no error to [errorCallback], what a program
    that reached its loop has printed is fixed by the answers of
    [gl.GetError()]: one line per [checkError] of the setup whose poll
    found an error, then one line per pass whose poll found one, in this
    order and nothing else; the first program prints its buffer list only.
    The answer to the [gl.GetError()] right after [gl.Init()] is never
    printed.  [gl.GetError()] is called once per check and once per
    pass. *)
Theorem X7_output_is_the_error_report :
  forall p w fuel,
    no_glfw_errors w -> enters_loop p w fuel ->
    stdout (snd (go_run (main_of p w fuel))) =
      setup_report p w ++
      loop_report p w (polled (snd (go_run (main_of p w fuel)))) /\
    errors_read (snd (go_run (main_of p w fuel))) =
      (setup_errors_read p +
       (if uses_shaders p
        then polled (snd (go_run (main_of p w fuel))) else 0))%nat.
Proof. exact main_report. Qed.

Lemma X7_witness :
  stdout (snd (go_run (main_of TriangleP noisy_world 5))) =
    setup_report TriangleP noisy_world ++
    loop_report TriangleP noisy_world
      (polled (snd (go_run (main_of TriangleP noisy_world 5)))) /\
  errors_read (snd (go_run (main_of TriangleP noisy_world 5))) =
    (setup_errors_read TriangleP +
     (if uses_shaders TriangleP
      then polled (snd (go_run (main_of TriangleP noisy_world 5)))
      else 0))%nat.
Proof.
  apply (X7_output_is_the_error_report TriangleP noisy_world 5%nat).
  - intros n. reflexivity.
  - eexists. eexists. vm_compute. reflexivity.
Defined.

(** X8. The viewports set over a whole run are, pass by pass, the
    framebuffer size read in that pass, at the origin: the [k]-th pass of
    the cube, triangle and quad loops sets [(0, 0, width, height)] with
    the [k]-th answer of [window.GetFramebufferSize()].  No setup and no
    deferred call sets a viewport, and the first program sets none. *)
Theorem X8_viewport_follows_the_framebuffer :
  forall p w fuel,
    viewports (trace (snd (go_run (main_of p w fuel)))) =
    loop_viewports p w (polled (snd (go_run (main_of p w fuel)))).
Proof. exact main_viewports. Qed.

(** X9. Flipping is an involution: when the rows of an image have no
    padding, the bytes [createTexture] makes of it, taken as the pixels of
    an image of the same bounds, are flipped back to the pixels of the
    image. *)
Theorem X9_flipping_twice_gives_the_image :
  forall p fuel,
    tightly_packed p ->
    (Z.to_nat (Dy (Rect p)) < fuel)%nat ->
    exists data,
      flip_image fuel (ImageNRGBA p) p = Ret data /\
      flip_image fuel (ImageNRGBA (with_Pix data p)) (with_Pix data p)
        = Ret (Pix p).
Proof. exact flip_image_twice. Qed.

Lemma X9_witness :
  exists data,
    flip_image 5 (ImageNRGBA sample_image) sample_image = Ret data /\
    flip_image 5 (ImageNRGBA (with_Pix data sample_image))
      (with_Pix data sample_image) = Ret (Pix sample_image).
Proof.
  apply (X9_flipping_twice_gives_the_image sample_image 5%nat).
  - split; [| reflexivity].
    split; [| split; [| split; [| split]]]; vm_compute; congruence.
  - vm_compute. lia.
Defined.

(** X10. [createTexture] counts on [Pix] ending with the last row of the
    bounds.  For an image of positive width whose [Pix] goes on after its
    [Dy] rows, the loop copies the [Dy] rows and then slices the data at
    the negative offset [- 4 * Dx]: [createTexture] panics with the
    runtime error of a slice out of bounds, after generating and binding the
    texture and before any [gl.TexImage2D]. *)
Theorem X10_createTexture_panics_on_longer_pixels :
  forall w fuel r s p,
    w_png_Decode w r = Ok (ImageNRGBA p) ->
    overlong p ->
    (Z.to_nat (Dy (Rect p)) < fuel)%nat ->
    fst (createTexture w fuel r s) =
      Panic ("runtime error: slice bounds out of range ["
             ++ show_Z (- (4 * Dx (Rect p))) ++ ":]")%string /\
    trace (snd (createTexture w fuel r s)) =
      trace s ++
      [PngDecode; GlGenTexture;
       TextureBind (Z.of_nat (S (objects s))) gl_TEXTURE_2D;
       GlTexParameterf gl_TEXTURE_2D gl_TEXTURE_MAG_FILTER gl_LINEAR;
       GlTexParameterf gl_TEXTURE_2D gl_TEXTURE_MIN_FILTER gl_LINEAR].
Proof.
  intros w fuel r s p H Hp Hfuel.
  rewrite (createTexture_flip_panics w fuel r s p _ H
             (flip_image_overlong p fuel Hp Hfuel)).
  split; reflexivity.
Qed.

Lemma X10_witness :
  fst (createTexture overlong_world 5 [] init_state) =
    Panic "runtime error: slice bounds out of range [-8:]" /\
  trace (snd (createTexture overlong_world 5 [] init_state)) =
    trace init_state ++
    [PngDecode; GlGenTexture;
     TextureBind (Z.of_nat (S (objects init_state))) gl_TEXTURE_2D;
     GlTexParameterf gl_TEXTURE_2D gl_TEXTURE_MAG_FILTER gl_LINEAR;
     GlTexParameterf gl_TEXTURE_2D gl_TEXTURE_MIN_FILTER gl_LINEAR].
Proof.
  apply (X10_createTexture_panics_on_longer_pixels overlong_world 5%nat []
           init_state overlong_image).
  - reflexivity.
  - unfold overlong. vm_compute. repeat split; discriminate.
  - vm_compute. lia.
Defined.

(** X11. The row loop advances by [Stride] and ends when it has passed
    [Pix]: for an image with [Stride = 0] and pixels, [createTexture]
    never returns a texture, whatever the number of steps it is given,
    and if the image has no columns either the loop never ends. *)
Theorem X11_createTexture_needs_a_stride :
  forall w fuel r s p,
    w_png_Decode w r = Ok (ImageNRGBA p) ->
    Stride p = 0 -> Pix p <> [] ->
    (forall a, fst (createTexture w fuel r s) <> Ret a) /\
    (Dx (Rect p) = 0 -> fst (createTexture w fuel r s) = Timeout).
Proof. exact createTexture_stuck. Qed.

Lemma X11_witness :
  (forall a, fst (createTexture stuck_world 1000 [] init_state) <> Ret a) /\
  (Dx (Rect stuck_image) = 0 ->
   fst (createTexture stuck_world 1000 [] init_state) = Timeout).
Proof.
  apply (X11_createTexture_needs_a_stride stuck_world 1000%nat []
           init_state stuck_image).
  - reflexivity.
  - reflexivity.
  - discriminate.
Defined.

(** X12. Every library call is made when it may be made.  In every run of
    every program, as far as it has got: the error callback is registered
    before [glfw.Init()], and no other call of GLFW or the GL precedes
    [glfw.Init()]; the window hints and the monitor are asked for before
    the window is created; every call on the window comes between its
    creation and [window.Destroy()]; every GL call comes after
    [window.MakeContextCurrent()] and [gl.Init()] and before
    [window.Destroy()], the deferred deletions included; and no call of
    GLFW or the GL follows [glfw.Terminate()].  A process that has ended
    after a successful [glfw.Init()] has terminated GLFW. *)
Theorem X12_calls_follow_the_life_cycle :
  forall p w fuel,
    exists ph,
      lifecycle Start (trace (snd (go_run (main_of p w fuel)))) = Some ph /\
      (fst (go_run (main_of p w fuel)) <> StillRunning ->
       w_glfw_Init w = true -> ph = Terminated).
Proof.
  intros p w fuel.
  apply (main_lifecycle p w fuel), surjective_pairing.
Qed.

(** X13. The cube and the quad program delete, on every way out, the
    vertex array, the buffers and the textures they have bound: when [main]
    has ended, by returning or by a panic at any point of the setup, the
    objects deleted are the objects bound, the latest first.  This holds
    for images as [png.Decode] makes them, laid out in rows.  The two
    shaders and the program that a run creates are not deleted: no call of
    these programs deletes a shader or a program, so of the seven objects
    the cube program creates (eight for the quad) four (five) are deleted
    when [main] returns. *)
Theorem X13_objects_bound_are_deleted :
  forall p w fuel e s,
    go_run (main_of p w fuel) = (e, s) -> e <> StillRunning ->
    uses_textures p = true -> decodes_laid_out w fuel ->
    deleted (trace s) = rev (bound (trace s)) /\
    (e = ExitNormal ->
     filter is_creation (trace s) = creations_of p /\
     List.length (filter is_creation (trace s)) =
       (List.length (deleted (trace s)) + 3)%nat).
Proof.
  intros p w fuel e s Hrun He Hp Hw.
  destruct (main_no_leak p w fuel e s Hrun He Hp) as [H | (Hff & _)].
  - split; [exact H |]. intros ->.
    rewrite (main_creations p w fuel s Hrun). split; [reflexivity |].
    destruct (main_exit_deletes p w fuel s Hrun) as (_ & _ & ->).
    destruct p; try discriminate Hp; reflexivity.
  - now apply laid_out_flips in Hw.
Qed.

Lemma X13_witness :
  deleted (trace (snd (go_run (main_of CubeP escape_world 5)))) =
    rev (bound (trace (snd (go_run (main_of CubeP escape_world 5))))) /\
  (ExitNormal = ExitNormal ->
   filter is_creation (trace (snd (go_run (main_of CubeP escape_world 5))))
     = creations_of CubeP /\
   List.length
     (filter is_creation
        (trace (snd (go_run (main_of CubeP escape_world 5))))) =
     (List.length
        (deleted (trace (snd (go_run (main_of CubeP escape_world 5))))) + 3)
       %nat).
Proof.
  apply (X13_objects_bound_are_deleted CubeP escape_world 5%nat ExitNormal).
  - vm_compute. reflexivity.
  - discriminate.
  - reflexivity.
  - intros r q [= <-]. unfold laid_out. vm_compute.
    split; [repeat split; discriminate | lia].
Defined.

(** X14. A sample file is closed as soon as its texture has been handed to
    [gl.TexImage2D], and not before: in every run, as far as it has got,
    the files closed are the first [k] of the files asked for with
    [os.Open], [k] being the number of texture images handed over.  So a
    file whose texture cannot be made is never closed, and once the setup
    has returned every file asked for is closed. *)
Theorem X14_files_are_closed_after_the_upload :
  forall p w fuel,
    closed (trace (snd (go_run (main_of p w fuel)))) =
      firstn (uploads (trace (snd (go_run (main_of p w fuel)))))
        (opened (trace (snd (go_run (main_of p w fuel))))) /\
    (enters_loop p w fuel ->
     closed (trace (snd (go_run (main_of p w fuel)))) =
     opened (trace (snd (go_run (main_of p w fuel))))).
Proof.
  intros p w fuel.
  apply (main_files p w fuel (fst (go_run (main_of p w fuel)))),
    surjective_pairing.
Qed.

(** X15. [errorCallback] is registered before anything else, so what GLFW
    reports while [glfw.Init()] runs is printed: when [glfw.Init()] fails,
    every program has made two calls, [glfw.SetErrorCallback] and
    [glfw.Init], has printed one line [<code>: <description>] per error
    GLFW reported during [glfw.Init()], in the order reported, and ends in
    the panic [Can't init glfw!]; nothing was deferred, so
    [glfw.Terminate()] is not called. *)
Theorem X15_failed_init_is_reported :
  forall p w fuel,
    w_glfw_Init w = false ->
    fst (go_run (main_of p w fuel)) = ExitPanic "Can't init glfw!" /\
    trace (snd (go_run (main_of p w fuel))) =
      [GlfwSetErrorCallback; GlfwInit] /\
    stdout (snd (go_run (main_of p w fuel))) =
      map (fun e => (show_Z (fst e) ++ ": " ++ snd e ++ nl)%string)
        (w_glfw_errors w 1).
Proof.
  intros p w fuel H. rewrite (main_failed_init p w fuel H).
  split; [| split]; reflexivity.
Qed.

Lemma X15_witness :
  fst (go_run (main_of CubeP headless_world 5)) =
    ExitPanic "Can't init glfw!" /\
  trace (snd (go_run (main_of CubeP headless_world 5))) =
    [GlfwSetErrorCallback; GlfwInit] /\
  stdout (snd (go_run (main_of CubeP headless_world 5))) =
    map (fun e => (show_Z (fst e) ++ ": " ++ snd e ++ nl)%string)
      (w_glfw_errors headless_world 1).
Proof.
  apply (X15_failed_init_is_reported CubeP headless_world 5%nat).
  reflexivity.
Defined.
